(** * Attendance and grade services of the SS007Q17 classroom tracker

    A shallow embedding of the TypeScript services
    ([attendanceService.ts], [gradeService.ts], [authService.ts]) and of the
    attendance page's authorisation helpers, with the properties the
    specification states about them.

    JavaScript numbers are IEEE binary64 values and are modelled by Rocq's
    primitive floats; strings are byte strings (UTF-8); Firestore collections
    are finite maps from document ids to typed documents. *)

From Stdlib Require Import ZArith String List Ascii Bool Lia Sorting.Sorted.
From Stdlib Require Import Floats.PrimFloat Floats.SpecFloat Floats.FloatOps Floats.FloatClass Floats.FloatAxioms.
From stdpp Require Import gmap strings pretty.

Set Warnings "-inexact-float".
Local Open Scope string_scope.
Local Open Scope Z_scope.

(** ** JavaScript numbers *)

Module JsNumber.

(** The binary64 value nearest to the rational [n / d] (ties to even), with
    the sign [neg], for [0 <= n] and [0 < d]: how a decimal literal is
    read. *)
Definition nearest (neg : bool) (n d : Z) : float :=
  if n <=? 0 then (if neg then (-0)%float else 0%float)
  else SF2Prim (SFdiv prec emax (S754_finite neg (Z.to_pos n) 0)
                                (S754_finite false (Z.to_pos d) 0)).

(** The value [m * 10^e], correctly rounded. *)
Definition of_decimal (neg : bool) (m e : Z) : float :=
  if 0 <=? e then nearest neg (m * 10 ^ e) 1 else nearest neg m (10 ^ (- e)).

(** An integer as a number. *)
Definition of_Z (z : Z) : float :=
  nearest (z <? 0) (Z.abs z) 1.

(** A finite number as its sign and the exact fraction [num / den] of its
    magnitude. *)
Definition to_fraction (x : float) : option (bool * Z * Z) :=
  match Prim2SF x with
  | S754_finite s m e =>
      if 0 <=? e then Some (s, Z.pos m * 2 ^ e, 1)
      else Some (s, Z.pos m, 2 ^ (- e))
  | S754_zero s => Some (s, 0, 1)
  | _ => None
  end.

Definition isNaN (x : float) : bool := PrimFloat.is_nan x.

Definition is_neg_zero (x : float) : bool :=
  match classify x with NZero => true | _ => false end.

(** [Math.max] and [Math.min] on two arguments. *)
Definition max2 (a b : float) : float :=
  if PrimFloat.is_nan a || PrimFloat.is_nan b then nan
  else if PrimFloat.ltb a b then b
  else if PrimFloat.ltb b a then a
  else if is_neg_zero a then b else a.

Definition min2 (a b : float) : float :=
  if PrimFloat.is_nan a || PrimFloat.is_nan b then nan
  else if PrimFloat.ltb a b then a
  else if PrimFloat.ltb b a then b
  else if is_neg_zero a then a else b.

(** [Math.max(...values)] and [Math.min(...values)]. *)
Definition Math_max (values : list float) : float :=
  fold_left max2 values neg_infinity.

Definition Math_min (values : list float) : float :=
  fold_left min2 values infinity.

(** [Number(x.toFixed(2))].  For a finite [x] below [1e21] in magnitude,
    [toFixed(2)] prints the integer [n] for which [n / 100] is nearest to
    the magnitude of [x] (the larger [n] on a tie) with two fraction
    digits, after a minus sign when [x < 0], and [Number] reads that
    decimal back; other values are printed as by [String(x)] and read back
    unchanged. *)
Definition Number_toFixed2 (x : float) : float :=
  match to_fraction x with
  | None => x
  | Some (s, num, den) =>
      if PrimFloat.leb 1e21%float (PrimFloat.abs x) then x
      else
        let n := (2 * num * 100 + den) / (2 * den) in
        nearest (s && (0 <? num)) n 100
  end.

(** *** [Number::toString] *)

(** [num / den] compared with [10^n]. *)
Definition cmp_pow10 (num den n : Z) : comparison :=
  if 0 <=? n then num ?= den * 10 ^ n else num * 10 ^ (- n) ?= den.

(** The [n] with [10^(n-1) <= num/den < 10^n], searched from a start. *)
Fixpoint decimal_exponent (fuel : nat) (num den n : Z) : Z :=
  match fuel with
  | O => n
  | S fuel' =>
      match cmp_pow10 num den n with
      | Lt =>
          match cmp_pow10 num den (n - 1) with
          | Lt => decimal_exponent fuel' num den (n - 1)
          | _ => n
          end
      | _ => decimal_exponent fuel' num den (n + 1)
      end
  end.

(** The digits [s], the exponent [n] and the digit count [k] of the
    shortest decimal [s * 10^(n-k)] that reads back as [x]; among several
    of that length, the one nearest to [x], the even one on a tie. *)
Fixpoint shortest_digits (fuel : nat) (x : float) (num den n0 k : Z) : Z * Z * Z :=
  match fuel with
  | O => (0, n0, k)
  | S fuel' =>
      let p := n0 - k in
      let s_lo := if 0 <=? p then num / (den * 10 ^ p) else (num * 10 ^ (- p)) / den in
      let s_hi := s_lo + 1 in
      let reads_back s := PrimFloat.eqb (of_decimal false s p) x in
      let lo_nearer :=
        match (if 0 <=? p then 2 * num ?= (s_lo + s_hi) * 10 ^ p * den
               else 2 * num * 10 ^ (- p) ?= (s_lo + s_hi) * den) with
        | Lt => true
        | Gt => false
        | Eq => Z.even s_lo
        end in
      let pick s := if s =? 10 ^ k then (1, n0 + 1, 1) else (s, n0, k) in
      match reads_back s_lo, reads_back s_hi with
      | true, true => if lo_nearer then pick s_lo else pick s_hi
      | true, false => pick s_lo
      | false, true => pick s_hi
      | false, false => shortest_digits fuel' x num den n0 (k + 1)
      end
  end.

Definition zeros (k : Z) : string := String.concat "" (repeat "0" (Z.to_nat k)).

Definition digits (n : Z) : string := pretty (Z.to_N n).

Definition toString_positive (x : float) (num den : Z) : string :=
  let n0 := decimal_exponent 800 num den 0 in
  let '(s, n, k) := shortest_digits 20 x num den n0 1 in
  let ds := digits s in
  if (k <=? n) && (n <=? 21) then ds ++ zeros (n - k)
  else if (0 <? n) && (n <=? 21) then
    substring 0 (Z.to_nat n) ds ++ "." ++ substring (Z.to_nat n) (Z.to_nat (k - n)) ds
  else if (-6 <? n) && (n <=? 0) then "0." ++ zeros (- n) ++ ds
  else
    let e := (if 0 <=? n - 1 then "+" else "-") ++ digits (Z.abs (n - 1)) in
    if k =? 1 then ds ++ "e" ++ e
    else substring 0 1 ds ++ "." ++ substring 1 (Z.to_nat (k - 1)) ds ++ "e" ++ e.

Definition toString (x : float) : string :=
  if PrimFloat.is_nan x then "NaN"
  else match to_fraction x with
       | None => if PrimFloat.ltb x 0%float then "-Infinity" else "Infinity"
       | Some (s, num, den) =>
           if num =? 0 then "0"
           else (if s then "-" else "") ++ toString_positive (PrimFloat.abs x) num den
       end.

(** *** [parseFloat] on a string *)

Definition bytes (l : list nat) : string :=
  string_of_list_ascii (map ascii_of_nat l).

(** The white space and line terminators of the language, in UTF-8. *)
Definition StrWhiteSpaceChar : list string :=
  map bytes
    [ [9]; [10]; [11]; [12]; [13]; [32]; [194; 160]; [225; 154; 128];
      [226; 128; 128]; [226; 128; 129]; [226; 128; 130]; [226; 128; 131];
      [226; 128; 132]; [226; 128; 133]; [226; 128; 134]; [226; 128; 135];
      [226; 128; 136]; [226; 128; 137]; [226; 128; 138]; [226; 128; 168];
      [226; 128; 169]; [226; 128; 175]; [226; 129; 159]; [227; 128; 128];
      [239; 187; 191] ]%nat.

Definition drop_string (n : nat) (s : string) : string :=
  substring n (String.length s - n) s.

Definition strip_white_space (s : string) : option string :=
  match List.find (fun t => String.prefix t s) StrWhiteSpaceChar with
  | Some t => Some (drop_string (String.length t) s)
  | None => None
  end.

Fixpoint trim_start (fuel : nat) (s : string) : string :=
  match fuel with
  | O => s
  | S fuel' =>
      match strip_white_space s with
      | Some r => trim_start fuel' r
      | None => s
      end
  end.

Definition digit_of (c : ascii) : option Z :=
  let n := Z.of_nat (nat_of_ascii c) in
  if (48 <=? n) && (n <=? 57) then Some (n - 48) else None.

(** Reads decimal digits onto [acc]: the value, the digit count, the rest. *)
Fixpoint read_digits (s : string) (acc cnt : Z) : Z * Z * string :=
  match s with
  | String c r =>
      match digit_of c with
      | Some d => read_digits r (acc * 10 + d) (cnt + 1)
      | None => (acc, cnt, s)
      end
  | EmptyString => (acc, cnt, s)
  end.

Definition read_sign (s : string) : bool * string :=
  match s with
  | String "+" r => (false, r)
  | String "-" r => (true, r)
  | _ => (false, s)
  end.

(** The exponent part, when one is well formed at the head of [s]. *)
Definition read_exponent (s : string) : Z :=
  match s with
  | String c r =>
      if (Ascii.eqb c "e" || Ascii.eqb c "E")%bool then
        let '(neg, r') := read_sign r in
        let '(e, cnt, _) := read_digits r' 0 0 in
        if cnt =? 0 then 0 else if neg then - e else e
      else 0
  | EmptyString => 0
  end.

(** The longest prefix of the trimmed input that is a [StrDecimalLiteral],
    as a number; [NaN] when there is none. *)
Definition parseFloat_string (input : string) : float :=
  let s := trim_start (String.length input) input in
  let '(neg, s1) := read_sign s in
  if String.prefix "Infinity" s1 then (if neg then neg_infinity else infinity)
  else
    let '(ip, ilen, s2) := read_digits s1 0 0 in
    let '(m, flen, s3) :=
      match s2 with
      | String "." r => read_digits r ip 0
      | _ => (ip, 0, s2)
      end in
    if ilen + flen =? 0 then nan
    else of_decimal neg m (read_exponent s3 - flen).

End JsNumber.

(** ** JavaScript values *)

Module Js.

(** The values a spreadsheet cell can hold. *)
Inductive value :=
| undefined
| null
| boolean (b : bool)
| number (x : float)
| str (s : string).

(** [ToBoolean]. *)
Definition truthy (v : value) : bool :=
  match v with
  | undefined | null => false
  | boolean b => b
  | number x => negb (PrimFloat.is_nan x || PrimFloat.eqb x 0%float)
  | str s => negb (String.eqb s "")
  end.

(** [a || b]. *)
Definition or (a b : value) : value := if truthy a then a else b.

(** [ToString], also the [toString()] method of a truthy value. *)
Definition ToString (v : value) : string :=
  match v with
  | undefined => "undefined"
  | null => "null"
  | boolean true => "true"
  | boolean false => "false"
  | number x => JsNumber.toString x
  | str s => s
  end.

Definition parseFloat (v : value) : float :=
  JsNumber.parseFloat_string (ToString v).

(** [s.includes(t)]. *)
Definition includes (s t : string) : bool :=
  match index 0 t s with Some _ => true | None => false end.

(** A thrown value: a Firebase error carries a [code], an [Error] made by
    [new Error(message)] does not. *)
Record Error := { code : option string; message : string }.

Definition new_Error (msg : string) : Error := {| code := None; message := msg |}.

(** How a call ends. *)
Inductive completion (A : Type) :=
| Return (a : A)
| Throw (e : Error).
Arguments Return {A} a.
Arguments Throw {A} e.

End Js.

(** ** The types of [types/index.ts] *)

Inductive UserRole := teacher | student | group_leader.

#[global] Instance UserRole_eq_dec : EqDecision UserRole.
Proof. solve_decision. Defined.

Module Student.
Record t := mk {
  account : string;
  name : string;
  surname : string;
  group : string
}.
End Student.

Module StudentPermission.
Record t := mk {
  studentAccount : string;
  canMarkAttendance : bool;
  canEditGrades : bool;
  isGroupLeader : bool;
  role : UserRole;
  createdAt : Z;
  updatedAt : Z;
  createdBy : option string
}.
End StudentPermission.

(** An attendance document.  The two key fields are written by every writer;
    the others are absent from documents a merge created.  [id] is set on the
    records a listing returns, never in the store. *)
Module AttendanceRecord.
Record t := mk {
  id : option string;
  studentAccount : string;
  date : string;
  isPresent : option bool;
  participationCount : option Z;
  createdAt : option Z;
  updatedAt : option Z;
  updatedBy : option string
}.
End AttendanceRecord.

Inductive GradeType :=
| midterm | final | assignment1 | assignment2 | assignment3 | project | participation.

#[global] Instance GradeType_eq_dec : EqDecision GradeType.
Proof. solve_decision. Defined.

Module GradeRecord.
Record t := mk {
  id : option string;
  studentAccount : string;
  midterm : option float;
  final : option float;
  assignment1 : option float;
  assignment2 : option float;
  assignment3 : option float;
  project : option float;
  participation : option float;
  total : option float;
  updatedAt : option Z;
  updatedBy : option string
}.
End GradeRecord.

Module AuthUser.
(** The fields of the Firebase [User] stub that carry data, with the two
    the application adds. *)
Record t := mk {
  uid : string;
  email : string;
  displayName : string;
  emailVerified : bool;
  isAnonymous : bool;
  providerId : string;
  role : UserRole;
  studentAccount : option string
}.
End AuthUser.

Module AttendanceFilter.
Record t := mk {
  date : option string;
  studentAccount : option string;
  group : option string
}.
Definition empty : t := mk None None None.
End AttendanceFilter.

Module ExcelValidationError.
Record t := mk {
  row : Z;
  account : Js.value;
  field : string;
  error : string
}.
End ExcelValidationError.

Module ExcelUploadResult.
Record t := mk {
  success : bool;
  message : string;
  errors : list ExcelValidationError.t;
  processedCount : Z;
  totalCount : Z
}.
End ExcelUploadResult.

(** The name of a grade category as an object key. *)
Definition GradeType_key (g : GradeType) : string :=
  match g with
  | midterm => "midterm"
  | final => "final"
  | assignment1 => "assignment1"
  | assignment2 => "assignment2"
  | assignment3 => "assignment3"
  | project => "project"
  | participation => "participation"
  end.

(** [gradeRecord[gradeType]]. *)
Definition GradeRecord_get (g : GradeType) (r : GradeRecord.t) : option float :=
  match g with
  | midterm => GradeRecord.midterm r
  | final => GradeRecord.final r
  | assignment1 => GradeRecord.assignment1 r
  | assignment2 => GradeRecord.assignment2 r
  | assignment3 => GradeRecord.assignment3 r
  | project => GradeRecord.project r
  | participation => GradeRecord.participation r
  end.

(** The record with [[gradeType]: value] written over it. *)
Definition GradeRecord_set (g : GradeType) (v : option float) (r : GradeRecord.t)
  : GradeRecord.t :=
  let pick g' := if decide (g = g') then v else GradeRecord_get g' r in
  GradeRecord.mk (GradeRecord.id r) (GradeRecord.studentAccount r)
    (pick midterm) (pick final) (pick assignment1) (pick assignment2)
    (pick assignment3) (pick project) (pick participation)
    (GradeRecord.total r) (GradeRecord.updatedAt r) (GradeRecord.updatedBy r).

(** ** The document store

    The Firestore back end as explicit state.  Every call to the store takes
    one entry of the script [faults]: [Some e] makes the call reject with
    [e], [None] (or an exhausted script) lets it through.  Time is a logical
    clock that advances by one across each awaited store call. *)

Module Firestore.

Record World := mkWorld {
  students : gmap string Student.t;
  attendance : gmap string AttendanceRecord.t;
  grades : gmap string GradeRecord.t;
  clock : Z;
  faults : list (option Js.Error)
}.

(** An asynchronous computation, run to completion. *)
Definition M (A : Type) : Type := World -> Js.completion A * World.

Definition ret {A} (a : A) : M A := fun w => (Js.Return a, w).

Definition throw {A} (e : Js.Error) : M A := fun w => (Js.Throw e, w).

Definition bind {A B} (c : M A) (k : A -> M B) : M B :=
  fun w =>
    match c w with
    | (Js.Return a, w') => k a w'
    | (Js.Throw e, w') => (Js.Throw e, w')
    end.

(** [try { c } catch (error) { handler }]. *)
Definition try_catch {A} (c : M A) (handler : Js.Error -> M A) : M A :=
  fun w =>
    match c w with
    | (Js.Return a, w') => (Js.Return a, w')
    | (Js.Throw e, w') => handler e w'
    end.

(** A collection of the database, as a view of the world. *)
Record Collection (D : Type) := mkCollection {
  docs : World -> gmap string D;
  put_docs : gmap string D -> World -> World
}.
Arguments docs {D} _ _.
Arguments put_docs {D} _ _ _.

Definition studentsCol : Collection Student.t :=
  mkCollection _ students
    (fun m w => mkWorld m (attendance w) (grades w) (clock w) (faults w)).

Definition attendanceCol : Collection AttendanceRecord.t :=
  mkCollection _ attendance
    (fun m w => mkWorld (students w) m (grades w) (clock w) (faults w)).

Definition gradesCol : Collection GradeRecord.t :=
  mkCollection _ grades
    (fun m w => mkWorld (students w) (attendance w) m (clock w) (faults w)).

(** What the script holds for the next store call. *)
Definition next_fault (w : World) : option Js.Error :=
  match faults w with
  | f :: _ => f
  | [] => None
  end.

(** The world once a store call has been answered. *)
Definition advance (w : World) : World :=
  mkWorld (students w) (attendance w) (grades w) (clock w + 1) (tail (faults w)).

(** One round trip to the back end. *)
Definition await_store {A} (op : World -> Js.completion A * World) : M A :=
  fun w =>
    match next_fault w with
    | Some e => (Js.Throw e, advance w)
    | None => op (advance w)
    end.

(** [Timestamp.now()] and [new Date()]. *)
Definition Timestamp_now : M Z := fun w => (Js.Return (clock w), w).

Inductive Direction := asc | desc.

(** Stable insertion of [x] before the first element it precedes. *)
Fixpoint insert_sorted {A} (le : A -> A -> bool) (x : A) (l : list A) : list A :=
  match l with
  | [] => [x]
  | y :: l' => if le x y then x :: l else y :: insert_sorted le x l'
  end.

Definition sort {A} (le : A -> A -> bool) (l : list A) : list A :=
  foldr (insert_sorted le) [] l.

(** The order of a result set: by the [orderBy] field (strings compare by
    their bytes), then by document id in the same direction; by document
    id when the query has no [orderBy]. *)
Definition result_le {D} (orderBy : option ((D -> string) * Direction))
  (a b : string * D) : bool :=
  match orderBy with
  | None => String.leb (fst a) (fst b)
  | Some (field, dir) =>
      let '(x, y) := match dir with asc => (a, b) | desc => (b, a) end in
      match String.compare (field (snd x)) (field (snd y)) with
      | Lt => true
      | Gt => false
      | Eq => String.leb (fst x) (fst y)
      end
  end.

(** [getDocs(query(collection, where..., orderBy...))]. *)
Definition getDocs {D} (c : Collection D) (where_ : D -> bool)
  (orderBy : option ((D -> string) * Direction)) : M (list (string * D)) :=
  await_store (fun w =>
    (Js.Return (sort (result_le orderBy)
                  (List.filter (fun d => where_ (snd d)) (map_to_list (docs c w)))),
     w)).

(** [getDoc(doc(db, collection, id))]: the data when the document exists. *)
Definition getDoc {D} (c : Collection D) (id : string) : M (option D) :=
  await_store (fun w => (Js.Return (docs c w !! id), w)).

(** [setDoc(ref, data)]: create or replace. *)
Definition setDoc {D} (c : Collection D) (id : string) (data : D) : M unit :=
  await_store (fun w => (Js.Return tt, put_docs c (<[id := data]> (docs c w)) w)).

Definition not_found : Js.Error :=
  {| Js.code := Some "not-found"; Js.message := "No document to update" |}.

(** [updateDoc(ref, data)]: the fields of [data] written over an existing
    document; rejects when there is none. *)
Definition updateDoc {D} (c : Collection D) (id : string) (data : D -> D) : M unit :=
  await_store (fun w =>
    match docs c w !! id with
    | Some d => (Js.Return tt, put_docs c (<[id := data d]> (docs c w)) w)
    | None => (Js.Throw not_found, w)
    end).

(** [setDoc(ref, data, { merge: true })]: as [updateDoc] on an existing
    document, else a new document holding the fields of [data] alone. *)
Definition setDoc_merge {D} (c : Collection D) (id : string) (data : D -> D)
  (alone : D) : M unit :=
  await_store (fun w =>
    let d' := match docs c w !! id with Some d => data d | None => alone end in
    (Js.Return tt, put_docs c (<[id := d']> (docs c w)) w)).

Definition deleteDoc {D} (c : Collection D) (id : string) : M unit :=
  await_store (fun w => (Js.Return tt, put_docs c (delete id (docs c w)) w)).

End Firestore.

Import Firestore.

Notation "'let*' x ':=' c 'in' k" := (bind c (fun x => k))
  (at level 10, x pattern, c at level 100, k at level 200).

(** [Promise.all] over calls already started: every call runs to its end
    (here one after the other, in array order); the result rejects with the
    first rejection. *)
Fixpoint Promise_all (ps : list (M unit)) : M unit :=
  fun w =>
    match ps with
    | [] => (Js.Return tt, w)
    | p :: ps' =>
        let '(r, w') := p w in
        let '(rs, w'') := Promise_all ps' w' in
        (match r with Js.Throw e => Js.Throw e | Js.Return _ => rs end, w'')
    end.

(** ** Dates *)

Module JsDate.
(** A [Date], as the local calendar day that [format] prints. *)
Record t := mk { year : N; month : N; day : N }.
End JsDate.

Definition addLeadingZeros (n : N) (targetLength : nat) : string :=
  let ds := pretty n in
  JsNumber.zeros (Z.of_nat (targetLength - String.length ds)) ++ ds.

(** [format(date, 'yyyy-MM-dd')] of date-fns. *)
Definition format_yyyy_MM_dd (d : JsDate.t) : string :=
  addLeadingZeros (JsDate.year d) 4 ++ "-" ++
  addLeadingZeros (JsDate.month d) 2 ++ "-" ++
  addLeadingZeros (JsDate.day d) 2.

(** ** Objects used as dictionaries *)

Module JsObject.

(** The number a key denotes when it is an array index: a canonical
    decimal below [2^32 - 1]. *)
Definition array_index (k : string) : option Z :=
  let '(n, cnt, rest) := JsNumber.read_digits k 0 0 in
  if (0 <? cnt) && String.eqb rest "" && String.eqb (pretty (Z.to_N n)) k
     && (n <? 2 ^ 32 - 1)
  then Some n else None.

(** [Object.entries] of an object whose keys were created in the order of
    [o]: the array-index keys by value, then the others as created. *)
Definition entries {V} (o : list (string * V)) : list (string * V) :=
  let indexed := omap (fun kv => match array_index (fst kv) with
                                 | Some n => Some (n, kv)
                                 | None => None
                                 end) o in
  (map snd (Firestore.sort (fun a b => fst a <=? fst b) indexed)
   ++ List.filter (fun kv => match array_index (fst kv) with
                             | Some _ => false
                             | None => true
                             end) o)%list.

(** [acc[k].push(v)], after [acc[k] = []] when the key is new. *)
Fixpoint push {V} (k : string) (v : V) (o : list (string * list V))
  : list (string * list V) :=
  match o with
  | [] => [(k, [v])]
  | (k', vs) :: o' =>
      if String.eqb k' k then (k', (vs ++ [v])%list) :: o' else (k', vs) :: push k v o'
  end.

End JsObject.

(** ** The default order of [Array.prototype.sort]

    Without a comparator, strings are compared by their UTF-16 code units.
    The strings of the model are UTF-8, so they are decoded first. *)

Module DefaultSort.

Definition byte_of (c : ascii) : Z := Z.of_nat (nat_of_ascii c).

(** The continuation bits of a byte. *)
Definition low6 (b : Z) : Z := Z.land b 63.

(** The code points of a UTF-8 string; a byte that opens no well-formed
    sequence counts for itself. *)
Fixpoint code_points (bs : list Z) : list Z :=
  match bs with
  | [] => []
  | b0 :: rest =>
      if b0 <? 192 then b0 :: code_points rest
      else if b0 <? 224 then
        match rest with
        | b1 :: rest1 => (Z.land b0 31 * 64 + low6 b1) :: code_points rest1
        | _ => b0 :: code_points rest
        end
      else if b0 <? 240 then
        match rest with
        | b1 :: b2 :: rest2 =>
            (Z.land b0 15 * 4096 + low6 b1 * 64 + low6 b2) :: code_points rest2
        | _ => b0 :: code_points rest
        end
      else
        match rest with
        | b1 :: b2 :: b3 :: rest3 =>
            (Z.land b0 7 * 262144 + low6 b1 * 4096 + low6 b2 * 64 + low6 b3)
            :: code_points rest3
        | _ => b0 :: code_points rest
        end
  end.

(** The UTF-16 code units of a code point. *)
Definition code_units_of (cp : Z) : list Z :=
  if cp <? 65536 then [cp]
  else [55296 + Z.shiftr (cp - 65536) 10; 56320 + Z.land (cp - 65536) 1023].

Definition code_units (s : string) : list Z :=
  concat (map code_units_of
            (code_points (map byte_of (list_ascii_of_string s)))).

Fixpoint compare_units (a b : list Z) : comparison :=
  match a, b with
  | [], [] => Eq
  | [], _ :: _ => Lt
  | _ :: _, [] => Gt
  | x :: a', y :: b' =>
      match x ?= y with
      | Eq => compare_units a' b'
      | c => c
      end
  end.

(** [a] does not come after [b]. *)
Definition le (a b : string) : bool :=
  match compare_units (code_units a) (code_units b) with
  | Gt => false
  | _ => true
  end.

(** [array.sort()] on strings. *)
Definition sort (l : list string) : list string := Firestore.sort le l.

End DefaultSort.

(** [Array.from(new Set(l))]: the elements in the order of their first
    occurrence. *)
Fixpoint Set_values (seen l : list string) : list string :=
  match l with
  | [] => []
  | x :: rest =>
      if bool_decide (x ∈ seen) then Set_values seen rest
      else x :: Set_values (x :: seen) rest
  end.


(** ** [attendanceService.ts] *)

Module AttendanceService.

Import AttendanceRecord.

Module DateStat.
Record t := mk {
  date : string;
  presentCount : Z;
  totalCount : Z;
  rate : float
}.
End DateStat.

Module Stats.
Record t := mk {
  totalClasses : Z;
  totalStudents : Z;
  attendanceRate : float;
  dateStats : list DateStat.t
}.
End Stats.

(** An optional filter value that is set and not the empty string. *)
Definition filter_on (f : option string) (field : string) : bool :=
  match f with
  | Some v => if String.eqb v "" then true else String.eqb field v
  | None => true
  end.

Definition docId (studentAccount dateString : string) : string :=
  studentAccount ++ "_" ++ dateString.

(** A document that holds its key fields and nothing else. *)
Definition blank (account dateString : string) : AttendanceRecord.t :=
  mk None account dateString None None None None None.

(** The fields of [attendanceData], [{ studentAccount, date, isPresent,
    updatedAt, updatedBy }], written over a document. *)
Definition attendanceData (account dateString : string) (present : bool)
  (stamp : Z) (markedBy : string) (old : AttendanceRecord.t)
  : AttendanceRecord.t :=
  mk (id old) account dateString (Some present)
     (participationCount old) (createdAt old)
     (Some stamp) (Some markedBy).

(** The fields [{ createdAt, participationCount: 0 }] of a new record,
    written over a document. *)
Definition newRecord (created : Z) (old : AttendanceRecord.t)
  : AttendanceRecord.t :=
  mk (id old) (studentAccount old) (date old) (isPresent old)
     (Some 0) (Some created) (updatedAt old) (updatedBy old).

(** The fields [{ studentAccount, date, participationCount, updatedAt,
    updatedBy }] written over a document. *)
Definition participationData (account dateString : string) (count : Z)
  (stamp : Z) (by_ : string) (old : AttendanceRecord.t) : AttendanceRecord.t :=
  mk (id old) account dateString (isPresent old) (Some count)
     (createdAt old) (Some stamp) (Some by_).

Section Collation.

(** [a.localeCompare(b)]: negative, zero or positive.  The collation is
    the host's. *)
Variable localeCompare : string -> string -> Z.

(** The comparator of the in-memory sort: newest date first, then by
    account. *)
Definition compare_records (a b : AttendanceRecord.t) : Z :=
  let dateCompare := localeCompare (date b) (date a) in
  if negb (dateCompare =? 0) then dateCompare
  else localeCompare (studentAccount a) (studentAccount b).

Definition getAttendanceRecords (filter : AttendanceFilter.t)
  : M (list AttendanceRecord.t) :=
  try_catch
    (let* querySnapshot :=
       getDocs attendanceCol
         (fun d => filter_on (AttendanceFilter.date filter) (date d)
                   && filter_on (AttendanceFilter.studentAccount filter)
                                (studentAccount d))
         (Some (date, desc)) in
     let* now := Timestamp_now in
     let records :=
       map (fun '(doc_id, data) =>
              mk (Some doc_id) (studentAccount data) (date data)
                 (isPresent data) (participationCount data)
                 (Some (default now (createdAt data)))
                 (Some (default now (updatedAt data)))
                 (updatedBy data))
           querySnapshot in
     ret (Firestore.sort (fun a b => compare_records a b <=? 0) records))
    (fun error => ret []).

Definition getAttendanceByDate (d : JsDate.t) : M (list AttendanceRecord.t) :=
  getAttendanceRecords
    (AttendanceFilter.mk (Some (format_yyyy_MM_dd d)) None None).

Definition getAttendanceByStudent (account : string)
  : M (list AttendanceRecord.t) :=
  getAttendanceRecords (AttendanceFilter.mk None (Some account) None).

Definition markAttendance (account : string) (d : JsDate.t)
  (present : bool) (markedBy : string) : M unit :=
  try_catch
    (let dateString := format_yyyy_MM_dd d in
     let* stamp := Timestamp_now in
     let* existingRecords :=
       getAttendanceRecords
         (AttendanceFilter.mk (Some dateString) (Some account) None) in
     if (0 <? List.length existingRecords)%nat then
       updateDoc attendanceCol (docId account dateString)
         (attendanceData account dateString present stamp markedBy)
     else
       let* created := Timestamp_now in
       setDoc attendanceCol (docId account dateString)
         (newRecord created
            (attendanceData account dateString present stamp markedBy
               (blank account dateString))))
    (fun error => throw (Js.new_Error "Không thể lưu điểm danh.")).

Definition batchMarkAttendance
  (attendanceData : list (string * JsDate.t * bool)) (markedBy : string)
  : M unit :=
  try_catch
    (Promise_all
       (map (fun '(account, d, present) =>
               markAttendance account d present markedBy)
            attendanceData))
    (fun error => throw (Js.new_Error "Không thể lưu điểm danh hàng loạt.")).

End Collation.

Definition updateParticipation (account : string) (d : JsDate.t)
  (count : Z) (by_ : string) : M unit :=
  try_catch
    (let dateString := format_yyyy_MM_dd d in
     let* stamp := Timestamp_now in
     setDoc_merge attendanceCol (docId account dateString)
       (participationData account dateString count stamp by_)
       (participationData account dateString count stamp by_
          (blank account dateString)))
    (fun error => throw (Js.new_Error "Không thể cập nhật số lần phát biểu.")).

Definition truthy_present (r : AttendanceRecord.t) : bool :=
  match isPresent r with Some b => b | None => false end.

Definition count_present (rs : list AttendanceRecord.t) : Z :=
  Z.of_nat (List.length (List.filter truthy_present rs)).

(** [x > 0 ? (y / x) * 100 : 0]. *)
Definition percentage (part whole : Z) : float :=
  if 0 <? whole
  then (JsNumber.of_Z part / JsNumber.of_Z whole * 100)%float
  else 0%float.

Definition getAttendanceStats (startDate endDate : JsDate.t) : M Stats.t :=
  try_catch
    (let startDateString := format_yyyy_MM_dd startDate in
     let endDateString := format_yyyy_MM_dd endDate in
     let* querySnapshot :=
       getDocs attendanceCol
         (fun d => String.leb startDateString (date d)
                   && String.leb (date d) endDateString)
         (Some (date, asc)) in
     let records := map snd querySnapshot in
     let dateGroups :=
       fold_left (fun acc record => JsObject.push (date record) record acc)
                 records [] in
     let dateStats :=
       map (fun '(day, dayRecords) =>
              let presentCount := count_present dayRecords in
              let totalCount := Z.of_nat (List.length dayRecords) in
              DateStat.mk day presentCount totalCount
                (percentage presentCount totalCount))
           (JsObject.entries dateGroups) in
     let totalRecords := Z.of_nat (List.length records) in
     let totalPresent := count_present records in
     let uniqueStudents := remove_dups (map studentAccount records) in
     ret (Stats.mk (Z.of_nat (List.length dateStats))
                   (Z.of_nat (List.length uniqueStudents))
                   (percentage totalPresent totalRecords)
                   dateStats))
    (fun error => throw (Js.new_Error "Không thể tính toán thống kê điểm danh.")).

Definition deleteAttendance (account : string) (d : JsDate.t) : M unit :=
  try_catch
    (deleteDoc attendanceCol (docId account (format_yyyy_MM_dd d)))
    (fun error => throw (Js.new_Error "Không thể xóa điểm danh.")).

(** The dates that have attendance records, most recent first.  A failed
    ordered read is tried again without the ordering. *)
Definition getAttendanceDates : M (list string) :=
  try_catch
    (let* querySnapshot :=
       try_catch
         (getDocs attendanceCol (fun _ => true) (Some (date, desc)))
         (fun orderError => getDocs attendanceCol (fun _ => true) None) in
     let dates := Set_values [] (map (fun doc => date (snd doc)) querySnapshot) in
     let sortedDates := DefaultSort.sort dates in
     ret (reverse sortedDates))
    (fun error => ret []).


End AttendanceService.

(** ** [gradeService.ts] *)

Module GradeService.

(** The weight table of [calculateTotal], in the order of its keys. *)
Definition weights : list (GradeType * float) :=
  [ (midterm, 0.3); (final, 0.4); (assignment1, 0.1);
    (assignment2, 0.1); (assignment3, 0.05); (project, 0.15);
    (participation, 0.05) ]%float.

Import GradeRecord.

(** An entry of [validGrades]. *)
Module GradeUpdate.
Record t := mk {
  studentAccount : string;
  gradeType : GradeType;
  value : float
}.
End GradeUpdate.

Module GradeStats.
Record t := mk {
  average : float;
  highest : float;
  lowest : float;
  count : Z;
  distribution : list (string * Z)
}.
End GradeStats.

(** The record a read returns for a stored document. *)
Definition as_record (now : Z) (doc : string * GradeRecord.t) : GradeRecord.t :=
  let '(doc_id, data) := doc in
  mk (Some doc_id) (studentAccount data)
     (midterm data) (final data) (assignment1 data) (assignment2 data)
     (assignment3 data) (project data) (participation data)
     (total data) (Some (default now (updatedAt data))) (updatedBy data).

Definition getAllGrades : M (list GradeRecord.t) :=
  try_catch
    (let* querySnapshot :=
       getDocs gradesCol (fun _ => true) (Some (studentAccount, asc)) in
     let* now := Timestamp_now in
     ret (map (as_record now) querySnapshot))
    (fun error => throw (Js.new_Error "Không thể tải dữ liệu điểm số.")).

Definition getGradesByStudent (account : string) : M (option GradeRecord.t) :=
  try_catch
    (let* querySnapshot :=
       getDocs gradesCol (fun d => String.eqb (studentAccount d) account) None in
     let* now := Timestamp_now in
     match querySnapshot with
     | doc :: _ => ret (Some (as_record now doc))
     | [] => ret None
     end)
    (fun error => throw (Js.new_Error "Không thể tải điểm của sinh viên.")).

(** One round of the [forEach] over the weight table, on the running
    [(total, totalWeight)]. *)
Definition accumulate (gradeRecord : GradeRecord.t) (acc : float * float)
  (entry : GradeType * float) : float * float :=
  let '(sum, totalWeight) := acc in
  let '(key, weight) := entry in
  match GradeRecord_get key gradeRecord with
  | Some grade =>
      if negb (JsNumber.isNaN grade)
      then ((sum + grade * weight)%float, (totalWeight + weight)%float)
      else acc
  | None => acc
  end.

Definition calculateTotal (gradeRecord : GradeRecord.t) : float :=
  let '(sum, totalWeight) :=
    fold_left (accumulate gradeRecord) weights (0%float, 0%float) in
  if PrimFloat.ltb 0%float totalWeight
  then JsNumber.Number_toFixed2 (sum / totalWeight)%float
  else 0%float.

(** A document that holds its account and nothing else. *)
Definition blank (account : string) : GradeRecord.t :=
  mk None account None None None None None None None None None None.

(** The fields [{ total, updatedAt }] written over a document. *)
Definition totalData (newTotal : float) (stamp : Z) (old : GradeRecord.t)
  : GradeRecord.t :=
  mk (id old) (studentAccount old)
     (midterm old) (final old) (assignment1 old) (assignment2 old)
     (assignment3 old) (project old) (participation old)
     (Some newTotal) (Some stamp) (updatedBy old).

Definition recalculateTotal (account : string) : M unit :=
  try_catch
    (let* gradeRecord := getGradesByStudent account in
     match gradeRecord with
     | Some r =>
         let newTotal := calculateTotal r in
         let* stamp := Timestamp_now in
         updateDoc gradesCol account (totalData newTotal stamp)
     | None => ret tt
     end)
    (fun error => ret tt).

(** The fields of [gradeData], [{ studentAccount, [gradeType]: value,
    updatedAt, updatedBy }], written over a document. *)
Definition gradeData (account : string) (gradeType : GradeType) (value : float)
  (stamp : Z) (by_ : string) (old : GradeRecord.t) : GradeRecord.t :=
  let r := GradeRecord_set gradeType (Some value) old in
  mk (id r) account
     (midterm r) (final r) (assignment1 r) (assignment2 r)
     (assignment3 r) (project r) (participation r)
     (total r) (Some stamp) (Some by_).

Definition updateGrade (account : string) (gradeType : GradeType)
  (value : float) (by_ : string) : M unit :=
  try_catch
    (let* existingGrade := getGradesByStudent account in
     let* stamp := Timestamp_now in
     let* _ :=
       match existingGrade with
       | Some _ =>
           updateDoc gradesCol account
             (gradeData account gradeType value stamp by_)
       | None =>
           setDoc gradesCol account
             (gradeData account gradeType value stamp by_ (blank account))
       end in
     recalculateTotal account)
    (fun error => throw (Js.new_Error "Không thể cập nhật điểm.")).

Definition batchUpdateGrades (grades : list GradeUpdate.t) (by_ : string)
  : M unit :=
  try_catch
    (Promise_all
       (map (fun g => updateGrade (GradeUpdate.studentAccount g)
                        (GradeUpdate.gradeType g) (GradeUpdate.value g) by_)
            grades))
    (fun error => throw (Js.new_Error "Không thể cập nhật điểm hàng loạt.")).

Definition updateFullGrade (gradeRecord : GradeRecord.t) : M unit :=
  try_catch
    (let* stamp := Timestamp_now in
     setDoc gradesCol (studentAccount gradeRecord)
       (mk None (studentAccount gradeRecord)
           (midterm gradeRecord) (final gradeRecord)
           (assignment1 gradeRecord) (assignment2 gradeRecord)
           (assignment3 gradeRecord) (project gradeRecord)
           (participation gradeRecord)
           (Some (calculateTotal gradeRecord)) (Some stamp)
           (updatedBy gradeRecord)))
    (fun error => throw (Js.new_Error "Không thể cập nhật điểm.")).

(** *** Bulk import *)

Definition cell (row : gmap string Js.value) (key : string) : Js.value :=
  default Js.undefined (row !! key).

(** [v === undefined || v === null || v === '']. *)
Definition is_blank (v : Js.value) : bool :=
  match v with
  | Js.undefined | Js.null => true
  | Js.str s => String.eqb s ""
  | _ => false
  end.

(** The body of the validation loop for the row at index [i]: the error
    pushed on [errors], or the entry pushed on [validGrades]. *)
Definition validate_row (gradeType : GradeType) (i : nat)
  (row : gmap string Js.value) : ExcelValidationError.t + GradeUpdate.t :=
  let rowNumber := Z.of_nat i + 2 in
  if negb (Js.truthy (cell row "account")) && negb (Js.truthy (cell row "MSSV"))
     && negb (Js.truthy (cell row "studentAccount"))
  then inl (ExcelValidationError.mk rowNumber (Js.str "N/A") "account"
              "Thiếu MSSV/Account")
  else
    let account :=
      Js.or (Js.or (cell row "account") (cell row "MSSV"))
            (cell row "studentAccount") in
    let gradeValue :=
      Js.or (Js.or (cell row (GradeType_key gradeType)) (cell row "grade"))
            (cell row "score") in
    if is_blank gradeValue
    then inl (ExcelValidationError.mk rowNumber account
                (GradeType_key gradeType) "Thiếu điểm")
    else
      let numericGrade := Js.parseFloat gradeValue in
      if JsNumber.isNaN numericGrade || PrimFloat.ltb numericGrade 0%float
         || PrimFloat.ltb 10%float numericGrade
      then inl (ExcelValidationError.mk rowNumber account
                  (GradeType_key gradeType) "Điểm không hợp lệ (0-10)")
      else inr (GradeUpdate.mk (Js.ToString account) gradeType numericGrade).

(** The validation loop from index [i] on, over the arrays built so far. *)
Fixpoint validate_rows (gradeType : GradeType) (i : nat)
  (rows : list (gmap string Js.value))
  (errors : list ExcelValidationError.t) (validGrades : list GradeUpdate.t)
  : list ExcelValidationError.t * list GradeUpdate.t :=
  match rows with
  | [] => (errors, validGrades)
  | row :: rest =>
      match validate_row gradeType i row with
      | inl e => validate_rows gradeType (S i) rest (errors ++ [e])%list validGrades
      | inr g => validate_rows gradeType (S i) rest errors (validGrades ++ [g])%list
      end
  end.

Definition count_of {A} (l : list A) : Z := Z.of_nat (List.length l).

Definition processExcelUpload (excelData : list (gmap string Js.value))
  (gradeType : GradeType) (by_ : string) : M ExcelUploadResult.t :=
  try_catch
    (let '(errors, validGrades) := validate_rows gradeType 0 excelData [] [] in
     let* _ :=
       if count_of errors =? 0 then batchUpdateGrades validGrades by_
       else ret tt in
     ret (ExcelUploadResult.mk
            (count_of errors =? 0)
            (if count_of errors =? 0
             then "Cập nhật thành công " ++ pretty (count_of validGrades) ++ " điểm"
             else "Có " ++ pretty (count_of errors) ++ " lỗi trong file Excel")
            errors
            (count_of validGrades)
            (count_of excelData)))
    (fun error =>
       ret (ExcelUploadResult.mk false "Lỗi xử lý file Excel" [] 0
              (count_of excelData))).

Definition deleteGrade (account : string) : M unit :=
  try_catch
    (deleteDoc gradesCol account)
    (fun error => throw (Js.new_Error "Không thể xóa điểm.")).

(** *** Statistics *)

Definition numeric (v : option float) : option float :=
  match v with
  | Some x => if JsNumber.isNaN x then None else Some x
  | None => None
  end.

Definition how_many (p : float -> bool) (values : list float) : Z :=
  count_of (List.filter p values).

Definition getGradeStats (gradeType : GradeType) : M GradeStats.t :=
  try_catch
    (let* grades := getAllGrades in
     let values := omap (fun g => numeric (GradeRecord_get gradeType g)) grades in
     match values with
     | [] => ret (GradeStats.mk 0 0 0 0 [])
     | _ =>
         let average :=
           (fold_left PrimFloat.add values 0 / JsNumber.of_Z (count_of values))%float in
         let ge a b := PrimFloat.leb b a in
         let lt a b := PrimFloat.ltb a b in
         let distribution :=
           [ ("A (8.5-10)", how_many (fun v => ge v 8.5%float) values);
             ("B (7.0-8.4)", how_many (fun v => ge v 7%float && lt v 8.5%float) values);
             ("C (5.5-6.9)", how_many (fun v => ge v 5.5%float && lt v 7%float) values);
             ("D (4.0-5.4)", how_many (fun v => ge v 4%float && lt v 5.5%float) values);
             ("F (0-3.9)", how_many (fun v => lt v 4%float) values) ] in
         ret (GradeStats.mk (JsNumber.Number_toFixed2 average)
                (JsNumber.Math_max values) (JsNumber.Math_min values)
                (count_of values) distribution)
     end)
    (fun error => throw (Js.new_Error "Không thể tính toán thống kê điểm.")).

End GradeService.

(** ** [authService.ts] *)

Module AuthService.

(** The stand-in for a Firebase [User] that the passwordless login
    builds, with the role and the account added. *)
Definition mockUser (account displayName : string) : AuthUser.t :=
  AuthUser.mk account (account ++ "@gm.uit.edu.vn") displayName
    true false "custom" student (Some account).

(** [error?.code?.includes('permission') || error?.message?.includes('permission')]. *)
Definition is_permission_error (error : Js.Error) : bool :=
  match Js.code error with
  | Some c => Js.includes c "permission"
  | None => false
  end
  || Js.includes (Js.message error) "permission".

Definition signInWithAccount (account : string) : M AuthUser.t :=
  try_catch
    (let* studentDoc := getDoc studentsCol account in
     match studentDoc with
     | None => ret (mockUser account ("Sinh viên " ++ account))
     | Some studentData =>
         ret (mockUser account
                (Student.name studentData ++ " " ++ Student.surname studentData))
     end)
    (fun error =>
       if is_permission_error error
       then ret (mockUser account ("Demo User " ++ account))
       else throw (Js.new_Error ("Đăng nhập thất bại: " ++ Js.message error))).

(** [hasPermission(user, permission)]: what a role may do. *)
Definition hasPermission (user : option AuthUser.t) (permission : string) : bool :=
  match user with
  | None => false
  | Some u =>
      if String.eqb permission "read_all" then
        bool_decide (AuthUser.role u = teacher)
        || bool_decide (AuthUser.role u = group_leader)
      else if String.eqb permission "edit_attendance" then
        bool_decide (AuthUser.role u = teacher)
        || bool_decide (AuthUser.role u = group_leader)
      else if String.eqb permission "edit_grades" then
        bool_decide (AuthUser.role u = teacher)
      else if String.eqb permission "read_own" then true
      else false
  end.


End AuthService.

(** ** [permissionService.ts]

    The permission service keeps its documents in a collection of its own,
    [permissions], next to the world of the other services; its store calls
    take their outcome from the same script and advance the same clock. *)

Module PermissionService.

Record Backend := mkBackend {
  world : World;
  permissions : gmap string StudentPermission.t
}.

(** An asynchronous computation on the back end with its permissions. *)
Definition M (A : Type) : Type := Backend -> Js.completion A * Backend.

Definition ret {A} (a : A) : M A := fun b => (Js.Return a, b).

Definition throw {A} (e : Js.Error) : M A := fun b => (Js.Throw e, b).

Definition bind {A B} (c : M A) (k : A -> M B) : M B :=
  fun b =>
    match c b with
    | (Js.Return a, b') => k a b'
    | (Js.Throw e, b') => (Js.Throw e, b')
    end.

Definition try_catch {A} (c : M A) (handler : Js.Error -> M A) : M A :=
  fun b =>
    match c b with
    | (Js.Return a, b') => (Js.Return a, b')
    | (Js.Throw e, b') => handler e b'
    end.

#[local, warnings="-notation-overridden"] Notation "'let*' x ':=' c 'in' k" := (bind c (fun x => k))
  (at level 10, x pattern, c at level 100, k at level 200).

(** One round trip to the back end. *)
Definition await_store {A} (op : Backend -> Js.completion A * Backend) : M A :=
  fun b =>
    let later := mkBackend (advance (world b)) (permissions b) in
    match next_fault (world b) with
    | Some e => (Js.Throw e, later)
    | None => op later
    end.

Definition Timestamp_now : M Z := fun b => (Js.Return (clock (world b)), b).

Definition put (m : gmap string StudentPermission.t) (b : Backend) : Backend :=
  mkBackend (world b) m.

Definition getDoc (id : string) : M (option StudentPermission.t) :=
  await_store (fun b => (Js.Return (permissions b !! id), b)).

Definition setDoc (id : string) (data : StudentPermission.t) : M unit :=
  await_store (fun b => (Js.Return tt, put (<[id := data]> (permissions b)) b)).

Definition updateDoc (id : string) (data : StudentPermission.t -> StudentPermission.t)
  : M unit :=
  await_store (fun b =>
    match permissions b !! id with
    | Some d => (Js.Return tt, put (<[id := data d]> (permissions b)) b)
    | None => (Js.Throw Firestore.not_found, b)
    end).

Definition deleteDoc (id : string) : M unit :=
  await_store (fun b => (Js.Return tt, put (delete id (permissions b)) b)).

(** A query ordered by [studentAccount]. *)
Definition getDocs (where_ : StudentPermission.t -> bool)
  : M (list (string * StudentPermission.t)) :=
  await_store (fun b =>
    (Js.Return
       (Firestore.sort
          (Firestore.result_le (Some (StudentPermission.studentAccount, asc)))
          (List.filter (fun d => where_ (snd d)) (map_to_list (permissions b)))),
     b)).

(** [Promise.all] over calls already started, as for the other services. *)
Fixpoint Promise_all (ps : list (M unit)) : M unit :=
  fun b =>
    match ps with
    | [] => (Js.Return tt, b)
    | p :: ps' =>
        let '(r, b') := p b in
        let '(rs, b'') := Promise_all ps' b' in
        (match r with Js.Throw e => Js.Throw e | Js.Return _ => rs end, b'')
    end.

(** [Promise.allSettled]: every call runs to its end and the outcomes are
    returned in array order; the result never rejects. *)
Fixpoint Promise_allSettled {A} (ps : list (M A)) : M (list (Js.completion A)) :=
  fun b =>
    match ps with
    | [] => (Js.Return [], b)
    | p :: ps' =>
        let '(r, b') := p b in
        match Promise_allSettled ps' b' with
        | (Js.Return rs, b'') => (Js.Return (r :: rs), b'')
        | (Js.Throw e, b'') => (Js.Throw e, b'')
        end
    end.

(** The argument of [setPermission]: a permission without [id], [createdAt]
    and [updatedAt]; [createdBy] may be left out. *)
Module Input.
Record t := mk {
  studentAccount : string;
  canMarkAttendance : bool;
  canEditGrades : bool;
  isGroupLeader : bool;
  role : UserRole;
  createdBy : option string
}.
End Input.

(** A permission as a read returns it, with its document id. *)
Module Stored.
Record t := mk {
  id : string;
  permission : StudentPermission.t
}.
End Stored.

Definition getAllPermissions : M (list Stored.t) :=
  try_catch
    (let* querySnapshot := getDocs (fun _ => true) in
     ret (map (fun '(doc_id, data) => Stored.mk doc_id data) querySnapshot))
    (fun error => ret []).

Definition getPermission (account : string) : M (option Stored.t) :=
  try_catch
    (let* docSnap := getDoc account in
     match docSnap with
     | Some data => ret (Some (Stored.mk account data))
     | None => ret None
     end)
    (fun error => ret None).

(** The fields of [permissionData], the argument with [updatedAt], written
    over a document. *)
Definition permissionData (permission : Input.t) (stamp : Z)
  (old : StudentPermission.t) : StudentPermission.t :=
  StudentPermission.mk
    (Input.studentAccount permission)
    (Input.canMarkAttendance permission)
    (Input.canEditGrades permission)
    (Input.isGroupLeader permission)
    (Input.role permission)
    (StudentPermission.createdAt old)
    stamp
    (match Input.createdBy permission with
     | Some c => Some c
     | None => StudentPermission.createdBy old
     end).

(** The new document [{ ...permissionData, createdAt }]. *)
Definition newPermission (permission : Input.t) (stamp created : Z)
  : StudentPermission.t :=
  StudentPermission.mk
    (Input.studentAccount permission)
    (Input.canMarkAttendance permission)
    (Input.canEditGrades permission)
    (Input.isGroupLeader permission)
    (Input.role permission)
    created
    stamp
    (Input.createdBy permission).

Definition setPermission (permission : Input.t) : M unit :=
  try_catch
    (let* existingDoc := getDoc (Input.studentAccount permission) in
     let* stamp := Timestamp_now in
     match existingDoc with
     | Some _ =>
         updateDoc (Input.studentAccount permission)
           (permissionData permission stamp)
     | None =>
         let* created := Timestamp_now in
         setDoc (Input.studentAccount permission)
           (newPermission permission stamp created)
     end)
    (fun error => throw (Js.new_Error "Không thể cập nhật quyền hạn.")).

(** [permission?.flag || false]. *)
Definition flag_of (flag : StudentPermission.t -> bool) (p : option Stored.t)
  : bool :=
  match p with
  | Some s => flag (Stored.permission s)
  | None => false
  end.

Definition canMarkAttendance (account : string) : M bool :=
  try_catch
    (let* permission := getPermission account in
     ret (flag_of StudentPermission.canMarkAttendance permission))
    (fun error => ret false).

Definition canEditGrades (account : string) : M bool :=
  try_catch
    (let* permission := getPermission account in
     ret (flag_of StudentPermission.canEditGrades permission))
    (fun error => ret false).

Definition bulkSetPermissions (permissions : list Input.t) : M unit :=
  try_catch
    (Promise_all (map setPermission permissions))
    (fun error => throw (Js.new_Error "Không thể cập nhật quyền hạn hàng loạt.")).

Definition deletePermission (account : string) : M unit :=
  try_catch
    (deleteDoc account)
    (fun error => throw (Js.new_Error "Không thể xóa quyền hạn.")).

(** [getStudentsWithPermission(permissionType)], for the flag the type
    names. *)
Definition getStudentsWithPermission (flag : StudentPermission.t -> bool)
  : M (list Stored.t) :=
  try_catch
    (let* querySnapshot := getDocs flag in
     ret (map (fun '(doc_id, data) => Stored.mk doc_id data) querySnapshot))
    (fun error => ret []).

Definition initializeDefaultPermission (account createdBy : string) : M unit :=
  setPermission (Input.mk account false false false student (Some createdBy)).

Definition setGroupLeader (account createdBy : string) : M unit :=
  setPermission (Input.mk account true false true group_leader (Some createdBy)).

Definition setTeacher (account createdBy : string) : M unit :=
  setPermission (Input.mk account true true false teacher (Some createdBy)).

End PermissionService.

(** ** The permission set-up utilities *)

Module PermissionSetup.

Import PermissionService.

#[local, warnings="-notation-overridden"] Notation "'let*' x ':=' c 'in' k" := (bind c (fun x => k))
  (at level 10, x pattern, c at level 100, k at level 200).

Definition grantAttendancePermission (mssv : string) (role : UserRole) : M bool :=
  try_catch
    (let* _ :=
       setPermission
         (Input.mk mssv true (bool_decide (role = teacher))
            (bool_decide (role = group_leader)) role None) in
     ret true)
    (fun error => ret false).

Definition revokeAttendancePermission (mssv : string) : M bool :=
  try_catch
    (let* _ := setPermission (Input.mk mssv false false false student None) in
     ret true)
    (fun error => ret false).

Module Report.
Record t := mk { successful : Z; failed : Z }.
End Report.

Definition fulfilled {A} (r : Js.completion A) : bool :=
  match r with Js.Return _ => true | Js.Throw _ => false end.

Definition setupClassMonitors (monitorMSSVs : list string) : M Report.t :=
  let* results :=
    Promise_allSettled
      (map (fun mssv => grantAttendancePermission mssv group_leader) monitorMSSVs) in
  let successful := Z.of_nat (List.length (List.filter fulfilled results)) in
  let failed := Z.of_nat (List.length results) - successful in
  ret (Report.mk successful failed).

Definition setupTeacher (teacherMSSV : string) : M bool :=
  try_catch
    (let* _ := setPermission (Input.mk teacherMSSV true true false teacher None) in
     ret true)
    (fun error => ret false).

Definition listAllPermissions : M (list Stored.t) :=
  try_catch getAllPermissions (fun error => ret []).

End PermissionSetup.


(** ** The attendance page *)

Module AttendancePage.

Inductive Toast :=
| toast_error (msg : string)
| toast_success (msg : string).

(** The component state the handlers read and write. *)
Record State := mkState {
  students : list Student.t;
  attendance : gmap string bool;
  participation : gmap string Z;
  userPermission : option StudentPermission.t;
  user : option AuthUser.t;
  saving : option string;
  showLoginModal : bool;
  toasts : list Toast;
  today : JsDate.t
}.

Definition getParticipationScore (count : Z) : Z :=
  if count <=? 0 then 0
  else if count =? 1 then 3
  else if count =? 2 then 6
  else if count =? 3 then 9
  else if count >=? 4 then 10
  else 0.

(** [students.find(s => s.account === account)]. *)
Definition find_student (st : State) (account : string) : option Student.t :=
  List.find (fun s => String.eqb (Student.account s) account) (students st).

(** [userPermission?.canMarkAttendance], as a condition. *)
Definition may_mark (st : State) : bool :=
  match userPermission st with
  | Some p => StudentPermission.canMarkAttendance p
  | None => false
  end.

(** [userPermission?.role === role]. *)
Definition has_role (st : State) (r : UserRole) : bool :=
  match userPermission st with
  | Some p => bool_decide (StudentPermission.role p = r)
  | None => false
  end.

(** [user.studentAccount] when it is set and not empty. *)
Definition own_account (u : AuthUser.t) : option string :=
  match AuthUser.studentAccount u with
  | Some a => if String.eqb a "" then None else Some a
  | None => None
  end.

Definition canInteractWithStudent (st : State) (target : string) : bool :=
  match user st with
  | None => false
  | Some u =>
      if negb (may_mark st) then false
      else if has_role st teacher then true
      else
        match (if has_role st group_leader then own_account u else None) with
        | Some own =>
            match find_student st own, find_student st target with
            | Some currentUserStudent, Some targetStudent =>
                String.eqb (Student.group currentUserStudent)
                           (Student.group targetStudent)
            | _, _ => false
            end
        | None => false
        end
  end.

(** What the checks at the head of a handler decide. *)
Inductive Guard :=
| Proceed (u : AuthUser.t)
| Reject (msg : string) (openLogin : bool).

(** The checks shared by the two handlers, which differ in their
    messages only. *)
Definition guard (st : State) (target : string)
  (loginMsg deniedMsg groupMsg : string) : Guard :=
  match user st with
  | None => Reject loginMsg true
  | Some u =>
      if negb (may_mark st) then Reject deniedMsg false
      else
        match (if has_role st group_leader then own_account u else None) with
        | Some own =>
            match find_student st own, find_student st target with
            | Some currentUserStudent, Some targetStudent =>
                if negb (String.eqb (Student.group currentUserStudent)
                                    (Student.group targetStudent))
                then Reject (groupMsg ++ Student.group currentUserStudent) false
                else Proceed u
            | _, _ => Proceed u
            end
        | None => Proceed u
        end
  end.

Definition attendance_guard (st : State) (target : string) : Guard :=
  guard st target
    "Vui lòng đăng nhập để điểm danh"
    "Bạn không có quyền điểm danh"
    "Bạn chỉ có thể điểm danh cho sinh viên trong nhóm ".

Definition participation_guard (st : State) (target : string) : Guard :=
  guard st target
    "Vui lòng đăng nhập để cập nhật phát biểu"
    "Bạn không có quyền cập nhật phát biểu"
    "Bạn chỉ có thể cập nhật phát biểu cho sinh viên trong nhóm ".

Definition with_toast (t : Toast) (openLogin : bool) (st : State) : State :=
  mkState (students st) (attendance st) (participation st)
    (userPermission st) (user st) (saving st)
    (showLoginModal st || openLogin) (toasts st ++ [t])%list (today st).

Definition with_attendance (m : gmap string bool) (s : option string)
  (st : State) : State :=
  mkState (students st) m (participation st) (userPermission st) (user st)
    s (showLoginModal st) (toasts st) (today st).

Definition with_participation (m : gmap string Z) (s : option string)
  (st : State) : State :=
  mkState (students st) (attendance st) m (userPermission st) (user st)
    s (showLoginModal st) (toasts st) (today st).

(** [user?.uid || 'anonymous']. *)
Definition actor (u : AuthUser.t) : string :=
  if String.eqb (AuthUser.uid u) "" then "anonymous" else AuthUser.uid u.

Section Collation.

Variable localeCompare : string -> string -> Z.

Definition handleAttendanceChange (target : string) (present : bool)
  (st : State) (w : World) : State * World :=
  match attendance_guard st target with
  | Reject msg openLogin => (with_toast (toast_error msg) openLogin st, w)
  | Proceed u =>
      let st1 :=
        with_attendance (<[target := present]> (attendance st)) (Some target) st in
      match AttendanceService.markAttendance localeCompare target (today st)
              present (actor u) w with
      | (Js.Return _, w') =>
          let st2 :=
            with_toast
              (toast_success
                 ("Đã " ++ (if present then "điểm danh" else "hủy điểm danh")
                  ++ " cho " ++ target))
              false st1 in
          (with_attendance (attendance st2) None st2, w')
      | (Js.Throw _, w') =>
          let st2 :=
            with_attendance (<[target := negb present]> (attendance st1))
              (saving st1) st1 in
          let st3 := with_toast (toast_error "Không thể lưu điểm danh") false st2 in
          (with_attendance (attendance st3) None st3, w')
      end
  end.


End Collation.

Definition handleParticipationChange (target : string) (count : Z)
  (st : State) (w : World) : State * World :=
  match participation_guard st target with
  | Reject msg openLogin => (with_toast (toast_error msg) openLogin st, w)
  | Proceed u =>
      let st1 :=
        with_participation (<[target := count]> (participation st)) (Some target) st in
      match AttendanceService.updateParticipation target (today st) count
              (actor u) w with
      | (Js.Return _, w') =>
          let st2 :=
            with_toast
              (toast_success
                 ("Đã cập nhật số lần phát biểu cho " ++ target ++ ": "
                  ++ pretty count))
              false st1 in
          (with_participation (participation st2) None st2, w')
      | (Js.Throw _, w') =>
          let st2 :=
            with_participation
              (<[target := default 0 (participation st1 !! target)]>
                 (participation st1))
              (saving st1) st1 in
          let st3 :=
            with_toast (toast_error "Không thể cập nhật số lần phát biểu") false st2 in
          (with_participation (participation st3) None st3, w')
      end
  end.


End AttendancePage.

(** * Specification-side definitions *)

(** The group the roster records for an account. *)
Definition roster_group (st : AttendancePage.State) (account : string)
  : option string :=
  Student.group <$> AttendancePage.find_student st account.

(** The group the roster records for the signed-in subject. *)
Definition subject_group (st : AttendancePage.State) (u : AuthUser.t)
  : option string :=
  match AttendancePage.own_account u with
  | Some own => roster_group st own
  | None => None
  end.

(** The weighted total in the words of the specification: over the
    categories present (numeric, not [NaN]), the sum of [value * weight]
    divided by the sum of the weights, to two decimals; 0 when none is
    present. *)
Module WeightedTotal.

Definition present (r : GradeRecord.t) (key : GradeType) : bool :=
  match GradeService.numeric (GradeRecord_get key r) with
  | Some _ => true
  | None => false
  end.


Definition sum (l : list float) : float := fold_left PrimFloat.add l 0%float.


End WeightedTotal.

(** The numeric scores of a category over the stored grade documents. *)
Definition stored_scores (gradeType : GradeType)
  (m : gmap string GradeRecord.t) : list float :=
  omap (fun kv => GradeService.numeric (GradeRecord_get gradeType (snd kv)))
       (map_to_list m).


(** A number between 0 and 10. *)
Definition in_range (x : float) : Prop :=
  PrimFloat.leb 0 x = true /\ PrimFloat.leb x 10 = true.

(** Every score stored in a category lies between 0 and 10. *)
Definition scores_in_range (gradeType : GradeType)
  (m : gmap string GradeRecord.t) : Prop :=
  forall id d x,
    m !! id = Some d -> GradeRecord_get gradeType d = Some x -> in_range x.


(** [x <= y] on the specification's floating-point values. *)
Definition SFle (x y : spec_float) : Prop :=
  SFcompare x y = Some Lt \/ SFcompare x y = Some Eq.


(** * Sample worlds *)

Module Examples.

Definition empty_world : World := mkWorld ∅ ∅ ∅ 0 [].

(** A transient failure of the back end. *)
Definition unavailable : Js.Error :=
  {| Js.code := Some "unavailable";
     Js.message := "The service is currently unavailable." |}.

(** A world whose next store call fails. *)
Definition failing_world : World := mkWorld ∅ ∅ ∅ 0 [Some unavailable].

Definition a_day : JsDate.t := JsDate.mk 2024 3 7.

(** Strings compared by their bytes, as a collation. *)
Definition byte_order (a b : string) : Z :=
  match String.compare a b with Lt => -1 | Eq => 0 | Gt => 1 end.

(** One grade record with a midterm score of 5 and a total of 5. *)
Definition a_grade : GradeRecord.t :=
  GradeRecord.mk None "21520001" (Some 5%float) None None None None None None
    (Some 5%float) (Some 0) (Some "teacher").

(** Three rows that pass validation, under the three spellings of the
    account column and of the grade column. *)
Definition three_valid_rows : list (gmap string Js.value) :=
  [ list_to_map [("account", Js.number 21520001%float); ("midterm", Js.number 8.5%float)];
    list_to_map [("MSSV", Js.str "21520002"); ("grade", Js.str "7")];
    list_to_map [("studentAccount", Js.str "21520003"); ("score", Js.str "10")] ].

(** A row whose grade is out of range. *)
Definition invalid_row : gmap string Js.value :=
  list_to_map [("account", Js.str "21520004"); ("midterm", Js.number 11%float)].

(** A store holding one attendance record with three participations, whose
    next call fails. *)
Definition an_attendance : AttendanceRecord.t :=
  AttendanceRecord.mk None "21520001" "2024-03-07" (Some true) (Some 3)
    (Some 5) (Some 6) (Some "21520001").

Definition marked_query_fails : World :=
  mkWorld ∅ {[ "21520001_2024-03-07" := an_attendance ]} ∅ 10 [Some unavailable].

(** A group leader of group A, signed in, on a roster of three. *)
Definition leader_permission : StudentPermission.t :=
  StudentPermission.mk "21520001" true false true group_leader 0 0 None.

Definition roster : list Student.t :=
  [ Student.mk "21520001" "An" "Nguyen" "A";
    Student.mk "21520002" "Binh" "Tran" "A";
    Student.mk "21520003" "Chi" "Le" "B" ].

Definition leader_page : AttendancePage.State :=
  AttendancePage.mkState roster ∅ ∅ (Some leader_permission)
    (Some (AuthService.mockUser "21520001" "An Nguyen")) None false [] a_day.


(** A store that answers, holding one grade record. *)
Definition graded_world : World :=
  mkWorld ∅ ∅ {[ "21520001" := a_grade ]} 10 [].

(** The midterm statistics of that store: one score of 5. *)
Definition midterm_stats : GradeService.GradeStats.t :=
  GradeService.GradeStats.mk 5 5 5 1
    [ ("A (8.5-10)", 0); ("B (7.0-8.4)", 0); ("C (5.5-6.9)", 0);
      ("D (4.0-5.4)", 1); ("F (0-3.9)", 0) ].

(** A row that gives a midterm score of zero as a number, and one that
    gives it as text. *)
Definition zero_as_number : gmap string Js.value :=
  list_to_map [("account", Js.str "21520005"); ("midterm", Js.number 0%float)].

Definition zero_as_text : gmap string Js.value :=
  list_to_map [("account", Js.str "21520005"); ("midterm", Js.str "0")].

(** A store that answers the next call and fails the one after. *)
Definition write_fails : World := mkWorld ∅ ∅ ∅ 0 [None; Some unavailable].

(** The first mark of a student on a day, in an empty store. *)
Definition first_mark : Js.completion unit * World :=
  AttendanceService.markAttendance byte_order "21520001" a_day true "21520001"
    empty_world.

(** A store that answers, holding that attendance record. *)
Definition marked_world : World :=
  mkWorld ∅ {[ "21520001_2024-03-07" := an_attendance ]} ∅ 10 [].

(** The same student marked absent on that day. *)
Definition marked_again : Js.completion unit * World :=
  AttendanceService.markAttendance byte_order "21520001" a_day false "teacher"
    marked_world.

(** The statistics of that day in that store: one record, present. *)
Definition day_statistics : AttendanceService.Stats.t :=
  AttendanceService.Stats.mk 1 1 100
    [ AttendanceService.DateStat.mk "2024-03-07" 1 1 100 ].

(** The page of a visitor who is not signed in. *)
Definition visitor_page : AttendancePage.State :=
  AttendancePage.mkState roster ∅ ∅ None None None false [] a_day.

(** A back end with no permissions whose store answers. *)
Definition empty_backend : PermissionService.Backend :=
  PermissionService.mkBackend empty_world ∅.

(** The permission of a group leader, as given to [setPermission]. *)
Definition leader_input : PermissionService.Input.t :=
  PermissionService.Input.mk "21520001" true false true group_leader
    (Some "admin").

End Examples.

(** * Invariants of the store *)

(** The first [n] store calls from [w] on are answered. *)
Definition no_fault_within (n : nat) (w : World) : Prop :=
  Forall (fun f => f = None) (take n (faults w)).

(** Every grade document is stored under its account. *)
Definition grades_keyed (m : gmap string GradeRecord.t) : Prop :=
  forall id d, m !! id = Some d -> GradeRecord.studentAccount d = id.

(** Every attendance document is stored under its composite key. *)
Definition attendance_keyed (m : gmap string AttendanceRecord.t) : Prop :=
  forall id d,
    m !! id = Some d ->
    id = AttendanceService.docId (AttendanceRecord.studentAccount d)
                                 (AttendanceRecord.date d).

(** The attendance documents of an account on a day. *)
Definition records_for (account dateString : string)
  (m : gmap string AttendanceRecord.t) : list (string * AttendanceRecord.t) :=
  List.filter
    (fun kv => String.eqb (AttendanceRecord.studentAccount (snd kv)) account
               && String.eqb (AttendanceRecord.date (snd kv)) dateString)
    (map_to_list m).

(** A computation keeps a property of the world, however it ends. *)
Definition preserves {A} (P : World -> Prop) (c : M A) : Prop :=
  forall w, P w -> P (snd (c w)).

(** A row passes the validation of the bulk import.  The row number only
    labels an error, so the index plays no part. *)
Definition passes (gradeType : GradeType) (row : gmap string Js.value) : bool :=
  match GradeService.validate_row gradeType 0 row with
  | inr _ => true
  | inl _ => false
  end.

(** The number of rows of a batch that pass validation. *)
Definition passed_validation (gradeType : GradeType)
  (rows : list (gmap string Js.value)) : Z :=
  Z.of_nat (List.length (List.filter (passes gradeType) rows)).

(** The number of rows of a batch that fail validation. *)
Definition failed_validation (gradeType : GradeType)
  (rows : list (gmap string Js.value)) : Z :=
  Z.of_nat (List.length (List.filter (fun row => negb (passes gradeType row)) rows)).

(** * Properties *)

(** ** Participation score *)

Ltac z_cases :=
  repeat match goal with
         | |- context [?a <=? ?b] => destruct (Z.leb_spec a b)
         | |- context [?a =? ?b] => destruct (Z.eqb_spec a b)
         | |- context [?a >=? ?b] => rewrite (Z.geb_leb a b)
         end.

Lemma getParticipationScore_cases (count : Z) :
  AttendancePage.getParticipationScore count =
    if count <=? 0 then 0 else if count <? 4 then 3 * count else 10.
Proof.
  unfold AttendancePage.getParticipationScore.
  destruct (Z.ltb_spec count 4); z_cases; lia.
Qed.

(** C6: the participation score maps 0, 1, 2, 3 to 0, 3, 6, 9 and every
    count of 4 or more to 10 (so 4 and 5 both give 10), gives 0 for every
    negative count, and never decreases when the count grows. *)
Theorem getParticipationScore_step_function :
  AttendancePage.getParticipationScore 0 = 0
  /\ AttendancePage.getParticipationScore 1 = 3
  /\ AttendancePage.getParticipationScore 2 = 6
  /\ AttendancePage.getParticipationScore 3 = 9
  /\ AttendancePage.getParticipationScore 4 = 10
  /\ AttendancePage.getParticipationScore 5 = 10
  /\ (forall count, 4 <= count -> AttendancePage.getParticipationScore count = 10)
  /\ (forall count, count < 0 -> AttendancePage.getParticipationScore count = 0)
  /\ (forall a b, a <= b ->
        AttendancePage.getParticipationScore a
        <= AttendancePage.getParticipationScore b).
Proof.
  repeat split; try reflexivity.
  - intros count H. rewrite getParticipationScore_cases.
    destruct (Z.leb_spec count 0), (Z.ltb_spec count 4); lia.
  - intros count H. rewrite getParticipationScore_cases.
    destruct (Z.leb_spec count 0); lia.
  - intros a b H. rewrite !getParticipationScore_cases.
    destruct (Z.leb_spec a 0), (Z.ltb_spec a 4),
             (Z.leb_spec b 0), (Z.ltb_spec b 4); lia.
Qed.

(** ** Group scope of a group leader *)

Section GroupLeader.

Import AttendancePage.

Variables (st : State) (u : AuthUser.t) (p : StudentPermission.t).

(** A signed-in group leader who may mark attendance. *)
Hypothesis signed_in : user st = Some u.
Hypothesis permission : userPermission st = Some p.
Hypothesis leader : StudentPermission.role p = group_leader.
Hypothesis can_mark : StudentPermission.canMarkAttendance p = true.

Lemma leader_flags :
  may_mark st = true /\ has_role st teacher = false
  /\ has_role st group_leader = true.
Proof using permission leader can_mark.
  unfold may_mark, has_role. rewrite permission, leader, can_mark.
  repeat split.
Qed.

(** The page enables the controls of a target exactly when the roster
    gives the subject and the target one and the same group. *)
Lemma leader_canInteract (target : string) :
  canInteractWithStudent st target = true <->
  exists g, subject_group st u = Some g /\ roster_group st target = Some g.
Proof using All.
  destruct leader_flags as (Hm & Ht & Hg).
  unfold canInteractWithStudent, subject_group, roster_group.
  rewrite signed_in, Hm, Ht, Hg. simpl.
  destruct (own_account u) as [own|]; [|split; [done | by intros (g & ? & ?)]].
  destruct (find_student st own) as [s|], (find_student st target) as [t|];
    simpl; split; try discriminate; try (by intros (g & ? & ?)).
  - intros H%String.eqb_eq. exists (Student.group s). by rewrite H.
  - intros (g & [= <-] & [= H]). by apply String.eqb_eq.
Qed.


(** Off the roster the handlers do not apply the group check; the page
    keeps the controls of such a target disabled. *)
Lemma leader_guard_unlisted (target : string) (m1 m2 m3 : string) :
  subject_group st u = None \/ roster_group st target = None ->
  guard st target m1 m2 m3 = Proceed u
  /\ canInteractWithStudent st target = false.
Proof using All.
  intros H. split.
  - destruct leader_flags as (Hm & Ht & Hg).
    revert H. unfold guard, subject_group, roster_group.
    rewrite signed_in, Hm, Hg. simpl.
    destruct (own_account u) as [own|]; [|done].
    destruct (find_student st own) as [s|], (find_student st target) as [t|];
      simpl; intros [H|H]; done.
  - destruct (canInteractWithStudent st target) eqn:E; [|done].
    apply leader_canInteract in E as (g & Hs & Ht).
    destruct H; congruence.
Qed.




End GroupLeader.

(** A request the guard rejects reaches no store call. *)
Lemma rejected_attendance_change localeCompare st target present w msg openLogin :
  AttendancePage.attendance_guard st target = AttendancePage.Reject msg openLogin ->
  snd (AttendancePage.handleAttendanceChange localeCompare target present st w) = w.
Proof. unfold AttendancePage.handleAttendanceChange. by intros ->. Qed.

Lemma rejected_participation_change st target count w msg openLogin :
  AttendancePage.participation_guard st target = AttendancePage.Reject msg openLogin ->
  snd (AttendancePage.handleParticipationChange target count st w) = w.
Proof. unfold AttendancePage.handleParticipationChange. by intros ->. Qed.


(** ** Weighted total *)

Section WeightedTotalFacts.

Import GradeService WeightedTotal.

Variable r : GradeRecord.t.





End WeightedTotalFacts.


(** ** Store calls *)

Lemma await_store_answers {A} (op : World -> Js.completion A * World) w :
  next_fault w = None -> await_store op w = op (advance w).
Proof. unfold await_store. by intros ->. Qed.

Lemma await_store_fails {A} (op : World -> Js.completion A * World) w e :
  next_fault w = Some e -> await_store op w = (Js.Throw e, advance w).
Proof. unfold await_store. by intros ->. Qed.

(** ** Passwordless login *)

(** C2, as stated, fails: the login takes the account alone and has no
    strict mode, and an account the roster does not hold is signed in
    as a student rather than refused. *)
Lemma signInWithAccount_admits_unknown_account :
  students Examples.empty_world !! "99999999" = None
  /\ fst (AuthService.signInWithAccount "99999999" Examples.empty_world)
     = Js.Return (AuthService.mockUser "99999999" "Sinh viên 99999999")
  /\ AuthUser.role (AuthService.mockUser "99999999" "Sinh viên 99999999")
     = student.
Proof. repeat split. Qed.

(** When the roster cannot be read the login still succeeds for a
    permission error, and fails for any other. *)
Lemma signInWithAccount_read_fails (account : string) (w : World) (e : Js.Error) :
  next_fault w = Some e ->
  fst (AuthService.signInWithAccount account w) =
    if AuthService.is_permission_error e
    then Js.Return (AuthService.mockUser account ("Demo User " ++ account))
    else Js.Throw (Js.new_Error ("Đăng nhập thất bại: " ++ Js.message e)).
Proof.
  intros H. unfold AuthService.signInWithAccount, try_catch, bind, getDoc.
  rewrite (await_store_fails _ _ _ H).
  by destruct (AuthService.is_permission_error e).
Qed.

(** C2 (amended): a login with an account the roster does not hold, the
    roster read succeeding, returns a provisional subject with role
    [student] for that account; nothing in the call selects another
    behaviour. *)
Theorem signInWithAccount_unknown_account (account : string) (w : World) :
  next_fault w = None ->
  students w !! account = None ->
  AuthService.signInWithAccount account w
  = (Js.Return (AuthService.mockUser account ("Sinh viên " ++ account)), advance w)
  /\ AuthUser.role (AuthService.mockUser account ("Sinh viên " ++ account)) = student
  /\ AuthUser.studentAccount (AuthService.mockUser account ("Sinh viên " ++ account))
     = Some account.
Proof.
  intros Hf Hs. repeat split.
  unfold AuthService.signInWithAccount, try_catch, bind, getDoc.
  rewrite (await_store_answers _ _ Hf). cbn. by rewrite Hs.
Qed.

(** ** Reads when the store fails *)

Section FailSoft.

Variable localeCompare : string -> string -> Z.

(** The listing never throws. *)
Lemma getAttendanceRecords_returns filter w :
  exists records,
    fst (AttendanceService.getAttendanceRecords localeCompare filter w)
    = Js.Return records.
Proof.
  unfold AttendanceService.getAttendanceRecords, try_catch, bind, getDocs,
    await_store, Timestamp_now, ret.
  destruct (next_fault w); cbn; eauto.
Qed.

Lemma getAttendanceRecords_fail_soft filter w e :
  next_fault w = Some e ->
  AttendanceService.getAttendanceRecords localeCompare filter w
  = (Js.Return [], advance w).
Proof.
  intros H.
  unfold AttendanceService.getAttendanceRecords, try_catch, bind, getDocs.
  by rewrite (await_store_fails _ _ _ H).
Qed.

Lemma getAttendanceStats_propagates startDate endDate w e :
  next_fault w = Some e ->
  AttendanceService.getAttendanceStats startDate endDate w
  = (Js.Throw (Js.new_Error "Không thể tính toán thống kê điểm danh."),
     advance w).
Proof.
  intros H. unfold AttendanceService.getAttendanceStats, try_catch, bind, getDocs.
  by rewrite (await_store_fails _ _ _ H).
Qed.

Lemma getGradeStats_propagates gradeType w e :
  next_fault w = Some e ->
  GradeService.getGradeStats gradeType w
  = (Js.Throw (Js.new_Error "Không thể tính toán thống kê điểm."), advance w).
Proof.
  intros H.
  unfold GradeService.getGradeStats, GradeService.getAllGrades, try_catch,
    bind, getDocs.
  by rewrite (await_store_fails _ _ _ H).
Qed.

End FailSoft.

(** C9, as stated, fails: with the store unavailable the two statistics
    queries throw. *)
Lemma statistics_propagate_store_failure :
  fst (AttendanceService.getAttendanceStats Examples.a_day Examples.a_day
         Examples.failing_world)
  = Js.Throw (Js.new_Error "Không thể tính toán thống kê điểm danh.")
  /\ fst (GradeService.getGradeStats midterm Examples.failing_world)
     = Js.Throw (Js.new_Error "Không thể tính toán thống kê điểm.").
Proof. split; reflexivity. Qed.

(** C9 (amended): when the store access fails, the attendance record
    listing returns an empty list and does not propagate the failure, while
    the attendance statistics and the grade statistics each throw an error
    with a fixed message. *)
Theorem reads_on_store_failure
  (localeCompare : string -> string -> Z) (filter : AttendanceFilter.t)
  (startDate endDate : JsDate.t) (gradeType : GradeType)
  (w : World) (e : Js.Error) :
  next_fault w = Some e ->
  fst (AttendanceService.getAttendanceRecords localeCompare filter w) = Js.Return []
  /\ fst (AttendanceService.getAttendanceStats startDate endDate w)
     = Js.Throw (Js.new_Error "Không thể tính toán thống kê điểm danh.")
  /\ fst (GradeService.getGradeStats gradeType w)
     = Js.Throw (Js.new_Error "Không thể tính toán thống kê điểm.").
Proof.
  intros H.
  rewrite (getAttendanceRecords_fail_soft _ _ _ _ H).
  rewrite (getAttendanceStats_propagates _ _ _ _ H).
  by rewrite (getGradeStats_propagates _ _ _ H).
Qed.

(** ** Queries on a keyed collection *)

Lemma no_fault_within_step n w :
  no_fault_within (S n) w ->
  next_fault w = None /\ no_fault_within n (advance w).
Proof.
  unfold no_fault_within, next_fault, advance. cbn.
  destruct (faults w) as [|f fs]; cbn.
  - intros _. split; [done|]. by rewrite take_nil.
  - by intros [? ?]%Forall_cons.
Qed.


Lemma no_fault_within_nil n w : faults w = [] -> no_fault_within n w.
Proof. unfold no_fault_within. intros ->. by rewrite take_nil. Qed.

Lemma all_equal_NoDup {A} (l : list A) (x : A) :
  NoDup l -> (forall y, y ∈ l -> y = x) -> l = [] \/ l = [x].
Proof.
  intros Hnd Hall. destruct l as [|a [|b l]]; [by left | right | exfalso].
  - f_equal. apply Hall. left.
  - assert (a = x) as -> by (apply Hall; left).
    assert (b = x) as -> by (apply Hall; right; left).
    apply NoDup_cons in Hnd as [Hnd _]. apply Hnd. left.
Qed.

(** A query whose matches can only sit under one key finds the document
    under that key, or nothing. *)
Lemma filter_unique_key {D} (m : gmap string D) (P : D -> bool) (k : string) :
  (forall id d, m !! id = Some d -> P d = true -> id = k) ->
  List.filter (fun kv => P (snd kv)) (map_to_list m) =
    match m !! k with
    | Some d => if P d then [(k, d)] else []
    | None => []
    end.
Proof.
  intros Hkey.
  set (l := List.filter (fun kv => P (snd kv)) (map_to_list m)).
  assert (NoDup l) as Hnd.
  { apply NoDup_ListNoDup, List.NoDup_filter, NoDup_ListNoDup, NoDup_map_to_list. }
  assert (forall kv, kv ∈ l <-> m !! fst kv = Some (snd kv) /\ P (snd kv) = true)
    as Hin.
  { intros [i d]. unfold l. rewrite list_elem_of_In, List.filter_In.
    rewrite <- list_elem_of_In, elem_of_map_to_list. done. }
  destruct (m !! k) as [d|] eqn:Hk; [destruct (P d) eqn:HP|].
  - destruct (all_equal_NoDup l (k, d) Hnd) as [E|E]; [| |done].
    + intros [i d'] [Hi HP']%Hin. cbn in *.
      assert (i = k) as -> by eauto. congruence.
    + assert ((k, d) ∈ l) as Hel by (apply Hin; done).
      rewrite E in Hel. by apply not_elem_of_nil in Hel.
  - destruct l as [|[i d'] l']; [done|exfalso].
    destruct (proj1 (Hin (i, d'))) as [Hi HP']; [left|]. cbn in *.
    assert (i = k) as -> by eauto. congruence.
  - destruct l as [|[i d'] l']; [done|exfalso].
    destruct (proj1 (Hin (i, d'))) as [Hi HP']; [left|]. cbn in *.
    assert (i = k) as -> by eauto. congruence.
Qed.

(** ** Properties kept by every run *)

Section Preservation.

Variable P : World -> Prop.

Lemma preserves_ret {A} (a : A) : preserves P (ret a).
Proof. by intros w H. Qed.

Lemma preserves_throw {A} e : preserves P (@throw A e).
Proof. by intros w H. Qed.

Lemma preserves_now : preserves P Timestamp_now.
Proof. by intros w H. Qed.

Lemma preserves_bind {A B} (c : M A) (k : A -> M B) :
  preserves P c -> (forall a, preserves P (k a)) -> preserves P (bind c k).
Proof.
  intros Hc Hk w H. unfold bind. specialize (Hc w H).
  destruct (c w) as [[a|e] w']; [by apply Hk | done].
Qed.

Lemma preserves_try_catch {A} (c : M A) (h : Js.Error -> M A) :
  preserves P c -> (forall e, preserves P (h e)) -> preserves P (try_catch c h).
Proof.
  intros Hc Hh w H. unfold try_catch. specialize (Hc w H).
  destruct (c w) as [[a|e] w']; [done | by apply Hh].
Qed.

Lemma preserves_await_store {A} (op : World -> Js.completion A * World) :
  (forall w, P w -> P (advance w)) ->
  (forall w, P w -> P (snd (op w))) ->
  preserves P (await_store op).
Proof.
  intros Hadv Hop w H. unfold await_store.
  destruct (next_fault w); [by apply Hadv | by apply Hop, Hadv].
Qed.

Lemma preserves_Promise_all (ps : list (M unit)) :
  Forall (preserves P) ps -> preserves P (Promise_all ps).
Proof.
  induction 1 as [|p ps Hp _ IH]; intros w H; [done|].
  cbn. specialize (Hp w H). destruct (p w) as [r w1].
  specialize (IH w1 Hp). by destruct (Promise_all ps w1) as [rs w2].
Qed.

End Preservation.

(** ** Grade upserts *)

Section GradeStore.

Import GradeService.




Lemma grades_keyed_insert m account d :
  grades_keyed m ->
  GradeRecord.studentAccount d = account ->
  grades_keyed (<[account := d]> m).
Proof.
  intros Hk Hd id d'. rewrite lookup_insert. case_decide; [|apply Hk].
  intros [= <-]. congruence.
Qed.

Lemma GradeRecord_get_set g v r : GradeRecord_get g (GradeRecord_set g v r) = v.
Proof. destruct g; cbn; by rewrite decide_True. Qed.




End GradeStore.

(** Every writer of the grade collection stores a record under its
    account, whatever the store answers. *)
Section GradesKeyed.

Import GradeService.

Let keyed (w : World) : Prop := grades_keyed (grades w).

Lemma keyed_getDocs where_ orderBy :
  preserves keyed (getDocs gradesCol where_ orderBy).
Proof. by apply preserves_await_store. Qed.

Lemma keyed_setDoc account d :
  GradeRecord.studentAccount d = account ->
  preserves keyed (setDoc gradesCol account d).
Proof.
  intros Hd. apply preserves_await_store; [done|].
  intros w H. by apply grades_keyed_insert.
Qed.

Lemma keyed_updateDoc account f :
  (forall d, GradeRecord.studentAccount d = account ->
             GradeRecord.studentAccount (f d) = account) ->
  preserves keyed (updateDoc gradesCol account f).
Proof.
  intros Hf. apply preserves_await_store; [done|].
  intros w H. cbn. destruct (grades w !! account) as [d|] eqn:Hd; [|done].
  apply grades_keyed_insert; [done|]. by apply Hf, (H _ _ Hd).
Qed.

Lemma keyed_deleteDoc account : preserves keyed (deleteDoc gradesCol account).
Proof.
  apply preserves_await_store; [done|].
  intros w H id d. cbn. rewrite lookup_delete. case_decide; [done | apply H].
Qed.

Lemma keyed_getGradesByStudent account :
  preserves keyed (getGradesByStudent account).
Proof.
  apply preserves_try_catch; [|intros; apply preserves_throw].
  apply preserves_bind; [apply keyed_getDocs|]. intros docs.
  apply preserves_bind; [apply preserves_now|]. intros now.
  destruct docs; apply preserves_ret.
Qed.

Lemma keyed_recalculateTotal account : preserves keyed (recalculateTotal account).
Proof.
  apply preserves_try_catch; [|intros; apply preserves_ret].
  apply preserves_bind; [apply keyed_getGradesByStudent|]. intros [r|].
  - apply preserves_bind; [apply preserves_now|]. intros stamp.
    by apply keyed_updateDoc.
  - apply preserves_ret.
Qed.

Lemma keyed_updateGrade account gradeType value by_ :
  preserves keyed (updateGrade account gradeType value by_).
Proof.
  apply preserves_try_catch; [|intros; apply preserves_throw].
  apply preserves_bind; [apply keyed_getGradesByStudent|]. intros existing.
  apply preserves_bind; [apply preserves_now|]. intros stamp.
  apply preserves_bind; [|intros; apply keyed_recalculateTotal].
  destruct existing; [by apply keyed_updateDoc | by apply keyed_setDoc].
Qed.

Lemma keyed_updateFullGrade gradeRecord :
  preserves keyed (updateFullGrade gradeRecord).
Proof.
  apply preserves_try_catch; [|intros; apply preserves_throw].
  apply preserves_bind; [apply preserves_now|]. intros stamp.
  by apply keyed_setDoc.
Qed.

Lemma keyed_deleteGrade account : preserves keyed (deleteGrade account).
Proof.
  apply preserves_try_catch; [apply keyed_deleteDoc | intros; apply preserves_throw].
Qed.

Lemma keyed_batchUpdateGrades grades by_ :
  preserves keyed (batchUpdateGrades grades by_).
Proof.
  apply preserves_try_catch; [|intros; apply preserves_throw].
  apply preserves_Promise_all, Forall_map, Forall_forall. intros g _.
  apply keyed_updateGrade.
Qed.

Lemma keyed_processExcelUpload excelData gradeType by_ :
  preserves keyed (processExcelUpload excelData gradeType by_).
Proof.
  unfold processExcelUpload.
  destruct (validate_rows gradeType 0 excelData [] []) as [errors validGrades].
  apply preserves_try_catch; [|intros; apply preserves_ret].
  apply preserves_bind; [|intros; apply preserves_ret].
  destruct (count_of errors =? 0); [apply keyed_batchUpdateGrades | apply preserves_ret].
Qed.

End GradesKeyed.



(** ** Bulk import *)

Section BulkImport.

Import GradeService.

Variable gradeType : GradeType.

Lemma validate_row_index i row :
  match validate_row gradeType i row with
  | inr _ => passes gradeType row = true
  | inl _ => passes gradeType row = false
  end.
Proof.
  unfold passes, validate_row.
  repeat (case_match; try done).
Qed.

(** The loop adds one error per failing row and one entry per passing row. *)
Lemma validate_rows_counts rows i errors validGrades :
  let '(errors', validGrades') :=
    validate_rows gradeType i rows errors validGrades in
  count_of errors' = count_of errors + failed_validation gradeType rows
  /\ count_of validGrades' = count_of validGrades + passed_validation gradeType rows.
Proof.
  unfold count_of, failed_validation, passed_validation.
  revert i errors validGrades.
  induction rows as [|row rows IH]; intros i errors validGrades; cbn; [lia|].
  pose proof (validate_row_index i row) as Hrow.
  destruct (validate_row gradeType i row) as [e|g]; rewrite Hrow; cbn.
  - specialize (IH (S i) (errors ++ [e])%list validGrades).
    destruct (validate_rows _ _ _ _ _) as [errors' validGrades'].
    rewrite length_app in IH. cbn in IH. lia.
  - specialize (IH (S i) errors (validGrades ++ [g])%list).
    destruct (validate_rows _ _ _ _ _) as [errors' validGrades'].
    rewrite length_app in IH. cbn in IH. lia.
Qed.

Lemma failed_validation_positive rows :
  (exists row, row ∈ rows /\ passes gradeType row = false) ->
  0 < failed_validation gradeType rows.
Proof.
  intros (row & Hin & Hrow). unfold failed_validation.
  assert (In row (List.filter (fun row => negb (passes gradeType row)) rows)) as H.
  { apply List.filter_In. split; [by apply list_elem_of_In | by rewrite Hrow]. }
  destruct (List.filter _ rows); [done | cbn; lia].
Qed.

Lemma validation_counts_total rows :
  failed_validation gradeType rows + passed_validation gradeType rows
  = count_of rows.
Proof.
  unfold failed_validation, passed_validation, count_of.
  induction rows as [|row rows IH]; cbn; [done|].
  destruct (passes gradeType row); cbn; lia.
Qed.

(** With an error in the batch the operation returns at once: no store
    call is made and the world is the one it started from. *)
Lemma processExcelUpload_rejects rows by_ w :
  0 < failed_validation gradeType rows ->
  exists result,
    processExcelUpload rows gradeType by_ w = (Js.Return result, w)
    /\ ExcelUploadResult.success result = false
    /\ ExcelUploadResult.processedCount result = passed_validation gradeType rows
    /\ count_of (ExcelUploadResult.errors result) = failed_validation gradeType rows
    /\ ExcelUploadResult.totalCount result = count_of rows.
Proof.
  intros Hpos. unfold processExcelUpload.
  pose proof (validate_rows_counts rows 0 [] []) as Hc.
  destruct (validate_rows gradeType 0 rows [] []) as [errors validGrades].
  destruct Hc as [He Hv]. change (count_of []) with 0 in He, Hv.
  assert ((count_of errors =? 0) = false) as Hne by (apply Z.eqb_neq; lia).
  cbv beta iota. unfold try_catch, bind. rewrite Hne. cbn.
  eexists. split; [reflexivity|]. cbn. repeat split; lia.
Qed.



End BulkImport.



(** C3: when at least one row of a batch fails validation, the bulk import
    writes nothing (it returns in the world it was called in, no store call
    made), and the [processedCount] it returns is the number of rows that
    passed validation. *)
Theorem processExcelUpload_all_or_nothing
  (rows : list (gmap string Js.value)) (gradeType : GradeType) (by_ : string)
  (w : World) :
  (exists row, row ∈ rows /\ passes gradeType row = false) ->
  exists result,
    GradeService.processExcelUpload rows gradeType by_ w = (Js.Return result, w)
    /\ ExcelUploadResult.success result = false
    /\ ExcelUploadResult.processedCount result = passed_validation gradeType rows.
Proof.
  intros Hbad%failed_validation_positive.
  destruct (processExcelUpload_rejects gradeType rows by_ w Hbad)
    as (result & Hrun & Hs & Hp & _).
  by exists result.
Qed.



(** ** Attendance upserts *)

Lemma insert_sorted_length {A} (le : A -> A -> bool) x l :
  List.length (Firestore.insert_sorted le x l) = S (List.length l).
Proof. induction l as [|y l IH]; cbn; [done|]. destruct (le x y); cbn; lia. Qed.

Lemma sort_length {A} (le : A -> A -> bool) l :
  List.length (Firestore.sort le l) = List.length l.
Proof.
  induction l as [|x l IH]; [done|].
  cbn. by rewrite insert_sorted_length, <- IH.
Qed.

Section AttendanceStore.

Import AttendanceService.

Variable localeCompare : string -> string -> Z.

Let keyed (w : World) : Prop := attendance_keyed (attendance w).

(** The listing always returns, one store call later; when the store
    answers it returns as many records as match the filter. *)
Lemma getAttendanceRecords_run filter w :
  exists records,
    getAttendanceRecords localeCompare filter w = (Js.Return records, advance w)
    /\ (next_fault w = None ->
        List.length records =
        List.length
          (List.filter
             (fun kv =>
                filter_on (AttendanceFilter.date filter)
                          (AttendanceRecord.date (snd kv))
                && filter_on (AttendanceFilter.studentAccount filter)
                             (AttendanceRecord.studentAccount (snd kv)))
             (map_to_list (attendance w))))
    /\ (forall e, next_fault w = Some e -> records = []).
Proof.
  unfold getAttendanceRecords, try_catch, bind, getDocs, await_store.
  destruct (next_fault w) as [e|]; cbn.
  - exists []. by repeat split.
  - eexists. split; [reflexivity|]. split; [|done]. intros _.
    by rewrite sort_length, length_map, sort_length.
Qed.

Lemma attendance_keyed_insert m account dateString d :
  attendance_keyed m ->
  AttendanceRecord.studentAccount d = account ->
  AttendanceRecord.date d = dateString ->
  attendance_keyed (<[docId account dateString := d]> m).
Proof.
  intros Hk Ha Hd id d'. rewrite lookup_insert. case_decide; [|apply Hk].
  intros [= <-]. by rewrite Ha, Hd.
Qed.

(** The documents of an account on a day, in a keyed collection that holds
    one under the composite key. *)
Lemma records_for_keyed m account dateString d :
  attendance_keyed m ->
  m !! docId account dateString = Some d ->
  AttendanceRecord.studentAccount d = account ->
  AttendanceRecord.date d = dateString ->
  records_for account dateString m = [(docId account dateString, d)].
Proof.
  intros Hk Hd Ha Hdate. unfold records_for.
  rewrite (filter_unique_key m
             (fun d => String.eqb (AttendanceRecord.studentAccount d) account
                       && String.eqb (AttendanceRecord.date d) dateString)
             (docId account dateString)).
  - rewrite Hd, Ha, Hdate, !String.eqb_refl. done.
  - intros id d' Hd' [H1%String.eqb_eq H2%String.eqb_eq]%andb_prop.
    by rewrite (Hk _ _ Hd'), H1, H2.
Qed.

(** What a call that returns has written: over the existing document when
    the existence query found a record, a new document when it found none. *)
Lemma markAttendance_returns account day present by_ w w' :
  markAttendance localeCompare account day present by_ w = (Js.Return tt, w') ->
  let dateString := format_yyyy_MM_dd day in
  exists records d',
    getAttendanceRecords localeCompare
      (AttendanceFilter.mk (Some dateString) (Some account) None) w
    = (Js.Return records, advance w)
    /\ w' = put_docs attendanceCol (<[docId account dateString := d']> (attendance w))
               (advance (advance w))
    /\ AttendanceRecord.studentAccount d' = account
    /\ AttendanceRecord.date d' = dateString
    /\ AttendanceRecord.isPresent d' = Some present
    /\ if (0 <? List.length records)%nat
       then exists d, attendance w !! docId account dateString = Some d
                      /\ d' = attendanceData account dateString present (clock w) by_ d
       else d' = newRecord (clock w + 1)
                   (attendanceData account dateString present (clock w) by_
                      (blank account dateString)).
Proof.
  unfold markAttendance, try_catch, bind at 1, Timestamp_now at 1. unfold bind at 1.
  destruct (getAttendanceRecords_run
              (AttendanceFilter.mk (Some (format_yyyy_MM_dd day)) (Some account) None) w)
    as (records & Hq & _).
  rewrite Hq. intros Hrun. exists records.
  destruct (0 <? List.length records)%nat.
  - revert Hrun. unfold updateDoc, await_store.
    destruct (next_fault (advance w)); [done|].
    cbn. destruct (attendance w !! docId account (format_yyyy_MM_dd day)) as [d|];
      [|done].
    intros [= <-]. eexists. split; [done|]. split; [reflexivity|]. repeat split.
    by exists d.
  - revert Hrun. unfold bind, Timestamp_now, setDoc, await_store.
    destruct (next_fault (advance w)); [done|].
    cbn. intros [= <-]. eexists. split; [done|]. split; [reflexivity|]. by repeat split.
Qed.

(** After a call that returns, a keyed collection holds exactly one record
    of the account on the day. *)
Lemma markAttendance_one_record account day present by_ w w' :
  keyed w ->
  markAttendance localeCompare account day present by_ w = (Js.Return tt, w') ->
  keyed w'
  /\ List.length (records_for account (format_yyyy_MM_dd day) (attendance w')) = 1%nat.
Proof.
  intros Hk Hrun.
  destruct (markAttendance_returns _ _ _ _ _ _ Hrun)
    as (records & d' & _ & -> & Ha & Hd & _).
  assert (keyed (put_docs attendanceCol
                   (<[docId account (format_yyyy_MM_dd day) := d']> (attendance w))
                   (advance (advance w)))) as Hk'.
  { by apply attendance_keyed_insert. }
  split; [done|].
  rewrite (records_for_keyed _ account (format_yyyy_MM_dd day) d'); try done.
  cbn. apply lookup_insert_eq.
Qed.

(** A call that throws has written nothing. *)
Lemma markAttendance_throws account day present by_ w w' e :
  markAttendance localeCompare account day present by_ w = (Js.Throw e, w') ->
  attendance w' = attendance w.
Proof.
  unfold markAttendance, try_catch, bind at 1, Timestamp_now at 1. unfold bind at 1.
  destruct (getAttendanceRecords_run
              (AttendanceFilter.mk (Some (format_yyyy_MM_dd day)) (Some account) None) w)
    as (records & -> & _).
  destruct (0 <? List.length records)%nat.
  - unfold updateDoc, await_store, throw.
    destruct (next_fault (advance w)); [by intros [= _ <-]|].
    cbn. destruct (attendance w !! _); [done | by intros [= _ <-]].
  - unfold bind, Timestamp_now, setDoc, await_store, throw.
    destruct (next_fault (advance w)); [by intros [= _ <-] | done].
Qed.

Lemma keyed_markAttendance account day present by_ :
  preserves keyed (markAttendance localeCompare account day present by_).
Proof.
  intros w Hk.
  destruct (markAttendance localeCompare account day present by_ w)
    as [[[]|e] w'] eqn:Hrun; cbn.
  - by apply (markAttendance_one_record _ _ _ _ _ _ Hk Hrun).
  - unfold keyed. by rewrite (markAttendance_throws _ _ _ _ _ _ _ Hrun).
Qed.

Lemma keyed_batchMarkAttendance attendanceData by_ :
  preserves keyed (batchMarkAttendance localeCompare attendanceData by_).
Proof.
  apply preserves_try_catch; [|intros; apply preserves_throw].
  apply preserves_Promise_all, Forall_map, Forall_forall. intros [[a d] b] _.
  apply keyed_markAttendance.
Qed.

Lemma keyed_updateParticipation account day count by_ :
  preserves keyed (updateParticipation account day count by_).
Proof.
  apply preserves_try_catch; [|intros; apply preserves_throw].
  apply preserves_bind; [apply preserves_now|]. intros stamp.
  apply preserves_await_store; [done|].
  intros w H. cbn. apply attendance_keyed_insert; [done| |];
    by destruct (attendance w !! _).
Qed.

Lemma keyed_deleteAttendance account day :
  preserves keyed (deleteAttendance account day).
Proof.
  apply preserves_try_catch; [|intros; apply preserves_throw].
  apply preserves_await_store; [done|].
  intros w H id d. cbn. rewrite lookup_delete. case_decide; [done | apply H].
Qed.

(** With the existence query answered, the record of the account on the
    day keeps its participation count and its creation time. *)
Lemma markAttendance_keeps_participation account day present by_ w w' id d :
  keyed w ->
  next_fault w = None ->
  attendance w !! id = Some d ->
  AttendanceRecord.studentAccount d = account ->
  AttendanceRecord.date d = format_yyyy_MM_dd day ->
  markAttendance localeCompare account day present by_ w = (Js.Return tt, w') ->
  exists d',
    attendance w' !! id = Some d'
    /\ AttendanceRecord.participationCount d' = AttendanceRecord.participationCount d
    /\ AttendanceRecord.createdAt d' = AttendanceRecord.createdAt d
    /\ AttendanceRecord.isPresent d' = Some present.
Proof.
  intros Hk Hf Hd Ha Hdate Hrun.
  assert (id = docId account (format_yyyy_MM_dd day)) as ->.
  { by rewrite (Hk _ _ Hd), Ha, Hdate. }
  destruct (markAttendance_returns _ _ _ _ _ _ Hrun)
    as (records & d' & Hq & -> & _ & _ & Hp & Hbranch).
  destruct (getAttendanceRecords_run
              (AttendanceFilter.mk (Some (format_yyyy_MM_dd day)) (Some account) None) w)
    as (records' & Hq' & Hlen & _).
  rewrite Hq in Hq'. injection Hq' as <-. specialize (Hlen Hf). cbn in Hlen.
  assert ((0 <? List.length records)%nat = true) as Hfound.
  { apply Nat.ltb_lt. rewrite Hlen.
    assert (In (docId account (format_yyyy_MM_dd day), d)
              (List.filter
                 (fun kv =>
                    filter_on (Some (format_yyyy_MM_dd day))
                              (AttendanceRecord.date (snd kv))
                    && filter_on (Some account)
                                 (AttendanceRecord.studentAccount (snd kv)))
                 (map_to_list (attendance w)))) as Hin.
    { apply List.filter_In. split.
      - by apply list_elem_of_In, elem_of_map_to_list.
      - cbn. rewrite Ha, Hdate. unfold filter_on.
        rewrite !String.eqb_refl.
        by destruct (String.eqb _ ""), (String.eqb _ ""). }
    destruct (List.filter _ _); [done | cbn; lia]. }
  rewrite Hfound in Hbranch. destruct Hbranch as (d0 & Hd0 & ->).
  rewrite Hd in Hd0. injection Hd0 as <-.
  eexists. split; [cbn; apply lookup_insert_eq|]. done.
Qed.

(** With no document under the composite key, a call that returns has
    created one, with a participation count of 0 and a creation time. *)
Lemma markAttendance_creates account day present by_ w w' :
  attendance w !! docId account (format_yyyy_MM_dd day) = None ->
  markAttendance localeCompare account day present by_ w = (Js.Return tt, w') ->
  exists d',
    attendance w' !! docId account (format_yyyy_MM_dd day) = Some d'
    /\ AttendanceRecord.participationCount d' = Some 0
    /\ AttendanceRecord.createdAt d' = Some (clock w + 1).
Proof.
  intros Hnone Hrun.
  destruct (markAttendance_returns _ _ _ _ _ _ Hrun)
    as (records & d' & _ & -> & _ & _ & _ & Hbranch).
  exists d'. split; [cbn; apply lookup_insert_eq|].
  destruct (0 <? List.length records)%nat.
  - destruct Hbranch as (d & Hd & _). congruence.
  - by rewrite Hbranch.
Qed.

End AttendanceStore.

Lemma attendance_keyed_empty : attendance_keyed ∅.
Proof. intros id d H. by rewrite lookup_empty in H. Qed.


(** A keyed collection never holds two records of an account on a day. *)
Lemma keyed_at_most_one_record m account dateString :
  attendance_keyed m ->
  (List.length (records_for account dateString m) <= 1)%nat.
Proof.
  intros Hk. unfold records_for.
  rewrite (filter_unique_key m
             (fun d => String.eqb (AttendanceRecord.studentAccount d) account
                       && String.eqb (AttendanceRecord.date d) dateString)
             (AttendanceService.docId account dateString)).
  - destruct (m !! _) as [d|]; [|cbn; lia]. case_match; cbn; lia.
  - intros id d' Hd' [H1%String.eqb_eq H2%String.eqb_eq]%andb_prop.
    by rewrite (Hk _ _ Hd'), H1, H2.
Qed.

(** C7: on a collection that holds every attendance record under its
    composite key, two calls of the attendance upsert with the same account,
    date, presence and actor, of which at least one returns, leave exactly
    one record for the account and the date; and the collection, still
    keyed, holds at most one record for any account and date. *)
Theorem markAttendance_twice_one_record
  (localeCompare : string -> string -> Z) (account : string) (day : JsDate.t)
  (present : bool) (markedBy : string) (w w1 w2 : World)
  (r1 r2 : Js.completion unit) :
  attendance_keyed (attendance w) ->
  AttendanceService.markAttendance localeCompare account day present markedBy w
  = (r1, w1) ->
  AttendanceService.markAttendance localeCompare account day present markedBy w1
  = (r2, w2) ->
  r1 = Js.Return tt \/ r2 = Js.Return tt ->
  List.length (records_for account (format_yyyy_MM_dd day) (attendance w2)) = 1%nat
  /\ (forall account' dateString',
        (List.length (records_for account' dateString' (attendance w2)) <= 1)%nat).
Proof.
  intros Hk H1 H2 Hret.
  assert (attendance_keyed (attendance w1)) as Hk1.
  { pose proof (keyed_markAttendance localeCompare account day present markedBy w Hk)
      as H. by rewrite H1 in H. }
  assert (attendance_keyed (attendance w2)) as Hk2.
  { pose proof (keyed_markAttendance localeCompare account day present markedBy w1 Hk1)
      as H. by rewrite H2 in H. }
  split; [|intros; by apply keyed_at_most_one_record].
  destruct r2 as [[]|e2].
  - by apply (markAttendance_one_record localeCompare account day present markedBy w1).
  - destruct Hret as [->|?]; [|done].
    rewrite (markAttendance_throws _ _ _ _ _ _ _ _ H2).
    by apply (markAttendance_one_record localeCompare account day present markedBy w).
Qed.

(** When the existence query fails, the upsert takes the creation branch
    whatever the store holds. *)
Lemma markAttendance_query_fails localeCompare account day present by_ w e :
  next_fault w = Some e ->
  next_fault (advance w) = None ->
  exists w' d',
    AttendanceService.markAttendance localeCompare account day present by_ w
    = (Js.Return tt, w')
    /\ attendance w' !! AttendanceService.docId account (format_yyyy_MM_dd day)
       = Some d'
    /\ AttendanceRecord.participationCount d' = Some 0
    /\ AttendanceRecord.createdAt d' = Some (clock w + 1).
Proof.
  intros Hf1 Hf2.
  unfold AttendanceService.markAttendance, try_catch, bind at 1, Timestamp_now at 1.
  unfold bind at 1.
  rewrite (getAttendanceRecords_fail_soft _ _ _ _ Hf1). cbn [List.length Nat.ltb Nat.leb].
  unfold bind, Timestamp_now, setDoc.
  rewrite (await_store_answers _ _ Hf2).
  eexists _, _. split; [reflexivity|]. cbn. split; [apply lookup_insert_eq | done].
Qed.

(** C10: the attendance upsert is to leave the participation count of an
    existing record unchanged and to set the count to 0 and the creation
    time only on a new record; at this input the code does otherwise.  The
    store holds a record of the account on the day with three
    participations, created at time 5; the existence query fails, the
    listing answers with no record, and the upsert overwrites the record:
    the count is back to 0 and the creation time is new. *)
Theorem markAttendance_resets_participation_when_query_fails :
  let id := "21520001_2024-03-07" in
  let run :=
    AttendanceService.markAttendance Examples.byte_order "21520001"
      Examples.a_day true "21520001" Examples.marked_query_fails in
  (AttendanceRecord.participationCount
     <$> attendance Examples.marked_query_fails !! id) = Some (Some 3)
  /\ (AttendanceRecord.createdAt
        <$> attendance Examples.marked_query_fails !! id) = Some (Some 5)
  /\ fst run = Js.Return tt
  /\ (AttendanceRecord.participationCount <$> attendance (snd run) !! id)
     = Some (Some 0)
  /\ (AttendanceRecord.createdAt <$> attendance (snd run) !! id)
     = Some (Some 11).
Proof. vm_compute. repeat split. Qed.

(** ** The properties at sample inputs *)


Lemma unknown_account_gets_a_student_subject :
  AuthService.signInWithAccount "99999999" Examples.empty_world
  = (Js.Return (AuthService.mockUser "99999999" ("Sinh viên " ++ "99999999")),
     advance Examples.empty_world)
  /\ AuthUser.role (AuthService.mockUser "99999999" ("Sinh viên " ++ "99999999"))
     = student
  /\ AuthUser.studentAccount
       (AuthService.mockUser "99999999" ("Sinh viên " ++ "99999999"))
     = Some "99999999".
Proof.
  apply (signInWithAccount_unknown_account "99999999" Examples.empty_world);
    reflexivity.
Defined.

Lemma mixed_batch_writes_nothing :
  exists result,
    GradeService.processExcelUpload
      (Examples.three_valid_rows ++ [Examples.invalid_row])%list midterm "teacher"
      Examples.empty_world
    = (Js.Return result, Examples.empty_world)
    /\ ExcelUploadResult.success result = false
    /\ ExcelUploadResult.processedCount result
       = passed_validation midterm
           (Examples.three_valid_rows ++ [Examples.invalid_row])%list.
Proof.
  apply processExcelUpload_all_or_nothing.
  exists Examples.invalid_row. split; [|vm_compute; reflexivity].
  apply elem_of_app. right. left.
Defined.


Lemma marking_twice_in_an_empty_store :
  let first :=
    AttendanceService.markAttendance Examples.byte_order "21520001"
      Examples.a_day true "21520001" Examples.empty_world in
  let second :=
    AttendanceService.markAttendance Examples.byte_order "21520001"
      Examples.a_day true "21520001" (snd first) in
  List.length (records_for "21520001" (format_yyyy_MM_dd Examples.a_day)
                 (attendance (snd second))) = 1%nat
  /\ (forall account' dateString',
        (List.length (records_for account' dateString' (attendance (snd second)))
         <= 1)%nat).
Proof.
  intros first second.
  apply (markAttendance_twice_one_record Examples.byte_order "21520001"
           Examples.a_day true "21520001" Examples.empty_world
           (snd first) (snd second) (fst first) (fst second)).
  - apply attendance_keyed_empty.
  - apply surjective_pairing.
  - apply surjective_pairing.
  - left. vm_compute. reflexivity.
Defined.


Lemma reads_when_the_store_is_unavailable :
  fst (AttendanceService.getAttendanceRecords Examples.byte_order
         AttendanceFilter.empty Examples.failing_world) = Js.Return []
  /\ fst (AttendanceService.getAttendanceStats Examples.a_day Examples.a_day
            Examples.failing_world)
     = Js.Throw (Js.new_Error "Không thể tính toán thống kê điểm danh.")
  /\ fst (GradeService.getGradeStats midterm Examples.failing_world)
     = Js.Throw (Js.new_Error "Không thể tính toán thống kê điểm.").
Proof.
  apply (reads_on_store_failure Examples.byte_order AttendanceFilter.empty
           Examples.a_day Examples.a_day midterm Examples.failing_world
           Examples.unavailable).
  reflexivity.
Defined.

(** * Further properties of the code *)

(** ** Grade records *)

Section GradeWrites.

Import GradeService.

(** The full-record write, step by step. *)
Lemma updateFullGrade_run gradeRecord w :
  updateFullGrade gradeRecord w =
    match next_fault w with
    | Some e => (Js.Throw (Js.new_Error "Không thể cập nhật điểm."), advance w)
    | None =>
        (Js.Return tt,
         put_docs gradesCol
           (<[GradeRecord.studentAccount gradeRecord :=
                GradeRecord.mk None (GradeRecord.studentAccount gradeRecord)
                  (GradeRecord.midterm gradeRecord) (GradeRecord.final gradeRecord)
                  (GradeRecord.assignment1 gradeRecord)
                  (GradeRecord.assignment2 gradeRecord)
                  (GradeRecord.assignment3 gradeRecord)
                  (GradeRecord.project gradeRecord)
                  (GradeRecord.participation gradeRecord)
                  (Some (calculateTotal gradeRecord)) (Some (clock w))
                  (GradeRecord.updatedBy gradeRecord)]> (grades w))
           (advance w))
    end.
Proof.
  unfold updateFullGrade, try_catch, bind, Timestamp_now, setDoc, await_store.
  by destruct (next_fault w).
Qed.

End GradeWrites.

(** X1: a full-record write that returns has stored, under the record's
    account, the category scores it was given together with the weighted
    total of those scores, whatever total the caller put in the record; it
    replaces the document and leaves the other documents as they were. *)
Theorem updateFullGrade_replaces_with_computed_total
  (gradeRecord : GradeRecord.t) (w w' : World) :
  GradeService.updateFullGrade gradeRecord w = (Js.Return tt, w') ->
  exists d,
    grades w' !! GradeRecord.studentAccount gradeRecord = Some d
    /\ (forall g, GradeRecord_get g d = GradeRecord_get g gradeRecord)
    /\ GradeRecord.total d = Some (GradeService.calculateTotal d)
    /\ GradeRecord.total d = Some (GradeService.calculateTotal gradeRecord)
    /\ GradeRecord.updatedBy d = GradeRecord.updatedBy gradeRecord
    /\ (forall id, id <> GradeRecord.studentAccount gradeRecord ->
                   grades w' !! id = grades w !! id).
Proof.
  rewrite updateFullGrade_run. destruct (next_fault w); [done|].
  intros [= <-]. eexists. split; [cbn; apply lookup_insert_eq|].
  split; [by intros []|]. repeat split.
  intros id Hid. cbn. by apply lookup_insert_ne.
Qed.

(** X2: a single-category upsert that fails throws the service's own
    error and has written nothing: the grade collection is as it was. *)
Theorem updateGrade_failure_writes_nothing
  (account : string) (gradeType : GradeType) (value : float) (by_ : string)
  (w w' : World) (e : Js.Error) :
  GradeService.updateGrade account gradeType value by_ w = (Js.Throw e, w') ->
  grades w' = grades w /\ e = Js.new_Error "Không thể cập nhật điểm.".
Proof.
  unfold GradeService.updateGrade, try_catch, bind at 1.
  destruct (GradeService.getGradesByStudent account w) as [[existing|e0] w0] eqn:Hread.
  - assert (grades w0 = grades w /\ w0 = advance w) as [Hg0 ->].
    { revert Hread. unfold GradeService.getGradesByStudent, try_catch, bind, getDocs, await_store.
      destruct (next_fault w); [done|]. cbn.
      destruct (Firestore.sort _ _); by intros [= _ <-]. }
    unfold bind at 1, Timestamp_now at 1. unfold bind at 1.
    destruct (match existing with
              | Some _ => updateDoc gradesCol account _
              | None => setDoc gradesCol account _
              end (advance w)) as [[[]|e1] w1] eqn:Hwrite.
    + unfold GradeService.recalculateTotal, try_catch.
      destruct (bind _ _ w1) as [[[]|e2] w2]; done.
    + intros [= <- <-]. split; [|done].
      revert Hwrite. destruct existing.
      * unfold updateDoc, await_store. destruct (next_fault (advance w));
          [by intros [= _ <-]|]. cbn.
        destruct (grades w !! account); [done | by intros [= _ <-]].
      * unfold setDoc, await_store. destruct (next_fault (advance w));
          [by intros [= _ <-] | done].
  - intros [= <- <-]. split; [|done].
    revert Hread. unfold GradeService.getGradesByStudent, try_catch, bind, getDocs, await_store.
    destruct (next_fault w); [by intros [= _ <-]|]. cbn.
    destruct (Firestore.sort _ _); done.
Qed.

Section GradeUpsertEffect.

Import GradeService.


End GradeUpsertEffect.




Lemma graded_world_keyed : grades_keyed (grades Examples.graded_world).
Proof.
  intros id d. cbn. rewrite lookup_singleton_Some. by intros [<- <-].
Qed.

Lemma full_write_ignores_the_given_total :
  exists d,
    grades (snd (GradeService.updateFullGrade Examples.a_grade Examples.empty_world))
      !! GradeRecord.studentAccount Examples.a_grade = Some d
    /\ (forall g, GradeRecord_get g d = GradeRecord_get g Examples.a_grade)
    /\ GradeRecord.total d = Some (GradeService.calculateTotal d)
    /\ GradeRecord.total d = Some (GradeService.calculateTotal Examples.a_grade)
    /\ GradeRecord.updatedBy d = GradeRecord.updatedBy Examples.a_grade
    /\ (forall id, id <> GradeRecord.studentAccount Examples.a_grade ->
          grades (snd (GradeService.updateFullGrade Examples.a_grade
                         Examples.empty_world)) !! id
          = grades Examples.empty_world !! id).
Proof.
  apply (updateFullGrade_replaces_with_computed_total Examples.a_grade
           Examples.empty_world).
  reflexivity.
Defined.

Lemma failed_upsert_leaves_the_grades :
  let run :=
    GradeService.updateGrade "21520001" midterm 9%float "teacher"
      Examples.failing_world in
  grades (snd run) = grades Examples.failing_world
  /\ fst run = Js.Throw (Js.new_Error "Không thể cập nhật điểm.").
Proof.
  intros run.
  destruct (updateGrade_failure_writes_nothing "21520001" midterm 9%float
              "teacher" Examples.failing_world (snd run)
              (Js.new_Error "Không thể cập nhật điểm.")) as [Hg _].
  - reflexivity.
  - split; [exact Hg | reflexivity].
Defined.




(** ** The order of JavaScript numbers *)

Ltac order_cases :=
  repeat match goal with
         | H : context [Z.compare ?a ?b] |- _ => destruct (Z.compare_spec a b)
         | |- context [Z.compare ?a ?b] => destruct (Z.compare_spec a b)
         | H : context [Pos.compare ?a ?b] |- _ => destruct (Pos.compare_spec a b)
         | |- context [Pos.compare ?a ?b] => destruct (Pos.compare_spec a b)
         end.

Lemma SFcompare_antisym x y :
  SFcompare y x = option_map CompOpp (SFcompare x y).
Proof.
  destruct x as [| [] | | [] m1 e1], y as [| [] | | [] m2 e2];
    cbn; try reflexivity;
    change (Pos.compare_cont Eq) with Pos.compare;
    order_cases; cbn; try reflexivity; subst; lia.
Qed.

Lemma SFle_trans x y z : SFle x y -> SFle y z -> SFle x z.
Proof.
  unfold SFle.
  destruct x as [| [] | | [] m1 e1], y as [| [] | | [] m2 e2], z as [| [] | | [] m3 e3];
    cbn; try (intros [|] [|]; discriminate); try (by left); try (by right);
    change (Pos.compare_cont Eq) with Pos.compare;
    intros H1 H2; order_cases; cbn in *;
    try (by left); try (by right);
    try (destruct H1; discriminate); try (destruct H2; discriminate);
    subst; lia.
Qed.

Lemma is_nan_false x : PrimFloat.is_nan x = false -> Prim2SF x <> S754_nan.
Proof.
  unfold PrimFloat.is_nan. rewrite FloatAxioms.eqb_spec. intros H E. rewrite E in H. done.
Qed.

Lemma SFcompare_Some x y :
  x <> S754_nan -> y <> S754_nan -> is_Some (SFcompare x y).
Proof.
  destruct x as [| [] | | [] m1 e1], y as [| [] | | [] m2 e2]; cbn; try done; eauto.
Qed.

Lemma leb_SFle x y : PrimFloat.leb x y = true <-> SFle (Prim2SF x) (Prim2SF y).
Proof.
  rewrite FloatAxioms.leb_spec. unfold SFleb, SFle.
  destruct (SFcompare _ _) as [[]|]; split; intros H;
    try done; try (by left); try (by right); by destruct H.
Qed.

(** On numbers that are not [NaN], [a <= b] is the negation of [b < a]. *)
Lemma leb_negb_ltb a b :
  PrimFloat.is_nan a = false -> PrimFloat.is_nan b = false ->
  PrimFloat.leb a b = negb (PrimFloat.ltb b a).
Proof.
  intros Ha%is_nan_false Hb%is_nan_false.
  rewrite FloatAxioms.leb_spec, FloatAxioms.ltb_spec. unfold SFleb, SFltb.
  rewrite (SFcompare_antisym (Prim2SF b) (Prim2SF a)).
  destruct (SFcompare_Some _ _ Hb Ha) as [c ->]. by destruct c.
Qed.

Lemma leb_trans a b c :
  PrimFloat.leb a b = true -> PrimFloat.leb b c = true -> PrimFloat.leb a c = true.
Proof. rewrite !leb_SFle. apply SFle_trans. Qed.

(** ** Result sets *)

Lemma insert_sorted_Permutation {A} (le : A -> A -> bool) x l :
  Firestore.insert_sorted le x l ≡ₚ x :: l.
Proof.
  induction l as [|y l IH]; cbn; [done|].
  destruct (le x y); [done|]. by rewrite IH, Permutation_swap.
Qed.

Lemma sort_Permutation {A} (le : A -> A -> bool) l : Firestore.sort le l ≡ₚ l.
Proof.
  induction l as [|x l IH]; cbn; [done|].
  by rewrite insert_sorted_Permutation, IH.
Qed.

Lemma filter_true {A} (l : list A) : List.filter (fun _ => true) l = l.
Proof. induction l; cbn; congruence. Qed.

(** ** Grade statistics *)

Section GradeStatistics.

Import GradeService.

Variable gradeType : GradeType.

Lemma getAllGrades_scores w :
  next_fault w = None ->
  exists records,
    getAllGrades w = (Js.Return records, advance w)
    /\ omap (fun g => numeric (GradeRecord_get gradeType g)) records
       ≡ₚ stored_scores gradeType (grades w).
Proof.
  intros Hf. unfold getAllGrades, try_catch, bind, getDocs.
  rewrite (await_store_answers _ _ Hf). cbn.
  eexists. split; [reflexivity|].
  rewrite filter_true. unfold stored_scores.
  rewrite <- (sort_Permutation
                (result_le (Some (GradeRecord.studentAccount, asc)))
                (map_to_list (grades w))) at 2.
  generalize (Firestore.sort (result_le (Some (GradeRecord.studentAccount, asc)))
                (map_to_list (grades w))).
  intros l. induction l as [|[id d] l IH]; cbn; [done|].
  replace (GradeRecord_get gradeType
             (GradeRecord.mk (Some id) (GradeRecord.studentAccount d)
                (GradeRecord.midterm d) (GradeRecord.final d)
                (GradeRecord.assignment1 d) (GradeRecord.assignment2 d)
                (GradeRecord.assignment3 d) (GradeRecord.project d)
                (GradeRecord.participation d) (GradeRecord.total d)
                (Some (default (clock w + 1) (GradeRecord.updatedAt d)))
                (GradeRecord.updatedBy d)))
    with (GradeRecord_get gradeType d) by (by destruct gradeType).
  destruct (numeric _); by rewrite IH.
Qed.

Lemma numeric_not_NaN v x : numeric v = Some x -> JsNumber.isNaN x = false.
Proof.
  destruct v as [y|]; cbn; [|done].
  destruct (JsNumber.isNaN y) eqn:E; [done|]. by intros [= <-].
Qed.

Lemma scores_not_NaN {A} (f : A -> option float) (l : list A) :
  Forall (fun x => JsNumber.isNaN x = false) (omap (fun a => numeric (f a)) l).
Proof.
  induction l as [|a l IH]; cbn; [constructor|].
  destruct (numeric (f a)) eqn:E; [|done].
  constructor; [by eapply numeric_not_NaN | done].
Qed.

(** A number that is not [NaN] falls in exactly one of the five bands. *)
Lemma one_band v :
  JsNumber.isNaN v = false ->
  let ge a b := PrimFloat.leb b a in
  let lt a b := PrimFloat.ltb a b in
  (Z.b2z (ge v 8.5%float)
   + Z.b2z (ge v 7%float && lt v 8.5%float)
   + Z.b2z (ge v 5.5%float && lt v 7%float)
   + Z.b2z (ge v 4%float && lt v 5.5%float)
   + Z.b2z (lt v 4%float) = 1)%Z.
Proof.
  intros Hv ge lt. unfold ge, lt.
  assert (forall c, PrimFloat.is_nan c = false ->
                    PrimFloat.ltb v c = negb (PrimFloat.leb c v)) as Hlt.
  { intros c Hc. rewrite (leb_negb_ltb c v Hc Hv). by rewrite negb_involutive. }
  rewrite !Hlt by reflexivity.
  assert (PrimFloat.leb 8.5 v = true -> PrimFloat.leb 7 v = true) as H1
    by (apply leb_trans; reflexivity).
  assert (PrimFloat.leb 7 v = true -> PrimFloat.leb 5.5 v = true) as H2
    by (apply leb_trans; reflexivity).
  assert (PrimFloat.leb 5.5 v = true -> PrimFloat.leb 4 v = true) as H3
    by (apply leb_trans; reflexivity).
  destruct (PrimFloat.leb 8.5 v), (PrimFloat.leb 7 v), (PrimFloat.leb 5.5 v),
    (PrimFloat.leb 4 v); cbn; try done;
    try (by specialize (H1 eq_refl)); try (by specialize (H2 eq_refl));
    by specialize (H3 eq_refl).
Qed.

Lemma bands_partition values :
  Forall (fun x => JsNumber.isNaN x = false) values ->
  let ge a b := PrimFloat.leb b a in
  let lt a b := PrimFloat.ltb a b in
  how_many (fun v => ge v 8.5%float) values
  + how_many (fun v => ge v 7%float && lt v 8.5%float) values
  + how_many (fun v => ge v 5.5%float && lt v 7%float) values
  + how_many (fun v => ge v 4%float && lt v 5.5%float) values
  + how_many (fun v => lt v 4%float) values
  = count_of values.
Proof.
  intros Hall ge lt. unfold how_many, count_of.
  induction Hall as [|v values Hv _ IH]; [done|].
  pose proof (one_band v Hv) as Hone. cbv zeta in Hone.
  fold ge lt in Hone. cbn [List.filter List.length].
  destruct (ge v 8.5%float), (ge v 7%float && lt v 8.5%float),
    (ge v 5.5%float && lt v 7%float), (ge v 4%float && lt v 5.5%float),
    (lt v 4%float); cbn [Z.b2z] in Hone; cbn [List.length]; lia.
Qed.

End GradeStatistics.

(** X6: when the statistics of a category return, [count] is the number
    of stored grade documents that hold a number other than [NaN] in the
    category.  With no such document every figure is 0 and the distribution
    is empty; otherwise the distribution has the five bands A to F, and
    their counts add up to [count]: each score falls in exactly one band. *)
Theorem getGradeStats_bands_partition_the_scores
  (gradeType : GradeType) (w w' : World) (stats : GradeService.GradeStats.t) :
  GradeService.getGradeStats gradeType w = (Js.Return stats, w') ->
  GradeService.GradeStats.count stats
  = GradeService.count_of (stored_scores gradeType (grades w))
  /\ (GradeService.GradeStats.count stats = 0 ->
      stats = GradeService.GradeStats.mk 0 0 0 0 [])
  /\ (0 < GradeService.GradeStats.count stats ->
      map fst (GradeService.GradeStats.distribution stats)
      = ["A (8.5-10)"; "B (7.0-8.4)"; "C (5.5-6.9)"; "D (4.0-5.4)"; "F (0-3.9)"]
      /\ foldr Z.add 0 (map snd (GradeService.GradeStats.distribution stats))
         = GradeService.GradeStats.count stats).
Proof.
  destruct (next_fault w) as [e|] eqn:Hf.
  { by rewrite (getGradeStats_propagates gradeType w e Hf). }
  destruct (getAllGrades_scores gradeType w Hf) as (records & Hread & Hperm).
  unfold GradeService.getGradeStats, try_catch, bind at 1. rewrite Hread.
  pose proof (scores_not_NaN (GradeRecord_get gradeType) records) as Hnum.
  apply Permutation_length in Hperm.
  destruct (omap _ records) as [|v values] eqn:Hvalues.
  - intros [= <- _]. cbn. unfold GradeService.count_of.
    rewrite <- Hperm. cbn. split; [done|]. split; [done|]. intros H; lia.
  - intros [= <- _]. cbn [GradeService.GradeStats.count
                           GradeService.GradeStats.distribution].
    split; [unfold GradeService.count_of; by rewrite Hperm|].
    split; [intros H; unfold GradeService.count_of in H; cbn [List.length] in H; lia|].
    intros _. split; [done|].
    cbn [map snd foldr].
    pose proof (bands_partition (v :: values) Hnum) as Hsum. cbv beta zeta in Hsum.
    lia.
Qed.

Lemma statistics_of_one_grade :
  GradeService.GradeStats.count (Examples.midterm_stats)
  = GradeService.count_of (stored_scores midterm (grades Examples.graded_world))
  /\ (GradeService.GradeStats.count Examples.midterm_stats = 0 ->
      Examples.midterm_stats = GradeService.GradeStats.mk 0 0 0 0 [])
  /\ (0 < GradeService.GradeStats.count Examples.midterm_stats ->
      map fst (GradeService.GradeStats.distribution Examples.midterm_stats)
      = ["A (8.5-10)"; "B (7.0-8.4)"; "C (5.5-6.9)"; "D (4.0-5.4)"; "F (0-3.9)"]
      /\ foldr Z.add 0
           (map snd (GradeService.GradeStats.distribution Examples.midterm_stats))
         = GradeService.GradeStats.count Examples.midterm_stats).
Proof.
  apply (getGradeStats_bands_partition_the_scores midterm Examples.graded_world
           (advance Examples.graded_world)).
  vm_compute. reflexivity.
Defined.

(** ** Bulk import of grades *)

Section ImportedScores.

Import GradeService.

Variable gradeType : GradeType.

Lemma validate_row_accepts i row g :
  validate_row gradeType i row = inr g ->
  GradeUpdate.gradeType g = gradeType /\ in_range (GradeUpdate.value g).
Proof.
  unfold validate_row.
  destruct (_ && _); [done|]. destruct (is_blank _); [done|].
  destruct (JsNumber.isNaN _) eqn:Hnan; [done|].
  destruct (PrimFloat.ltb _ 0) eqn:Hlow; [done|].
  destruct (PrimFloat.ltb 10 _) eqn:Hhigh; [done|].
  cbn. intros [= <-]. cbn. split; [done|]. split.
  - by rewrite (leb_negb_ltb 0%float _ eq_refl Hnan), Hlow.
  - by rewrite (leb_negb_ltb _ 10%float Hnan eq_refl), Hhigh.
Qed.

Lemma validate_rows_accepts rows i errors validGrades :
  Forall (fun g => GradeUpdate.gradeType g = gradeType
                   /\ in_range (GradeUpdate.value g)) validGrades ->
  Forall (fun g => GradeUpdate.gradeType g = gradeType
                   /\ in_range (GradeUpdate.value g))
         (snd (validate_rows gradeType i rows errors validGrades)).
Proof.
  revert i errors validGrades.
  induction rows as [|row rows IH]; intros i errors validGrades Hall; [done|].
  cbn. destruct (validate_row gradeType i row) as [e|g] eqn:Hrow.
  - by apply IH.
  - apply IH, Forall_app. split; [done|].
    constructor; [by eapply validate_row_accepts | constructor].
Qed.

Let ranged (w : World) : Prop := scores_in_range gradeType (grades w).

Lemma ranged_insert m account d :
  scores_in_range gradeType m ->
  (forall x, GradeRecord_get gradeType d = Some x -> in_range x) ->
  scores_in_range gradeType (<[account := d]> m).
Proof.
  intros Hm Hd id d' x. rewrite lookup_insert. case_decide.
  - intros [= <-]. apply Hd.
  - apply Hm.
Qed.

Lemma ranged_getGradesByStudent account :
  preserves ranged (getGradesByStudent account).
Proof.
  apply preserves_try_catch; [|intros; apply preserves_throw].
  apply preserves_bind; [by apply preserves_await_store|]. intros docs.
  apply preserves_bind; [apply preserves_now|]. intros now.
  destruct docs; apply preserves_ret.
Qed.

Lemma ranged_recalculateTotal account : preserves ranged (recalculateTotal account).
Proof.
  apply preserves_try_catch; [|intros; apply preserves_ret].
  apply preserves_bind; [apply ranged_getGradesByStudent|]. intros [r|].
  - apply preserves_bind; [apply preserves_now|]. intros stamp.
    apply preserves_await_store; [done|].
    intros w H. cbn. destruct (grades w !! account) as [d|] eqn:Hd; [|done].
    apply ranged_insert; [done|]. intros x Hx. apply (H account d x Hd).
    by destruct gradeType.
  - apply preserves_ret.
Qed.

Lemma ranged_gradeData account value stamp by_ old :
  in_range value ->
  forall x,
    GradeRecord_get gradeType (gradeData account gradeType value stamp by_ old)
    = Some x -> in_range x.
Proof.
  intros Hv x.
  replace (GradeRecord_get gradeType (gradeData account gradeType value stamp by_ old))
    with (Some value); [by intros [= <-]|].
  destruct gradeType; cbn; by rewrite decide_True.
Qed.

Lemma ranged_updateGrade account value by_ :
  in_range value ->
  preserves ranged (updateGrade account gradeType value by_).
Proof.
  intros Hv.
  apply preserves_try_catch; [|intros; apply preserves_throw].
  apply preserves_bind; [apply ranged_getGradesByStudent|]. intros existing.
  apply preserves_bind; [apply preserves_now|]. intros stamp.
  apply preserves_bind; [|intros; apply ranged_recalculateTotal].
  destruct existing.
  - apply preserves_await_store; [done|].
    intros w H. cbn. destruct (grades w !! account) as [d|] eqn:Hd; [|done].
    apply ranged_insert; [done|]. by apply ranged_gradeData.
  - apply preserves_await_store; [done|].
    intros w H. cbn. apply ranged_insert; [done|]. by apply ranged_gradeData.
Qed.

Lemma ranged_processExcelUpload excelData by_ :
  preserves ranged (processExcelUpload excelData gradeType by_).
Proof.
  unfold processExcelUpload.
  pose proof (validate_rows_accepts excelData 0 [] [] (Forall_nil_2 _)) as Hall.
  destruct (validate_rows gradeType 0 excelData [] []) as [errors validGrades].
  apply preserves_try_catch; [|intros; apply preserves_ret].
  apply preserves_bind; [|intros; apply preserves_ret].
  destruct (count_of errors =? 0); [|apply preserves_ret].
  apply preserves_try_catch; [|intros; apply preserves_throw].
  apply preserves_Promise_all, Forall_map.
  eapply Forall_impl; [exact Hall|]. cbn. intros g [-> Hv].
  by apply ranged_updateGrade.
Qed.

End ImportedScores.

(** X7: the bulk import never stores a score outside 0 to 10, nor [NaN]:
    if every score stored in the imported category lies between 0 and 10
    before the call, so does every one after it, whatever the rows hold and
    whatever the store answers. *)
Theorem processExcelUpload_keeps_scores_in_range
  (excelData : list (gmap string Js.value)) (gradeType : GradeType)
  (by_ : string) (w : World) :
  scores_in_range gradeType (grades w) ->
  scores_in_range gradeType
    (grades (snd (GradeService.processExcelUpload excelData gradeType by_ w))).
Proof. apply ranged_processExcelUpload. Qed.

Lemma import_into_an_empty_store_is_in_range :
  scores_in_range midterm (grades Examples.empty_world)
  /\ scores_in_range midterm
       (grades (snd (GradeService.processExcelUpload Examples.three_valid_rows
                       midterm "teacher" Examples.empty_world))).
Proof.
  assert (scores_in_range midterm (grades Examples.empty_world)) as Hempty.
  { intros id d x H. cbn in H. by rewrite lookup_empty in H. }
  split; [exact Hempty|].
  by apply processExcelUpload_keeps_scores_in_range.
Defined.

(** X8: the bulk import always returns a result, never throws, and reports
    the number of rows it was given as [totalCount].  When it reports
    success no row was rejected and every row was processed; when it reports
    row errors it has written nothing. *)
Theorem processExcelUpload_always_reports
  (excelData : list (gmap string Js.value)) (gradeType : GradeType)
  (by_ : string) (w : World) :
  exists result w',
    GradeService.processExcelUpload excelData gradeType by_ w
    = (Js.Return result, w')
    /\ ExcelUploadResult.totalCount result = GradeService.count_of excelData
    /\ (ExcelUploadResult.success result = true ->
        ExcelUploadResult.errors result = []
        /\ ExcelUploadResult.processedCount result
           = ExcelUploadResult.totalCount result)
    /\ (ExcelUploadResult.errors result <> [] ->
        ExcelUploadResult.success result = false /\ w' = w).
Proof.
  unfold GradeService.processExcelUpload.
  pose proof (validate_rows_counts gradeType excelData 0 [] []) as Hcounts.
  pose proof (validation_counts_total gradeType excelData) as Htotal.
  destruct (GradeService.validate_rows gradeType 0 excelData [] [])
    as [errors validGrades].
  destruct Hcounts as [Herr Hvalid].
  unfold try_catch, bind.
  destruct (GradeService.count_of errors =? 0) eqn:Hzero.
  - apply Z.eqb_eq in Hzero.
    assert (errors = []) as ->.
    { destruct errors; [done|]. unfold GradeService.count_of in Hzero. cbn in Hzero. lia. }
    destruct (GradeService.batchUpdateGrades validGrades by_ w) as [[[]|e] w1].
    + do 2 eexists. split; [reflexivity|]. cbn.
      split; [done|]. split; [|done]. intros _. split; [done|].
      unfold GradeService.count_of in *. cbn [List.length] in *. lia.
    + do 2 eexists. split; [reflexivity|]. cbn. done.
  - do 2 eexists. split; [reflexivity|]. cbn. done.
Qed.

(** X9: a row whose category cell holds the number 0, with no [grade] or
    [score] column to fall back on, is rejected as lacking a grade: a
    numeric zero counts as an empty cell.  The same score given as the text
    ["0"] is accepted, with the value 0. *)
Theorem validate_row_numeric_zero_is_missing
  (gradeType : GradeType) (i : nat) (row : gmap string Js.value) :
  Js.truthy (GradeService.cell row "account") = true ->
  GradeService.cell row "grade" = Js.undefined ->
  GradeService.cell row "score" = Js.undefined ->
  (GradeService.cell row (GradeType_key gradeType) = Js.number 0%float ->
   GradeService.validate_row gradeType i row
   = inl (ExcelValidationError.mk (Z.of_nat i + 2)
            (GradeService.cell row "account") (GradeType_key gradeType)
            "Thiếu điểm"))
  /\ (GradeService.cell row (GradeType_key gradeType) = Js.str "0" ->
      GradeService.validate_row gradeType i row
      = inr (GradeService.GradeUpdate.mk
               (Js.ToString (GradeService.cell row "account")) gradeType 0%float)).
Proof.
  intros Haccount Hgrade Hscore. unfold GradeService.validate_row.
  rewrite Hgrade, Hscore. unfold Js.or. rewrite !Haccount. cbn [negb andb].
  split; intros ->; reflexivity.
Qed.

Lemma a_midterm_of_zero :
  GradeService.validate_row midterm 0 Examples.zero_as_number
  = inl (ExcelValidationError.mk 2 (Js.str "21520005") "midterm" "Thiếu điểm")
  /\ GradeService.validate_row midterm 0 Examples.zero_as_text
     = inr (GradeService.GradeUpdate.mk "21520005" midterm 0%float).
Proof.
  split.
  - apply (validate_row_numeric_zero_is_missing midterm 0 Examples.zero_as_number);
      reflexivity.
  - apply (validate_row_numeric_zero_is_missing midterm 0 Examples.zero_as_text);
      reflexivity.
Defined.

(** ** Attendance records *)

(** X10: a call of [markAttendance] that fails throws the service's own
    error and has written nothing: attendance, grades and roster are as
    they were. *)
Theorem markAttendance_failure_writes_nothing
  (localeCompare : string -> string -> Z) (account : string) (day : JsDate.t)
  (present : bool) (markedBy : string) (w w' : World) (e : Js.Error) :
  AttendanceService.markAttendance localeCompare account day present markedBy w
  = (Js.Throw e, w') ->
  e = Js.new_Error "Không thể lưu điểm danh."
  /\ attendance w' = attendance w
  /\ grades w' = grades w
  /\ students w' = students w.
Proof.
  intros Hrun.
  pose proof (markAttendance_throws localeCompare _ _ _ _ _ _ _ Hrun) as Hatt.
  revert Hrun.
  unfold AttendanceService.markAttendance, try_catch, bind at 1, Timestamp_now at 1.
  unfold bind at 1.
  destruct (getAttendanceRecords_run localeCompare
              (AttendanceFilter.mk (Some (format_yyyy_MM_dd day)) (Some account) None) w)
    as (records & -> & _).
  destruct (0 <? List.length records)%nat.
  - unfold updateDoc, await_store.
    destruct (next_fault (advance w)); [by intros [= <- <-]|].
    cbn. destruct (attendance w !! _); [done | by intros [= <- <-]].
  - unfold bind, Timestamp_now, setDoc, await_store.
    destruct (next_fault (advance w)); [by intros [= <- <-] | done].
Qed.

Lemma marking_when_the_write_fails :
  let run :=
    AttendanceService.markAttendance Examples.byte_order "21520001"
      Examples.a_day true "21520001" Examples.write_fails in
  fst run = Js.Throw (Js.new_Error "Không thể lưu điểm danh.")
  /\ attendance (snd run) = attendance Examples.write_fails
  /\ grades (snd run) = grades Examples.write_fails
  /\ students (snd run) = students Examples.write_fails.
Proof.
  intros run.
  destruct (markAttendance_failure_writes_nothing Examples.byte_order "21520001"
              Examples.a_day true "21520001" Examples.write_fails (snd run)
              (Js.new_Error "Không thể lưu điểm danh.")) as (_ & H);
    [reflexivity|].
  split; [reflexivity | exact H].
Defined.

(** The presence a call that returns has stored. *)
Lemma markAttendance_marks
  (localeCompare : string -> string -> Z) (account : string) (day : JsDate.t)
  (present : bool) (markedBy : string) (w w' : World) :
  AttendanceService.markAttendance localeCompare account day present markedBy w
  = (Js.Return tt, w') ->
  exists d,
    attendance w' !! AttendanceService.docId account (format_yyyy_MM_dd day)
    = Some d
    /\ AttendanceRecord.isPresent d = Some present.
Proof.
  intros Hrun.
  destruct (markAttendance_returns localeCompare _ _ _ _ _ _ Hrun)
    as (records & d' & _ & -> & _ & _ & Hpresent & _).
  exists d'. split; [apply lookup_insert_eq | done].
Qed.

(** X11: a call of [markAttendance] that returns has written one document,
    the one under the key [account_date]: it holds the account, the day, the
    presence and the actor; every other attendance document, the grades and
    the roster are untouched. *)
Theorem markAttendance_writes_one_document
  (localeCompare : string -> string -> Z) (account : string) (day : JsDate.t)
  (present : bool) (markedBy : string) (w w' : World) :
  AttendanceService.markAttendance localeCompare account day present markedBy w
  = (Js.Return tt, w') ->
  (exists d,
     attendance w' !! AttendanceService.docId account (format_yyyy_MM_dd day)
     = Some d
     /\ AttendanceRecord.studentAccount d = account
     /\ AttendanceRecord.date d = format_yyyy_MM_dd day
     /\ AttendanceRecord.isPresent d = Some present
     /\ AttendanceRecord.updatedBy d = Some markedBy
     /\ AttendanceRecord.updatedAt d = Some (clock w))
  /\ (forall id, id <> AttendanceService.docId account (format_yyyy_MM_dd day) ->
        attendance w' !! id = attendance w !! id)
  /\ grades w' = grades w
  /\ students w' = students w.
Proof.
  intros Hrun.
  destruct (markAttendance_returns localeCompare _ _ _ _ _ _ Hrun)
    as (records & d' & _ & -> & Hacc & Hdate & Hpresent & Hbranch).
  cbn [attendance grades students put_docs attendanceCol advance].
  split; [|split; [|done]].
  - exists d'. split; [apply lookup_insert_eq|]. repeat split; try done.
    + destruct (0 <? List.length records)%nat;
        [destruct Hbranch as (d & _ & ->) | subst d']; done.
    + destruct (0 <? List.length records)%nat;
        [destruct Hbranch as (d & _ & ->) | subst d']; done.
  - intros id Hid. by apply lookup_insert_ne.
Qed.

Lemma a_first_mark :
  (exists d,
     attendance (snd Examples.first_mark)
       !! AttendanceService.docId "21520001" (format_yyyy_MM_dd Examples.a_day)
     = Some d
     /\ AttendanceRecord.studentAccount d = "21520001"
     /\ AttendanceRecord.date d = format_yyyy_MM_dd Examples.a_day
     /\ AttendanceRecord.isPresent d = Some true
     /\ AttendanceRecord.updatedBy d = Some "21520001"
     /\ AttendanceRecord.updatedAt d = Some (clock Examples.empty_world))
  /\ (forall id,
        id <> AttendanceService.docId "21520001" (format_yyyy_MM_dd Examples.a_day) ->
        attendance (snd Examples.first_mark) !! id
        = attendance Examples.empty_world !! id)
  /\ grades (snd Examples.first_mark) = grades Examples.empty_world
  /\ students (snd Examples.first_mark) = students Examples.empty_world.
Proof.
  apply (markAttendance_writes_one_document Examples.byte_order "21520001"
           Examples.a_day true "21520001" Examples.empty_world).
  reflexivity.
Defined.

(** X12: on a keyed store whose existence query is answered, marking a
    student who already has a record for the day keeps the record's
    participation count and creation time and sets the presence; marking a
    student who has none creates the record with a participation count of 0. *)
Theorem markAttendance_participation_kept_or_started
  (localeCompare : string -> string -> Z) (account : string) (day : JsDate.t)
  (present : bool) (markedBy : string) (w w' : World) :
  attendance_keyed (attendance w) ->
  next_fault w = None ->
  AttendanceService.markAttendance localeCompare account day present markedBy w
  = (Js.Return tt, w') ->
  let id := AttendanceService.docId account (format_yyyy_MM_dd day) in
  (forall d,
     attendance w !! id = Some d ->
     AttendanceRecord.studentAccount d = account ->
     AttendanceRecord.date d = format_yyyy_MM_dd day ->
     exists d',
       attendance w' !! id = Some d'
       /\ AttendanceRecord.participationCount d'
          = AttendanceRecord.participationCount d
       /\ AttendanceRecord.createdAt d' = AttendanceRecord.createdAt d
       /\ AttendanceRecord.isPresent d' = Some present)
  /\ (attendance w !! id = None ->
      exists d',
        attendance w' !! id = Some d'
        /\ AttendanceRecord.participationCount d' = Some 0
        /\ AttendanceRecord.createdAt d' = Some (clock w + 1)
        /\ AttendanceRecord.isPresent d' = Some present).
Proof.
  intros Hk Hf Hrun id. split.
  - intros d Hd Hacc Hdate.
    by apply (markAttendance_keeps_participation localeCompare account day present
                markedBy w w' id d).
  - intros Hnone.
    destruct (markAttendance_creates localeCompare account day present markedBy
                w w' Hnone Hrun) as (d' & Hd' & Hcount & Hcreated).
    exists d'. repeat split; try done.
    destruct (markAttendance_marks localeCompare account day present
                markedBy w w' Hrun) as (d & Hd & Hp).
    unfold id in Hd'. congruence.
Qed.

Lemma marked_world_keyed : attendance_keyed (attendance Examples.marked_world).
Proof.
  intros id d. cbn. rewrite lookup_singleton_Some. by intros [<- <-].
Qed.

Lemma marking_a_marked_student_again :
  let id := AttendanceService.docId "21520001" (format_yyyy_MM_dd Examples.a_day) in
  (forall d,
     attendance Examples.marked_world !! id = Some d ->
     AttendanceRecord.studentAccount d = "21520001" ->
     AttendanceRecord.date d = format_yyyy_MM_dd Examples.a_day ->
     exists d',
       attendance (snd Examples.marked_again) !! id = Some d'
       /\ AttendanceRecord.participationCount d'
          = AttendanceRecord.participationCount d
       /\ AttendanceRecord.createdAt d' = AttendanceRecord.createdAt d
       /\ AttendanceRecord.isPresent d' = Some false)
  /\ (attendance Examples.marked_world !! id = None ->
      exists d',
        attendance (snd Examples.marked_again) !! id = Some d'
        /\ AttendanceRecord.participationCount d' = Some 0
        /\ AttendanceRecord.createdAt d' = Some (clock Examples.marked_world + 1)
        /\ AttendanceRecord.isPresent d' = Some false).
Proof.
  apply (markAttendance_participation_kept_or_started Examples.byte_order
           "21520001" Examples.a_day false "teacher" Examples.marked_world).
  - apply marked_world_keyed.
  - reflexivity.
  - reflexivity.
Defined.

Section ParticipationCounts.

Import AttendanceService.

Variable localeCompare : string -> string -> Z.

(** The participation write, step by step. *)
Lemma updateParticipation_run account day count by_ w :
  updateParticipation account day count by_ w =
    match next_fault w with
    | Some e =>
        (Js.Throw (Js.new_Error "Không thể cập nhật số lần phát biểu."), advance w)
    | None =>
        let dateString := format_yyyy_MM_dd day in
        (Js.Return tt,
         put_docs attendanceCol
           (<[docId account dateString :=
                participationData account dateString count (clock w) by_
                  (default (blank account dateString)
                     (attendance w !! docId account dateString))]> (attendance w))
           (advance w))
    end.
Proof.
  unfold updateParticipation, try_catch, bind, Timestamp_now, setDoc_merge, await_store.
  destruct (next_fault w); [done|]. cbn.
  by destruct (attendance w !! _).
Qed.

Lemma append_not_empty (a b : string) (c : ascii) : a ++ String c b <> "".
Proof. by destruct a. Qed.

Lemma format_yyyy_MM_dd_not_empty day : String.eqb (format_yyyy_MM_dd day) "" = false.
Proof. apply String.eqb_neq, append_not_empty. Qed.

(** On a keyed store that answers, marking a named student returns. *)
Lemma markAttendance_succeeds account day present by_ w :
  account <> "" ->
  attendance_keyed (attendance w) ->
  next_fault w = None ->
  next_fault (advance w) = None ->
  exists w', markAttendance localeCompare account day present by_ w = (Js.Return tt, w').
Proof.
  intros Hacc Hk Hf1 Hf2.
  unfold markAttendance, try_catch, bind at 1, Timestamp_now at 1. unfold bind at 1.
  destruct (getAttendanceRecords_run localeCompare
              (AttendanceFilter.mk (Some (format_yyyy_MM_dd day)) (Some account) None) w)
    as (records & -> & Hlen & _).
  specialize (Hlen Hf1).
  cbn [AttendanceFilter.date AttendanceFilter.studentAccount] in Hlen.
  destruct (0 <? List.length records)%nat eqn:Hfound.
  - unfold updateDoc. rewrite (await_store_answers _ _ Hf2). cbn.
    apply Nat.ltb_lt in Hfound. rewrite Hlen in Hfound.
    match type of Hlen with
    | _ = List.length ?l =>
        assert (forall kv, In kv l ->
                  attendance w !! fst kv = Some (snd kv)
                  /\ filter_on (Some (format_yyyy_MM_dd day))
                       (AttendanceRecord.date (snd kv))
                     && filter_on (Some account)
                          (AttendanceRecord.studentAccount (snd kv)) = true) as Hall
    end.
    { intros [id d] [Hin Hm]%List.filter_In. split; [|exact Hm].
      by apply elem_of_map_to_list, list_elem_of_In. }
    destruct (List.filter _ _) as [|[id d] rest]; [cbn in Hfound; lia|].
    destruct (Hall (id, d)) as [Hin Hmatches]; [by left|].
    cbn [fst snd] in Hin, Hmatches. unfold filter_on in Hmatches.
    rewrite format_yyyy_MM_dd_not_empty in Hmatches.
    apply String.eqb_neq in Hacc. rewrite Hacc in Hmatches.
    apply andb_prop in Hmatches as [Hd%String.eqb_eq Ha%String.eqb_eq].
    pose proof (Hk _ _ Hin) as Hid. rewrite Hd, Ha in Hid. subst id.
    rewrite Hin. by eexists.
  - unfold bind, Timestamp_now, setDoc. rewrite (await_store_answers _ _ Hf2).
    by eexists.
Qed.

End ParticipationCounts.

(** X13: a participation update that returns has merged the count into
    the document under the key [account_date]: the count and the actor are
    set and the presence and the creation time are as before, absent in a
    document it created.  One that fails throws the service's own error and
    has written nothing.  Either way the other documents are untouched. *)
Theorem updateParticipation_merges_the_count
  (account : string) (day : JsDate.t) (count : Z) (by_ : string)
  (w w' : World) (r : Js.completion unit) :
  AttendanceService.updateParticipation account day count by_ w = (r, w') ->
  let id := AttendanceService.docId account (format_yyyy_MM_dd day) in
  (r = Js.Return tt ->
   exists d',
     attendance w' !! id = Some d'
     /\ AttendanceRecord.participationCount d' = Some count
     /\ AttendanceRecord.updatedBy d' = Some by_
     /\ AttendanceRecord.isPresent d'
        = (attendance w !! id ≫= AttendanceRecord.isPresent)
     /\ AttendanceRecord.createdAt d'
        = (attendance w !! id ≫= AttendanceRecord.createdAt))
  /\ (forall e, r = Js.Throw e ->
        e = Js.new_Error "Không thể cập nhật số lần phát biểu."
        /\ attendance w' = attendance w)
  /\ (forall id', id' <> id -> attendance w' !! id' = attendance w !! id').
Proof.
  rewrite updateParticipation_run. intros Hrun id.
  destruct (next_fault w).
  - injection Hrun as <- <-. split; [done|]. split; [|done].
    by intros e' [= <-].
  - injection Hrun as <- <-. cbn [attendance put_docs attendanceCol advance].
    split; [|split; [done|]].
    + intros _. eexists. split; [apply lookup_insert_eq|].
      fold id. by destruct (attendance w !! id).
    + intros id' Hid. by apply lookup_insert_ne.
Qed.

Lemma a_fourth_participation :
  let run :=
    AttendanceService.updateParticipation "21520001" Examples.a_day 4 "teacher"
      Examples.marked_world in
  let id := AttendanceService.docId "21520001" (format_yyyy_MM_dd Examples.a_day) in
  (fst run = Js.Return tt ->
   exists d',
     attendance (snd run) !! id = Some d'
     /\ AttendanceRecord.participationCount d' = Some 4
     /\ AttendanceRecord.updatedBy d' = Some "teacher"
     /\ AttendanceRecord.isPresent d'
        = (attendance Examples.marked_world !! id ≫= AttendanceRecord.isPresent)
     /\ AttendanceRecord.createdAt d'
        = (attendance Examples.marked_world !! id ≫= AttendanceRecord.createdAt))
  /\ (forall e, fst run = Js.Throw e ->
        e = Js.new_Error "Không thể cập nhật số lần phát biểu."
        /\ attendance (snd run) = attendance Examples.marked_world)
  /\ (forall id', id' <> id ->
        attendance (snd run) !! id' = attendance Examples.marked_world !! id').
Proof.
  intros run.
  apply (updateParticipation_merges_the_count "21520001" Examples.a_day 4 "teacher"
           Examples.marked_world (snd run) (fst run)).
  reflexivity.
Defined.

(** X14: on a keyed store that answers, marking a named student and
    setting their participation count commute: in either order the record of
    the day ends with both the presence and the count. *)
Theorem markAttendance_and_updateParticipation_in_either_order
  (localeCompare : string -> string -> Z) (account : string) (day : JsDate.t)
  (present : bool) (count : Z) (by_ : string) (w : World) :
  account <> "" ->
  attendance_keyed (attendance w) ->
  no_fault_within 3 w ->
  let mark := AttendanceService.markAttendance localeCompare account day present by_ in
  let set_count := AttendanceService.updateParticipation account day count by_ in
  let id := AttendanceService.docId account (format_yyyy_MM_dd day) in
  (exists d,
     attendance (snd (set_count (snd (mark w)))) !! id = Some d
     /\ AttendanceRecord.isPresent d = Some present
     /\ AttendanceRecord.participationCount d = Some count)
  /\ (exists d,
        attendance (snd (mark (snd (set_count w)))) !! id = Some d
        /\ AttendanceRecord.isPresent d = Some present
        /\ AttendanceRecord.participationCount d = Some count).
Proof.
  intros Hacc Hk Hf mark set_count id. subst id.
  apply no_fault_within_step in Hf as [Hf1 Hf].
  apply no_fault_within_step in Hf as [Hf2 Hf].
  apply no_fault_within_step in Hf as [Hf3 _].
  split.
  - destruct (markAttendance_succeeds localeCompare account day present by_ w
                Hacc Hk Hf1 Hf2) as [w1 Hmark].
    unfold mark. rewrite Hmark. cbn [snd].
    destruct (markAttendance_marks localeCompare _ _ _ _ _ _ Hmark)
      as (d & Hd & Hp).
    destruct (markAttendance_returns localeCompare _ _ _ _ _ _ Hmark)
      as (records & d0 & _ & Hw1 & _).
    assert (next_fault w1 = None) as Hf1' by (by rewrite Hw1).
    unfold set_count. rewrite updateParticipation_run, Hf1'.
    cbn [snd attendance put_docs attendanceCol advance].
    rewrite lookup_insert_eq. eexists. split; [reflexivity|].
    rewrite Hd. done.
  - unfold set_count. rewrite updateParticipation_run, Hf1. cbn [snd].
    set (d1 := AttendanceService.participationData _ _ _ _ _ _).
    set (w1 := put_docs _ _ _).
    assert (attendance_keyed (attendance w1)) as Hk1
      by (by apply attendance_keyed_insert).
    assert (attendance w1 !! AttendanceService.docId account (format_yyyy_MM_dd day)
            = Some d1) as Hd1 by apply lookup_insert_eq.
    destruct (markAttendance_succeeds localeCompare account day present by_ w1
                Hacc Hk1 Hf2 Hf3) as [w2 Hmark].
    unfold mark. rewrite Hmark. cbn [snd].
    destruct (markAttendance_keeps_participation localeCompare account day present
                by_ w1 w2 _ d1 Hk1 Hf2 Hd1 eq_refl eq_refl Hmark)
      as (d' & Hd' & Hcount & _ & Hp).
    exists d'. done.
Qed.

Lemma mark_and_count_in_an_empty_store :
  let mark :=
    AttendanceService.markAttendance Examples.byte_order "21520001"
      Examples.a_day true "teacher" in
  let set_count :=
    AttendanceService.updateParticipation "21520001" Examples.a_day 2 "teacher" in
  let id := AttendanceService.docId "21520001" (format_yyyy_MM_dd Examples.a_day) in
  (exists d,
     attendance (snd (set_count (snd (mark Examples.empty_world)))) !! id = Some d
     /\ AttendanceRecord.isPresent d = Some true
     /\ AttendanceRecord.participationCount d = Some 2)
  /\ (exists d,
        attendance (snd (mark (snd (set_count Examples.empty_world)))) !! id
        = Some d
        /\ AttendanceRecord.isPresent d = Some true
        /\ AttendanceRecord.participationCount d = Some 2).
Proof.
  apply (markAttendance_and_updateParticipation_in_either_order
           Examples.byte_order "21520001" Examples.a_day true 2 "teacher"
           Examples.empty_world).
  - done.
  - apply attendance_keyed_empty.
  - apply no_fault_within_nil. reflexivity.
Defined.

(** X15: deleting the attendance of a student on a day removes the
    document under the key [account_date] and no other; on a keyed store no
    record of that student and day is left.  A deletion that fails throws the
    service's own error and removes nothing. *)
Theorem deleteAttendance_removes_the_record
  (account : string) (day : JsDate.t) (w w' : World) (r : Js.completion unit) :
  AttendanceService.deleteAttendance account day w = (r, w') ->
  let dateString := format_yyyy_MM_dd day in
  (r = Js.Return tt ->
   attendance w' !! AttendanceService.docId account dateString = None
   /\ (attendance_keyed (attendance w) ->
       records_for account dateString (attendance w') = []))
  /\ (forall e, r = Js.Throw e ->
        e = Js.new_Error "Không thể xóa điểm danh."
        /\ attendance w' = attendance w)
  /\ (forall id, id <> AttendanceService.docId account dateString ->
        attendance w' !! id = attendance w !! id).
Proof.
  intros Hrun dateString. revert Hrun.
  unfold AttendanceService.deleteAttendance, try_catch, deleteDoc, await_store.
  fold dateString. intros Hrun. destruct (next_fault w).
  - injection Hrun as <- <-. split; [done|]. split; [|done]. by intros e' [= <-].
  - injection Hrun as <- <-. cbn [attendance put_docs attendanceCol advance docs].
    split; [|split; [done|]].
    + intros _. split; [apply lookup_delete_eq|]. intros Hk.
      unfold records_for.
      rewrite (filter_unique_key _
                 (fun d => String.eqb (AttendanceRecord.studentAccount d) account
                           && String.eqb (AttendanceRecord.date d) dateString)
                 (AttendanceService.docId account dateString)).
      * by rewrite lookup_delete_eq.
      * intros id d [_ Hd]%lookup_delete_Some
          [H1%String.eqb_eq H2%String.eqb_eq]%andb_prop.
        by rewrite (Hk _ _ Hd), H1, H2.
    + intros id Hid. by apply lookup_delete_ne.
Qed.

Lemma deleting_the_only_attendance :
  let run :=
    AttendanceService.deleteAttendance "21520001" Examples.a_day
      Examples.marked_world in
  let dateString := format_yyyy_MM_dd Examples.a_day in
  (fst run = Js.Return tt ->
   attendance (snd run) !! AttendanceService.docId "21520001" dateString = None
   /\ (attendance_keyed (attendance Examples.marked_world) ->
       records_for "21520001" dateString (attendance (snd run)) = []))
  /\ (forall e, fst run = Js.Throw e ->
        e = Js.new_Error "Không thể xóa điểm danh."
        /\ attendance (snd run) = attendance Examples.marked_world)
  /\ (forall id, id <> AttendanceService.docId "21520001" dateString ->
        attendance (snd run) !! id = attendance Examples.marked_world !! id).
Proof.
  intros run.
  apply (deleteAttendance_removes_the_record "21520001" Examples.a_day
           Examples.marked_world (snd run) (fst run)).
  reflexivity.
Defined.

(** X16: every writer of the attendance collection keeps each document
    under its composite key, whatever the store answers; so after any of
    them a student has at most one record per day. *)
Theorem attendance_writers_keep_one_record_per_student_and_day
  (localeCompare : string -> string -> Z) (w : World) :
  attendance_keyed (attendance w) ->
  let one_per_day (w' : World) :=
    attendance_keyed (attendance w')
    /\ (forall account dateString,
          (List.length (records_for account dateString (attendance w')) <= 1)%nat) in
  (forall account day present by_,
     one_per_day (snd (AttendanceService.markAttendance localeCompare account day
                         present by_ w)))
  /\ (forall entries by_,
        one_per_day (snd (AttendanceService.batchMarkAttendance localeCompare
                            entries by_ w)))
  /\ (forall account day count by_,
        one_per_day (snd (AttendanceService.updateParticipation account day count
                            by_ w)))
  /\ (forall account day,
        one_per_day (snd (AttendanceService.deleteAttendance account day w))).
Proof.
  intros Hk one_per_day.
  assert (forall w', attendance_keyed (attendance w') -> one_per_day w') as Hone.
  { intros w' Hk'. split; [done|]. intros account dateString.
    by apply keyed_at_most_one_record. }
  split; [|split; [|split]]; intros; apply Hone.
  - by apply keyed_markAttendance.
  - by apply keyed_batchMarkAttendance.
  - by apply keyed_updateParticipation.
  - by apply keyed_deleteAttendance.
Qed.

Lemma one_record_per_day_after_a_write :
  let one_per_day (w' : World) :=
    attendance_keyed (attendance w')
    /\ (forall account dateString,
          (List.length (records_for account dateString (attendance w')) <= 1)%nat) in
  (forall account day present by_,
     one_per_day (snd (AttendanceService.markAttendance Examples.byte_order
                         account day present by_ Examples.marked_world)))
  /\ (forall entries by_,
        one_per_day (snd (AttendanceService.batchMarkAttendance
                            Examples.byte_order entries by_ Examples.marked_world)))
  /\ (forall account day count by_,
        one_per_day (snd (AttendanceService.updateParticipation account day count
                            by_ Examples.marked_world)))
  /\ (forall account day,
        one_per_day (snd (AttendanceService.deleteAttendance account day
                            Examples.marked_world))).
Proof.
  apply (attendance_writers_keep_one_record_per_student_and_day
           Examples.byte_order Examples.marked_world).
  apply marked_world_keyed.
Defined.

(** X17: every writer of the grade collection keeps each record under the
    account of its student, whatever the rows hold and whatever the store
    answers. *)
Theorem grade_writers_keep_records_under_their_account (w : World) :
  grades_keyed (grades w) ->
  (forall account gradeType value by_,
     grades_keyed
       (grades (snd (GradeService.updateGrade account gradeType value by_ w))))
  /\ (forall updates by_,
        grades_keyed (grades (snd (GradeService.batchUpdateGrades updates by_ w))))
  /\ (forall gradeRecord,
        grades_keyed (grades (snd (GradeService.updateFullGrade gradeRecord w))))
  /\ (forall excelData gradeType by_,
        grades_keyed
          (grades (snd (GradeService.processExcelUpload excelData gradeType by_ w))))
  /\ (forall account,
        grades_keyed (grades (snd (GradeService.deleteGrade account w)))).
Proof.
  intros Hk. split; [|split; [|split; [|split]]]; intros.
  - by apply keyed_updateGrade.
  - by apply keyed_batchUpdateGrades.
  - by apply keyed_updateFullGrade.
  - by apply keyed_processExcelUpload.
  - by apply keyed_deleteGrade.
Qed.

Lemma grades_stay_keyed_after_a_write :
  (forall account gradeType value by_,
     grades_keyed
       (grades (snd (GradeService.updateGrade account gradeType value by_
                       Examples.graded_world))))
  /\ (forall updates by_,
        grades_keyed
          (grades (snd (GradeService.batchUpdateGrades updates by_
                          Examples.graded_world))))
  /\ (forall gradeRecord,
        grades_keyed
          (grades (snd (GradeService.updateFullGrade gradeRecord
                          Examples.graded_world))))
  /\ (forall excelData gradeType by_,
        grades_keyed
          (grades (snd (GradeService.processExcelUpload excelData gradeType by_
                          Examples.graded_world))))
  /\ (forall account,
        grades_keyed
          (grades (snd (GradeService.deleteGrade account Examples.graded_world)))).
Proof.
  apply (grade_writers_keep_records_under_their_account Examples.graded_world).
  apply graded_world_keyed.
Defined.

(** X18: when the store answers, the listing returns exactly the stored
    documents that match the date and the account of the filter (an empty
    string counts as no filter), each with its document id; a missing
    creation or update time reads as the time of the call. *)
Theorem getAttendanceRecords_lists_the_matching_documents
  (localeCompare : string -> string -> Z) (filter : AttendanceFilter.t)
  (w : World) :
  next_fault w = None ->
  exists records,
    AttendanceService.getAttendanceRecords localeCompare filter w
    = (Js.Return records, advance w)
    /\ forall r,
         r ∈ records <->
         exists id d,
           attendance w !! id = Some d
           /\ AttendanceService.filter_on (AttendanceFilter.date filter)
                (AttendanceRecord.date d) = true
           /\ AttendanceService.filter_on (AttendanceFilter.studentAccount filter)
                (AttendanceRecord.studentAccount d) = true
           /\ r = AttendanceRecord.mk (Some id)
                    (AttendanceRecord.studentAccount d) (AttendanceRecord.date d)
                    (AttendanceRecord.isPresent d)
                    (AttendanceRecord.participationCount d)
                    (Some (default (clock w + 1) (AttendanceRecord.createdAt d)))
                    (Some (default (clock w + 1) (AttendanceRecord.updatedAt d)))
                    (AttendanceRecord.updatedBy d).
Proof.
  intros Hf. unfold AttendanceService.getAttendanceRecords, try_catch, bind, getDocs.
  rewrite (await_store_answers _ _ Hf). cbn.
  eexists. split; [reflexivity|]. intros r.
  rewrite sort_Permutation, list_elem_of_fmap.
  split.
  - intros ([id d] & -> & Hin). rewrite sort_Permutation in Hin.
    apply list_elem_of_In, List.filter_In in Hin as [Hin Hm].
    apply list_elem_of_In, elem_of_map_to_list in Hin.
    apply andb_prop in Hm as [H1 H2]. by exists id, d.
  - intros (id & d & Hd & H1 & H2 & ->). exists (id, d). split; [done|].
    rewrite sort_Permutation. apply list_elem_of_In, List.filter_In. split.
    + by apply list_elem_of_In, elem_of_map_to_list.
    + cbn. by rewrite H1, H2.
Qed.

Lemma listing_a_store_of_one_record :
  exists records,
    AttendanceService.getAttendanceRecords Examples.byte_order
      AttendanceFilter.empty Examples.marked_world
    = (Js.Return records, advance Examples.marked_world)
    /\ forall r,
         r ∈ records <->
         exists id d,
           attendance Examples.marked_world !! id = Some d
           /\ AttendanceService.filter_on
                (AttendanceFilter.date AttendanceFilter.empty)
                (AttendanceRecord.date d) = true
           /\ AttendanceService.filter_on
                (AttendanceFilter.studentAccount AttendanceFilter.empty)
                (AttendanceRecord.studentAccount d) = true
           /\ r = AttendanceRecord.mk (Some id)
                    (AttendanceRecord.studentAccount d) (AttendanceRecord.date d)
                    (AttendanceRecord.isPresent d)
                    (AttendanceRecord.participationCount d)
                    (Some (default (clock Examples.marked_world + 1)
                             (AttendanceRecord.createdAt d)))
                    (Some (default (clock Examples.marked_world + 1)
                             (AttendanceRecord.updatedAt d)))
                    (AttendanceRecord.updatedBy d).
Proof.
  apply (getAttendanceRecords_lists_the_matching_documents Examples.byte_order
           AttendanceFilter.empty Examples.marked_world).
  reflexivity.
Defined.

(** ** Attendance statistics *)

Section Grouping.

Context {V : Type}.

Lemma push_keys k (v : V) o :
  map fst (JsObject.push k v o)
  = if bool_decide (k ∈ map fst o) then map fst o else (map fst o ++ [k])%list.
Proof.
  induction o as [|[k' vs] o IH]; cbn; [done|].
  destruct (String.eqb_spec k' k) as [->|Hne]; cbn.
  - by rewrite bool_decide_true by left.
  - rewrite IH. case_bool_decide as Hin.
    + by rewrite bool_decide_true by by right.
    + rewrite bool_decide_false; [done|].
      intros [->|]%elem_of_cons; done.
Qed.

Lemma push_NoDup k (v : V) o :
  NoDup (map fst o) -> NoDup (map fst (JsObject.push k v o)).
Proof.
  intros Hnd. rewrite push_keys. case_bool_decide as Hin; [done|].
  apply NoDup_app. split; [done|]. split; [|apply NoDup_singleton].
  intros x Hx ->%list_elem_of_singleton. done.
Qed.

Lemma push_values k (v : V) o :
  concat (map snd (JsObject.push k v o)) ≡ₚ v :: concat (map snd o).
Proof.
  induction o as [|[k' vs] o IH]; cbn; [done|].
  destruct (String.eqb k' k); cbn.
  - rewrite <- app_assoc. cbn. by rewrite <- Permutation_middle.
  - rewrite IH. by rewrite <- Permutation_middle.
Qed.

Lemma push_groups (P : string -> V -> Prop) k (v : V) o :
  P k v ->
  Forall (fun g => snd g <> [] /\ Forall (P (fst g)) (snd g)) o ->
  Forall (fun g => snd g <> [] /\ Forall (P (fst g)) (snd g)) (JsObject.push k v o).
Proof.
  intros Hv. induction 1 as [|[k' vs] o [Hne Hall] Ho IH]; cbn.
  - repeat constructor; done.
  - destruct (String.eqb_spec k' k) as [->|_]; constructor; cbn; try done.
    split; [by destruct vs|]. apply Forall_app. by split; [|constructor].
Qed.

Lemma entries_Permutation (o : list (string * V)) : JsObject.entries o ≡ₚ o.
Proof.
  unfold JsObject.entries.
  rewrite (fmap_Permutation snd _ _ (sort_Permutation _ _)).
  induction o as [|[k v] o IH]; cbn; [done|].
  destruct (JsObject.array_index k); cbn.
  - by rewrite IH.
  - rewrite <- Permutation_middle. by rewrite IH.
Qed.

End Grouping.

Section AttendanceStatistics.

Import AttendanceService.

Lemma by_date_groups records acc :
  let by_date :=
    fold_left (fun acc record =>
                 JsObject.push (AttendanceRecord.date record) record acc) in
  let grouped (o : list (string * list AttendanceRecord.t)) :=
    Forall (fun g => snd g <> []
                     /\ Forall (fun r => AttendanceRecord.date r = fst g) (snd g)) o in
  NoDup (map fst acc) ->
  grouped acc ->
  NoDup (map fst (by_date records acc))
  /\ grouped (by_date records acc)
  /\ concat (map snd (by_date records acc)) ≡ₚ (concat (map snd acc) ++ records)%list.
Proof.
  intros by_date grouped. revert acc.
  induction records as [|r records IH]; intros acc Hnd Hall.
  - cbn. by rewrite app_nil_r.
  - destruct (IH (JsObject.push (AttendanceRecord.date r) r acc)) as (H1 & H2 & H3).
    + by apply push_NoDup.
    + by apply (push_groups (fun k r => AttendanceRecord.date r = k)).
    + split; [exact H1|]. split; [exact H2|].
      change (by_date (r :: records) acc)
        with (by_date records (JsObject.push (AttendanceRecord.date r) r acc)).
      rewrite H3, push_values. by rewrite <- Permutation_middle.
Qed.

Lemma count_present_Permutation l1 l2 :
  l1 ≡ₚ l2 -> count_present l1 = count_present l2.
Proof.
  intros H. unfold count_present. f_equal.
  induction H; cbn; try congruence.
  - destruct (truthy_present x); cbn; congruence.
  - by destruct (truthy_present x), (truthy_present y).
Qed.

Lemma count_present_app l1 l2 :
  count_present (l1 ++ l2) = count_present l1 + count_present l2.
Proof.
  unfold count_present. rewrite List.filter_app, length_app. lia.
Qed.

Lemma count_present_le l : 0 <= count_present l <= Z.of_nat (List.length l).
Proof.
  unfold count_present. pose proof (List.filter_length_le truthy_present l). lia.
Qed.

Lemma day_stats_totals (groups : list (string * list AttendanceRecord.t)) :
  let dateStats :=
    map (fun '(day, dayRecords) =>
           let presentCount := count_present dayRecords in
           let totalCount := Z.of_nat (List.length dayRecords) in
           DateStat.mk day presentCount totalCount
             (percentage presentCount totalCount))
        groups in
  foldr Z.add 0 (map DateStat.totalCount dateStats)
  = Z.of_nat (List.length (concat (map snd groups)))
  /\ foldr Z.add 0 (map DateStat.presentCount dateStats)
     = count_present (concat (map snd groups))
  /\ map DateStat.date dateStats = map fst groups
  /\ (Forall (fun g => snd g <> []) groups ->
      Forall (fun s => 0 <= DateStat.presentCount s <= DateStat.totalCount s
                       /\ 1 <= DateStat.totalCount s) dateStats).
Proof.
  induction groups as [|[day dayRecords] groups (IH1 & IH2 & IH3 & IH4)]; cbn;
    [by repeat split|].
  cbn in IH1, IH2, IH3, IH4.
  rewrite IH1, IH2, IH3, length_app, count_present_app.
  split; [lia|]. split; [done|]. split; [done|].
  intros [Hne Hall]%Forall_cons. constructor; [|by apply IH4].
  cbn in *. pose proof (count_present_le dayRecords).
  destruct dayRecords; [done|]. cbn [List.length] in *. lia.
Qed.

End AttendanceStatistics.

(** X19: in the statistics of a date range, the per-day totals add up to
    the number of stored records in the range and the per-day present counts
    to the number of those marked present; every day listed has at least one
    record and no more present than recorded, and no day is listed twice.
    With no record in the range every figure is 0. *)
Theorem getAttendanceStats_day_counts_add_up
  (startDate endDate : JsDate.t) (w w' : World)
  (stats : AttendanceService.Stats.t) :
  AttendanceService.getAttendanceStats startDate endDate w = (Js.Return stats, w') ->
  let in_range :=
    List.filter
      (fun kv =>
         String.leb (format_yyyy_MM_dd startDate) (AttendanceRecord.date (snd kv))
         && String.leb (AttendanceRecord.date (snd kv)) (format_yyyy_MM_dd endDate))
      (map_to_list (attendance w)) in
  let dateStats := AttendanceService.Stats.dateStats stats in
  foldr Z.add 0 (map AttendanceService.DateStat.totalCount dateStats)
  = Z.of_nat (List.length in_range)
  /\ foldr Z.add 0 (map AttendanceService.DateStat.presentCount dateStats)
     = AttendanceService.count_present (map snd in_range)
  /\ Forall (fun s =>
               0 <= AttendanceService.DateStat.presentCount s
                 <= AttendanceService.DateStat.totalCount s
               /\ 1 <= AttendanceService.DateStat.totalCount s) dateStats
  /\ NoDup (map AttendanceService.DateStat.date dateStats)
  /\ AttendanceService.Stats.totalClasses stats = Z.of_nat (List.length dateStats)
  /\ (in_range = [] -> stats = AttendanceService.Stats.mk 0 0 0 []).
Proof.
  intros Hrun in_range dateStats. subst dateStats.
  destruct (next_fault w) as [e|] eqn:Hf.
  { by rewrite (getAttendanceStats_propagates startDate endDate w e Hf) in Hrun. }
  revert Hrun.
  unfold AttendanceService.getAttendanceStats, try_catch, bind, getDocs.
  rewrite (await_store_answers _ _ Hf).
  cbn [docs attendanceCol attendance advance]. fold in_range.
  intros [= <- _].
  cbn [AttendanceService.Stats.dateStats AttendanceService.Stats.totalClasses].
  set (records := map snd (Firestore.sort _ in_range)).
  assert (records ≡ₚ map snd in_range) as Hrecords
    by (unfold records; by rewrite sort_Permutation).
  destruct (by_date_groups records []) as (Hnd & Hgrouped & Hperm);
    [constructor | constructor |].
  cbv zeta in Hperm, Hgrouped, Hnd. cbn [map concat app] in Hperm.
  set (groups := fold_left _ records []) in *.
  pose proof (entries_Permutation groups) as Hentries.
  destruct (day_stats_totals (JsObject.entries groups)) as (Ht & Hp & Hd & Hall).
  cbv zeta in Ht, Hp, Hd, Hall.
  split; [|split; [|split; [|split; [|split]]]].
  - rewrite Ht, Hentries, Hperm, Hrecords. by rewrite length_map.
  - rewrite Hp. apply count_present_Permutation. by rewrite Hentries, Hperm.
  - apply Hall. rewrite Hentries. eapply Forall_impl; [exact Hgrouped|].
    by intros g [Hne _].
  - rewrite Hd, Hentries. exact Hnd.
  - done.
  - intros Hnone. assert (records = []) as Hempty.
    { unfold records. rewrite Hnone. done. }
    subst groups. rewrite Hempty. reflexivity.
Qed.

Lemma statistics_of_one_day :
  let in_range :=
    List.filter
      (fun kv =>
         String.leb (format_yyyy_MM_dd Examples.a_day)
           (AttendanceRecord.date (snd kv))
         && String.leb (AttendanceRecord.date (snd kv))
              (format_yyyy_MM_dd Examples.a_day))
      (map_to_list (attendance Examples.marked_world)) in
  let dateStats := AttendanceService.Stats.dateStats Examples.day_statistics in
  foldr Z.add 0 (map AttendanceService.DateStat.totalCount dateStats)
  = Z.of_nat (List.length in_range)
  /\ foldr Z.add 0 (map AttendanceService.DateStat.presentCount dateStats)
     = AttendanceService.count_present (map snd in_range)
  /\ Forall (fun s =>
               0 <= AttendanceService.DateStat.presentCount s
                 <= AttendanceService.DateStat.totalCount s
               /\ 1 <= AttendanceService.DateStat.totalCount s) dateStats
  /\ NoDup (map AttendanceService.DateStat.date dateStats)
  /\ AttendanceService.Stats.totalClasses Examples.day_statistics
     = Z.of_nat (List.length dateStats)
  /\ (in_range = [] ->
      Examples.day_statistics = AttendanceService.Stats.mk 0 0 0 []).
Proof.
  apply (getAttendanceStats_day_counts_add_up Examples.a_day Examples.a_day
           Examples.marked_world (advance Examples.marked_world)).
  vm_compute. reflexivity.
Defined.

(** ** The dates that have attendance records *)

Lemma compare_units_antisym a b :
  DefaultSort.compare_units b a = CompOpp (DefaultSort.compare_units a b).
Proof.
  revert b. induction a as [|x a IH]; intros [|y b]; cbn; try done.
  rewrite (Z.compare_antisym x y). destruct (x ?= y); cbn; [apply IH | done | done].
Qed.

Lemma DefaultSort_le_total a b :
  DefaultSort.le a b = false -> DefaultSort.le b a = true.
Proof.
  unfold DefaultSort.le.
  rewrite (compare_units_antisym (DefaultSort.code_units a) (DefaultSort.code_units b)).
  by destruct (DefaultSort.compare_units _ _).
Qed.

Lemma insert_sorted_Sorted {A} (le : A -> A -> bool) x l :
  (forall a b, le a b = false -> le b a = true) ->
  Sorted (fun a b => le a b = true) l ->
  Sorted (fun a b => le a b = true) (Firestore.insert_sorted le x l).
Proof.
  intros Htotal. induction 1 as [|y l Hl IH Hhd]; cbn.
  - by repeat constructor.
  - destruct (le x y) eqn:Hxy.
    + constructor; [by constructor|]. by constructor.
    + constructor; [exact IH|].
      destruct Hhd as [|z l Hyz]; cbn.
      * constructor. by apply Htotal.
      * destruct (le x z); constructor; [by apply Htotal | done].
Qed.

Lemma sort_Sorted {A} (le : A -> A -> bool) l :
  (forall a b, le a b = false -> le b a = true) ->
  Sorted (fun a b => le a b = true) (Firestore.sort le l).
Proof.
  intros Htotal. induction l as [|x l IH]; cbn; [constructor|].
  by apply insert_sorted_Sorted.
Qed.

Lemma Sorted_snoc {A} (R : A -> A -> Prop) l x :
  Sorted R l -> (forall y, last l = Some y -> R y x) -> Sorted R (l ++ [x]).
Proof.
  induction 1 as [|y l Hl IH Hhd]; intros Hlast; cbn.
  - by repeat constructor.
  - constructor.
    + apply IH. intros z Hz. apply Hlast. destruct l; [done|]. exact Hz.
    + destruct Hhd as [|z l Hyz]; cbn; constructor; [|done].
      by apply Hlast.
Qed.

Lemma Sorted_reverse {A} (R : A -> A -> Prop) l :
  Sorted R l -> Sorted (fun a b => R b a) (reverse l).
Proof.
  induction 1 as [|x l Hl IH Hhd]; [constructor|].
  rewrite reverse_cons. apply Sorted_snoc; [done|].
  intros y Hy. rewrite last_reverse in Hy.
  destruct Hhd as [|z l Hxz]; cbn in Hy; [done|]. by injection Hy as <-.
Qed.

Lemma Set_values_spec seen l :
  NoDup (Set_values seen l)
  /\ forall x, x ∈ Set_values seen l <-> x ∈ l /\ x ∉ seen.
Proof.
  revert seen. induction l as [|y l IH]; intros seen; cbn.
  - split; [constructor|]. intros x. rewrite elem_of_nil. tauto.
  - case_bool_decide as Hseen.
    + destruct (IH seen) as [Hnd Hin]. split; [done|].
      intros x. rewrite Hin, elem_of_cons. split; [tauto|].
      intros [[->|] ?]; done.
    + destruct (IH (y :: seen)) as [Hnd Hin]. split.
      * constructor; [|done]. rewrite Hin, elem_of_cons. tauto.
      * intros x. rewrite !elem_of_cons, Hin, elem_of_cons.
        destruct (decide (x = y)) as [->|]; tauto.
Qed.

Section AttendanceDates.

Import AttendanceService.

(** What the function makes of a result set. *)
Lemma dates_of_result_set (m : gmap string AttendanceRecord.t) orderBy :
  let querySnapshot :=
    Firestore.sort (result_le orderBy)
      (List.filter (fun _ => true) (map_to_list m)) in
  let dates :=
    reverse (DefaultSort.sort
               (Set_values [] (map (fun doc => AttendanceRecord.date (snd doc))
                                 querySnapshot))) in
  NoDup dates
  /\ Sorted (fun a b => DefaultSort.le b a = true) dates
  /\ forall d, d ∈ dates <->
               exists id r, m !! id = Some r /\ AttendanceRecord.date r = d.
Proof.
  intros querySnapshot dates.
  destruct (Set_values_spec []
              (map (fun doc => AttendanceRecord.date (snd doc)) querySnapshot))
    as [Hnd Hin].
  split; [|split].
  - unfold dates, DefaultSort.sort. by rewrite reverse_Permutation, sort_Permutation.
  - unfold dates. apply (Sorted_reverse (fun a b => DefaultSort.le a b = true)).
    apply sort_Sorted, DefaultSort_le_total.
  - intros d. unfold dates. rewrite elem_of_reverse.
    unfold DefaultSort.sort. rewrite sort_Permutation, Hin.
    unfold querySnapshot. rewrite filter_true, list_elem_of_fmap.
    split.
    + intros [([id r] & -> & Hr) _]. rewrite sort_Permutation in Hr.
      apply elem_of_map_to_list in Hr. by exists id, r.
    + intros (id & r & Hr & <-). split; [|apply not_elem_of_nil].
      exists (id, r). split; [done|].
      rewrite sort_Permutation. by apply elem_of_map_to_list.
Qed.

End AttendanceDates.

(** X20: the listing of attendance dates always returns and never throws.
    It lists no date twice and lists later dates first.  When the first read
    of the store, or the second one it falls back on, is answered, it lists
    exactly the dates of the stored records; when both fail it lists none. *)
Theorem getAttendanceDates_lists_each_date_once (w : World) :
  exists dates w',
    AttendanceService.getAttendanceDates w = (Js.Return dates, w')
    /\ NoDup dates
    /\ Sorted (fun a b => DefaultSort.le b a = true) dates
    /\ (next_fault w = None \/ next_fault (advance w) = None ->
        forall d, d ∈ dates <->
                  exists id r,
                    attendance w !! id = Some r /\ AttendanceRecord.date r = d)
    /\ (next_fault w <> None -> next_fault (advance w) <> None -> dates = []).
Proof.
  unfold AttendanceService.getAttendanceDates, try_catch, bind, getDocs, await_store.
  destruct (next_fault w) as [e1|] eqn:Hf1.
  - destruct (next_fault (advance w)) as [e2|] eqn:Hf2.
    + exists [], (advance (advance w)). split; [done|].
      split; [constructor|]. split; [constructor|]. split; [|done].
      by intros [|].
    + destruct (dates_of_result_set (attendance w) None) as (Hnd & Hsorted & Hin).
      do 2 eexists. split; [reflexivity|]. cbn [docs attendanceCol attendance advance].
      split; [exact Hnd|]. split; [exact Hsorted|]. split; [by intros _ | done].
  - destruct (dates_of_result_set (attendance w)
                (Some (AttendanceRecord.date, desc))) as (Hnd & Hsorted & Hin).
    do 2 eexists. split; [reflexivity|]. cbn [docs attendanceCol attendance advance].
    split; [exact Hnd|]. split; [exact Hsorted|]. split; [by intros _ | done].
Qed.

(** ** Signing in *)

(** X21: signing in reads the roster and writes nothing.  Whoever it
    admits, listed or not, gets the role [student], the account as subject
    and as [uid], and the address [account@gm.uit.edu.vn]; it rejects only
    when the store fails with an error that does not mention a permission. *)
Theorem signInWithAccount_admits_students_only
  (account : string) (w w' : World) (r : Js.completion AuthUser.t) :
  AuthService.signInWithAccount account w = (r, w') ->
  (students w' = students w /\ attendance w' = attendance w
   /\ grades w' = grades w)
  /\ (forall u, r = Js.Return u ->
        AuthUser.role u = student
        /\ AuthUser.studentAccount u = Some account
        /\ AuthUser.uid u = account
        /\ AuthUser.email u = account ++ "@gm.uit.edu.vn")
  /\ (forall e, r = Js.Throw e ->
        exists cause,
          next_fault w = Some cause
          /\ AuthService.is_permission_error cause = false
          /\ e = Js.new_Error ("Đăng nhập thất bại: " ++ Js.message cause)).
Proof.
  unfold AuthService.signInWithAccount, try_catch, bind, getDoc, await_store.
  destruct (next_fault w) as [cause|].
  - destruct (AuthService.is_permission_error cause) eqn:Hperm.
    + intros [= <- <-]. split; [done|]. split; [|done]. by intros u [= <-].
    + intros [= <- <-]. split; [done|]. split; [done|].
      intros e [= <-]. by exists cause.
  - cbn. destruct (students w !! account); intros [= <- <-];
      (split; [done|]; split; [|done]; by intros u [= <-]).
Qed.

Lemma signing_in_to_an_empty_roster :
  let run := AuthService.signInWithAccount "99999999" Examples.empty_world in
  (students (snd run) = students Examples.empty_world
   /\ attendance (snd run) = attendance Examples.empty_world
   /\ grades (snd run) = grades Examples.empty_world)
  /\ (forall u, fst run = Js.Return u ->
        AuthUser.role u = student
        /\ AuthUser.studentAccount u = Some "99999999"
        /\ AuthUser.uid u = "99999999"
        /\ AuthUser.email u = "99999999" ++ "@gm.uit.edu.vn")
  /\ (forall e, fst run = Js.Throw e ->
        exists cause,
          next_fault Examples.empty_world = Some cause
          /\ AuthService.is_permission_error cause = false
          /\ e = Js.new_Error ("Đăng nhập thất bại: " ++ Js.message cause)).
Proof.
  intros run.
  apply (signInWithAccount_admits_students_only "99999999" Examples.empty_world
           (snd run) (fst run)).
  reflexivity.
Defined.

(** X22: a visitor who is not signed in has no permission.  A signed-in
    student has [read_own] and nothing else; what a group leader may do a
    teacher may do as well; and only a teacher may edit grades. *)
Theorem hasPermission_by_role (u : AuthUser.t) (permission : string) :
  AuthService.hasPermission None permission = false
  /\ (AuthUser.role u = student ->
      (AuthService.hasPermission (Some u) permission = true
       <-> permission = "read_own"))
  /\ (forall leader teacher_,
        AuthUser.role leader = group_leader ->
        AuthUser.role teacher_ = teacher ->
        AuthService.hasPermission (Some u) permission = true ->
        AuthUser.role u = student \/ AuthUser.role u = group_leader ->
        AuthService.hasPermission (Some leader) permission = true
        /\ AuthService.hasPermission (Some teacher_) permission = true)
  /\ (AuthService.hasPermission (Some u) "edit_grades" = true
      <-> AuthUser.role u = teacher).
Proof.
  split; [done|]. unfold AuthService.hasPermission.
  split; [|split].
  - intros ->. cbn.
    destruct (String.eqb_spec permission "read_all") as [->|]; [done|].
    destruct (String.eqb_spec permission "edit_attendance") as [->|]; [done|].
    destruct (String.eqb_spec permission "edit_grades") as [->|]; [done|].
    destruct (String.eqb_spec permission "read_own") as [->|]; done.
  - intros leader teacher_ -> -> Hu Hrole.
    destruct (String.eqb permission "read_all"); [done|].
    destruct (String.eqb permission "edit_attendance"); [done|].
    destruct (String.eqb permission "edit_grades").
    + apply bool_decide_eq_true in Hu. destruct Hrole; congruence.
    + done.
  - cbn. apply bool_decide_eq_true.
Qed.

(** ** The attendance page *)

(** X23: a control the page enables is one its handler accepts: when
    [canInteractWithStudent] holds for a student, somebody is signed in and
    both handlers pass their checks for that student.  For a teacher who may
    mark attendance it holds for every account; for a permission whose role
    is neither teacher nor group leader it holds for none, even with the
    marking flag set. *)
Theorem canInteractWithStudent_implies_the_guards
  (st : AttendancePage.State) (target : string) :
  (AttendancePage.canInteractWithStudent st target = true ->
   exists u,
     AttendancePage.user st = Some u
     /\ AttendancePage.attendance_guard st target = AttendancePage.Proceed u
     /\ AttendancePage.participation_guard st target = AttendancePage.Proceed u)
  /\ (AttendancePage.user st <> None ->
      AttendancePage.may_mark st = true ->
      AttendancePage.has_role st teacher = true ->
      AttendancePage.canInteractWithStudent st target = true)
  /\ (AttendancePage.has_role st teacher = false ->
      AttendancePage.has_role st group_leader = false ->
      AttendancePage.canInteractWithStudent st target = false).
Proof.
  unfold AttendancePage.canInteractWithStudent, AttendancePage.attendance_guard,
    AttendancePage.participation_guard, AttendancePage.guard.
  split.
  - destruct (AttendancePage.user st) as [u|]; [|done].
    destruct (AttendancePage.may_mark st); [|done]. cbn [negb].
    intros H. exists u. split; [done|].
    destruct (AttendancePage.has_role st teacher) eqn:Hteacher.
    + assert (AttendancePage.has_role st group_leader = false) as ->; [|done].
      revert Hteacher. unfold AttendancePage.has_role.
      destruct (AttendancePage.userPermission st) as [p|]; [|done].
      intros ->%bool_decide_eq_true. done.
    + destruct (AttendancePage.has_role st group_leader); [|done].
      destruct (AttendancePage.own_account u); [|done].
      destruct (AttendancePage.find_student st s); [|done].
      destruct (AttendancePage.find_student st target); [|done].
      by rewrite H.
  - split.
    + destruct (AttendancePage.user st); [|done]. by intros _ -> ->.
    + intros -> ->. destruct (AttendancePage.user st); [|done].
      by destruct (negb _).
Qed.

(** X24: without a signed-in user, or without the permission to mark
    attendance, the controls of every student are disabled and neither
    handler writes to the store or changes the displayed attendance and
    counts; a visitor who is not signed in is shown the login dialog. *)
Theorem handlers_write_nothing_without_permission
  (localeCompare : string -> string -> Z) (st : AttendancePage.State)
  (target : string) (present : bool) (count : Z) (w : World) :
  AttendancePage.user st = None \/ AttendancePage.may_mark st = false ->
  let marked := AttendancePage.handleAttendanceChange localeCompare target present st w in
  let counted := AttendancePage.handleParticipationChange target count st w in
  AttendancePage.canInteractWithStudent st target = false
  /\ snd marked = w /\ snd counted = w
  /\ AttendancePage.attendance (fst marked) = AttendancePage.attendance st
  /\ AttendancePage.participation (fst counted) = AttendancePage.participation st
  /\ (AttendancePage.user st = None ->
      AttendancePage.showLoginModal (fst marked) = true
      /\ AttendancePage.showLoginModal (fst counted) = true).
Proof.
  intros Hno marked counted. subst marked counted.
  unfold AttendancePage.canInteractWithStudent, AttendancePage.handleAttendanceChange,
    AttendancePage.handleParticipationChange, AttendancePage.attendance_guard,
    AttendancePage.participation_guard, AttendancePage.guard.
  destruct (AttendancePage.user st) as [u|].
  - destruct Hno as [ Hu | -> ]; [done|]. cbn. by repeat split.
  - cbn. repeat split; by rewrite orb_true_r.
Qed.

Lemma a_visitor_changes_nothing :
  let marked :=
    AttendancePage.handleAttendanceChange Examples.byte_order "21520002" true
      Examples.visitor_page Examples.empty_world in
  let counted :=
    AttendancePage.handleParticipationChange "21520002" 1
      Examples.visitor_page Examples.empty_world in
  AttendancePage.canInteractWithStudent Examples.visitor_page "21520002" = false
  /\ snd marked = Examples.empty_world /\ snd counted = Examples.empty_world
  /\ AttendancePage.attendance (fst marked)
     = AttendancePage.attendance Examples.visitor_page
  /\ AttendancePage.participation (fst counted)
     = AttendancePage.participation Examples.visitor_page
  /\ (AttendancePage.user Examples.visitor_page = None ->
      AttendancePage.showLoginModal (fst marked) = true
      /\ AttendancePage.showLoginModal (fst counted) = true).
Proof.
  apply (handlers_write_nothing_without_permission Examples.byte_order
           Examples.visitor_page "21520002" true 1 Examples.empty_world).
  left. reflexivity.
Defined.

(** X25: when the checks of the attendance handler pass, it calls
    [markAttendance] for the student on the page's day, in the name of the
    signed-in user, and clears the saving mark.  If the call returns, the
    page shows the requested presence; if it fails, the page shows the
    opposite of the requested presence, the stored attendance is as before,
    and an error is reported.  The rows of the other students do not
    change. *)
Theorem handleAttendanceChange_outcome
  (localeCompare : string -> string -> Z) (st : AttendancePage.State)
  (target : string) (present : bool) (w : World) (u : AuthUser.t) :
  AttendancePage.attendance_guard st target = AttendancePage.Proceed u ->
  let saved :=
    AttendanceService.markAttendance localeCompare target
      (AttendancePage.today st) present (AttendancePage.actor u) w in
  let handled :=
    AttendancePage.handleAttendanceChange localeCompare target present st w in
  snd handled = snd saved
  /\ AttendancePage.saving (fst handled) = None
  /\ (forall other, other <> target ->
        AttendancePage.attendance (fst handled) !! other
        = AttendancePage.attendance st !! other)
  /\ (fst saved = Js.Return tt ->
      AttendancePage.attendance (fst handled) !! target = Some present)
  /\ (forall e, fst saved = Js.Throw e ->
        AttendancePage.attendance (fst handled) !! target = Some (negb present)
        /\ attendance (snd handled) = attendance w
        /\ AttendancePage.toasts (fst handled)
           = (AttendancePage.toasts st
              ++ [AttendancePage.toast_error "Không thể lưu điểm danh"])%list).
Proof.
  intros Hguard saved handled. subst handled.
  unfold AttendancePage.handleAttendanceChange. rewrite Hguard. fold saved.
  destruct saved as [[[]|e] w'] eqn:Hsaved; cbn.
  - split; [done|]. split; [done|]. split; [|split; [|done]].
    + intros other Hne. by apply lookup_insert_ne.
    + intros _. apply lookup_insert_eq.
  - split; [done|]. split; [done|]. split; [|split; [done|]].
    + intros other Hne. by rewrite !lookup_insert_ne.
    + intros e' _. split; [apply lookup_insert_eq|]. split; [|done].
      by apply (markAttendance_throws localeCompare _ _ _ _ _ _ _ Hsaved).
Qed.

Lemma a_leader_marks_a_group_mate :
  let saved :=
    AttendanceService.markAttendance Examples.byte_order "21520002"
      (AttendancePage.today Examples.leader_page) true
      (AttendancePage.actor (AuthService.mockUser "21520001" "An Nguyen"))
      Examples.write_fails in
  let handled :=
    AttendancePage.handleAttendanceChange Examples.byte_order "21520002" true
      Examples.leader_page Examples.write_fails in
  snd handled = snd saved
  /\ AttendancePage.saving (fst handled) = None
  /\ (forall other, other <> "21520002" ->
        AttendancePage.attendance (fst handled) !! other
        = AttendancePage.attendance Examples.leader_page !! other)
  /\ (fst saved = Js.Return tt ->
      AttendancePage.attendance (fst handled) !! "21520002" = Some true)
  /\ (forall e, fst saved = Js.Throw e ->
        AttendancePage.attendance (fst handled) !! "21520002" = Some (negb true)
        /\ attendance (snd handled) = attendance Examples.write_fails
        /\ AttendancePage.toasts (fst handled)
           = (AttendancePage.toasts Examples.leader_page
              ++ [AttendancePage.toast_error "Không thể lưu điểm danh"])%list).
Proof.
  apply (handleAttendanceChange_outcome Examples.byte_order Examples.leader_page
           "21520002" true Examples.write_fails
           (AuthService.mockUser "21520001" "An Nguyen")).
  reflexivity.
Defined.

(** X26: when the checks of the participation handler pass, the page
    shows the requested count afterwards whether or not the store accepted
    it: the step that follows a failed save writes the requested count
    again.  After a failed save the stored attendance is as before, so the
    page and the store disagree. *)
Theorem handleParticipationChange_keeps_the_requested_count
  (st : AttendancePage.State) (target : string) (count : Z) (w : World)
  (u : AuthUser.t) :
  AttendancePage.participation_guard st target = AttendancePage.Proceed u ->
  let saved :=
    AttendanceService.updateParticipation target (AttendancePage.today st) count
      (AttendancePage.actor u) w in
  let handled := AttendancePage.handleParticipationChange target count st w in
  snd handled = snd saved
  /\ AttendancePage.saving (fst handled) = None
  /\ AttendancePage.participation (fst handled) !! target = Some count
  /\ (forall other, other <> target ->
        AttendancePage.participation (fst handled) !! other
        = AttendancePage.participation st !! other)
  /\ (forall e, fst saved = Js.Throw e ->
        attendance (snd handled) = attendance w
        /\ AttendancePage.toasts (fst handled)
           = (AttendancePage.toasts st
              ++ [AttendancePage.toast_error
                    "Không thể cập nhật số lần phát biểu"])%list).
Proof.
  intros Hguard saved handled. subst handled.
  unfold AttendancePage.handleParticipationChange. rewrite Hguard. fold saved.
  pose proof (updateParticipation_run target (AttendancePage.today st) count
                (AttendancePage.actor u) w) as Hrun.
  fold saved in Hrun.
  destruct saved as [[[]|e] w'] eqn:Hsaved; cbn.
  - split; [done|]. split; [done|]. split; [apply lookup_insert_eq|].
    split; [|done]. intros other Hne. by apply lookup_insert_ne.
  - split; [done|]. split; [done|]. rewrite !lookup_insert_eq. cbn.
    split; [done|]. split.
    + intros other Hne. by rewrite !lookup_insert_ne.
    + intros e' _. split; [|done].
      destruct (next_fault w); [|done]. by injection Hrun as _ ->.
Qed.

Lemma a_count_the_store_refuses :
  let saved :=
    AttendanceService.updateParticipation "21520002"
      (AttendancePage.today Examples.leader_page) 2
      (AttendancePage.actor (AuthService.mockUser "21520001" "An Nguyen"))
      Examples.failing_world in
  let handled :=
    AttendancePage.handleParticipationChange "21520002" 2 Examples.leader_page
      Examples.failing_world in
  snd handled = snd saved
  /\ AttendancePage.saving (fst handled) = None
  /\ AttendancePage.participation (fst handled) !! "21520002" = Some 2
  /\ (forall other, other <> "21520002" ->
        AttendancePage.participation (fst handled) !! other
        = AttendancePage.participation Examples.leader_page !! other)
  /\ (forall e, fst saved = Js.Throw e ->
        attendance (snd handled) = attendance Examples.failing_world
        /\ AttendancePage.toasts (fst handled)
           = (AttendancePage.toasts Examples.leader_page
              ++ [AttendancePage.toast_error
                    "Không thể cập nhật số lần phát biểu"])%list).
Proof.
  apply (handleParticipationChange_keeps_the_requested_count Examples.leader_page
           "21520002" 2 Examples.failing_world
           (AuthService.mockUser "21520001" "An Nguyen")).
  reflexivity.
Defined.

(** ** Permissions *)

Section PermissionStore.

Import PermissionService.

(** The back end once a store call has been answered. *)
Let later (b : Backend) : Backend :=
  mkBackend (advance (world b)) (permissions b).

Lemma getPermission_run account b :
  getPermission account b
  = (Js.Return (match next_fault (world b) with
                | Some _ => None
                | None => Stored.mk account <$> permissions b !! account
                end),
     later b).
Proof.
  unfold getPermission, try_catch, bind, getDoc, PermissionService.await_store.
  destruct (next_fault (world b)); [done|]. cbn.
  by destruct (permissions b !! account).
Qed.

Lemma flag_check_run flag account b :
  try_catch
    (bind (getPermission account) (fun permission => ret (flag_of flag permission)))
    (fun error => ret false) b
  = (Js.Return (match next_fault (world b) with
                | Some _ => false
                | None => match permissions b !! account with
                          | Some p => flag p
                          | None => false
                          end
                end),
     later b).
Proof.
  unfold try_catch, bind. rewrite getPermission_run. unfold ret. f_equal. f_equal.
  destruct (next_fault (world b)); [done|].
  by destruct (permissions b !! account).
Qed.

(** The document [setPermission] leaves for an account. *)
Let written (permission : Input.t) (b : Backend) : StudentPermission.t :=
  match permissions b !! Input.studentAccount permission with
  | Some old => permissionData permission (clock (world b) + 1) old
  | None => newPermission permission (clock (world b) + 1) (clock (world b) + 1)
  end.

Lemma setPermission_run permission b :
  setPermission permission b =
    match next_fault (world b), next_fault (advance (world b)) with
    | None, None =>
        (Js.Return tt,
         mkBackend (advance (advance (world b)))
           (<[Input.studentAccount permission := written permission b]>
              (permissions b)))
    | None, Some _ =>
        (Js.Throw (Js.new_Error "Không thể cập nhật quyền hạn."), later (later b))
    | Some _, _ =>
        (Js.Throw (Js.new_Error "Không thể cập nhật quyền hạn."), later b)
    end.
Proof.
  unfold setPermission, try_catch, bind at 1, getDoc, PermissionService.await_store at 1.
  destruct (next_fault (world b)); [done|]. cbn [world permissions].
  unfold bind, PermissionService.Timestamp_now, written.
  destruct (permissions b !! Input.studentAccount permission) as [old|] eqn:Hold;
    unfold updateDoc, setDoc, PermissionService.await_store; cbn [world permissions];
    destruct (next_fault (advance (world b))); try done.
  cbn. by rewrite Hold.
Qed.

Lemma setPermission_keeps_on_failure permission b e b' :
  setPermission permission b = (Js.Throw e, b') ->
  permissions b' = permissions b.
Proof.
  rewrite setPermission_run.
  destruct (next_fault (world b)), (next_fault (advance (world b)));
    by intros [= _ <-].
Qed.

(** A write wrapped to answer whether it went through. *)
Lemma setPermission_report permission b :
  try_catch (bind (setPermission permission) (fun _ => ret true))
            (fun error => ret false) b
  = match next_fault (world b), next_fault (advance (world b)) with
    | None, None =>
        (Js.Return true,
         mkBackend (advance (advance (world b)))
           (<[Input.studentAccount permission := written permission b]>
              (permissions b)))
    | None, Some _ => (Js.Return false, later (later b))
    | Some _, _ => (Js.Return false, later b)
    end.
Proof.
  unfold try_catch, bind. rewrite setPermission_run.
  by destruct (next_fault (world b)), (next_fault (advance (world b))).
Qed.

Lemma deletePermission_run account b :
  deletePermission account b =
    match next_fault (world b) with
    | Some _ => (Js.Throw (Js.new_Error "Không thể xóa quyền hạn."), later b)
    | None =>
        (Js.Return tt,
         mkBackend (advance (world b)) (delete account (permissions b)))
    end.
Proof.
  unfold deletePermission, try_catch, deleteDoc, PermissionService.await_store.
  by destruct (next_fault (world b)).
Qed.

End PermissionStore.

(** X27: the permission checks deny by default and never throw.
    [canMarkAttendance] and [canEditGrades] answer [true] only when the store
    answers and holds a permission of the account with that flag set; with no
    such document, or when the store fails, they answer [false].  They write
    nothing. *)
Theorem permission_checks_deny_by_default
  (account : string) (b : PermissionService.Backend) :
  exists mark edit b1 b2,
    PermissionService.canMarkAttendance account b = (Js.Return mark, b1)
    /\ PermissionService.canEditGrades account b = (Js.Return edit, b2)
    /\ PermissionService.permissions b1 = PermissionService.permissions b
    /\ PermissionService.permissions b2 = PermissionService.permissions b
    /\ (mark = true <->
        next_fault (PermissionService.world b) = None
        /\ exists p,
             PermissionService.permissions b !! account = Some p
             /\ StudentPermission.canMarkAttendance p = true)
    /\ (edit = true <->
        next_fault (PermissionService.world b) = None
        /\ exists p,
             PermissionService.permissions b !! account = Some p
             /\ StudentPermission.canEditGrades p = true).
Proof.
  unfold PermissionService.canMarkAttendance, PermissionService.canEditGrades.
  rewrite !flag_check_run. do 4 eexists.
  split; [reflexivity|]. split; [reflexivity|]. split; [done|]. split; [done|].
  destruct (next_fault (PermissionService.world b)).
  - split; (split; [done | by intros [? _]]).
  - destruct (PermissionService.permissions b !! account) as [p|].
    + split; (split; [intros H; split; [done|]; by exists p
                     | by intros [_ (p' & [= <-] & H)]]).
    + split; (split; [done | by intros [_ (p' & ? & _)]]).
Qed.

(** X28: when the store answers, a permission that was set is the one a
    read of the account returns: the flags, the role and the account are the
    ones given and the update time is the time of the write.  The creation
    time of an existing permission is kept, and so is its creator when none
    is given; a new permission gets the time of the write.  The permissions
    of the other accounts are untouched. *)
Theorem setPermission_then_getPermission
  (permission : PermissionService.Input.t) (b : PermissionService.Backend) :
  no_fault_within 3 (PermissionService.world b) ->
  let account := PermissionService.Input.studentAccount permission in
  let before := PermissionService.permissions b !! account in
  exists b' p,
    PermissionService.setPermission permission b = (Js.Return tt, b')
    /\ fst (PermissionService.getPermission account b')
       = Js.Return (Some (PermissionService.Stored.mk account p))
    /\ StudentPermission.studentAccount p = account
    /\ StudentPermission.canMarkAttendance p
       = PermissionService.Input.canMarkAttendance permission
    /\ StudentPermission.canEditGrades p
       = PermissionService.Input.canEditGrades permission
    /\ StudentPermission.isGroupLeader p
       = PermissionService.Input.isGroupLeader permission
    /\ StudentPermission.role p = PermissionService.Input.role permission
    /\ StudentPermission.updatedAt p = clock (PermissionService.world b) + 1
    /\ StudentPermission.createdAt p
       = default (clock (PermissionService.world b) + 1)
           (StudentPermission.createdAt <$> before)
    /\ StudentPermission.createdBy p
       = match PermissionService.Input.createdBy permission with
         | Some c => Some c
         | None => before ≫= StudentPermission.createdBy
         end
    /\ (forall other, other <> account ->
          PermissionService.permissions b' !! other
          = PermissionService.permissions b !! other).
Proof.
  intros Hf account before.
  apply no_fault_within_step in Hf as [Hf1 Hf].
  apply no_fault_within_step in Hf as [Hf2 Hf].
  apply no_fault_within_step in Hf as [Hf3 _].
  rewrite setPermission_run, Hf1, Hf2. do 2 eexists. split; [reflexivity|].
  rewrite getPermission_run. cbn [fst PermissionService.world PermissionService.permissions].
  rewrite Hf3. fold account. rewrite lookup_insert_eq. cbn [fmap option_fmap option_map].
  split; [reflexivity|].
  subst before. destruct (PermissionService.permissions b !! account) as [old|]; cbn.
  - repeat split; try done. intros other Hne. by apply lookup_insert_ne.
  - repeat split; try done.
    + by destruct (PermissionService.Input.createdBy permission).
    + intros other Hne. by apply lookup_insert_ne.
Qed.

Lemma a_leader_is_registered :
  let permission := Examples.leader_input in
  let b := Examples.empty_backend in
  let account := PermissionService.Input.studentAccount permission in
  let before := PermissionService.permissions b !! account in
  exists b' p,
    PermissionService.setPermission permission b = (Js.Return tt, b')
    /\ fst (PermissionService.getPermission account b')
       = Js.Return (Some (PermissionService.Stored.mk account p))
    /\ StudentPermission.studentAccount p = account
    /\ StudentPermission.canMarkAttendance p
       = PermissionService.Input.canMarkAttendance permission
    /\ StudentPermission.canEditGrades p
       = PermissionService.Input.canEditGrades permission
    /\ StudentPermission.isGroupLeader p
       = PermissionService.Input.isGroupLeader permission
    /\ StudentPermission.role p = PermissionService.Input.role permission
    /\ StudentPermission.updatedAt p = clock (PermissionService.world b) + 1
    /\ StudentPermission.createdAt p
       = default (clock (PermissionService.world b) + 1)
           (StudentPermission.createdAt <$> before)
    /\ StudentPermission.createdBy p
       = match PermissionService.Input.createdBy permission with
         | Some c => Some c
         | None => before ≫= StudentPermission.createdBy
         end
    /\ (forall other, other <> account ->
          PermissionService.permissions b' !! other
          = PermissionService.permissions b !! other).
Proof.
  apply (setPermission_then_getPermission Examples.leader_input
           Examples.empty_backend).
  apply no_fault_within_nil. reflexivity.
Defined.

(** X29: when the store answers, an account that was granted the
    attendance permission, under any role, passes the attendance check, and
    one whose permission was revoked or deleted does not.  Neither the grant
    nor the revocation ever throws: each reports a failure by answering
    [false], and has then changed no permission. *)
Theorem grant_and_revoke_decide_the_attendance_check
  (mssv : string) (role : UserRole) (b : PermissionService.Backend) :
  let granted := PermissionSetup.grantAttendancePermission mssv role b in
  let revoked := PermissionSetup.revokeAttendancePermission mssv b in
  let deleted := PermissionService.deletePermission mssv b in
  (exists ok, fst granted = Js.Return ok
              /\ (ok = false ->
                  PermissionService.permissions (snd granted)
                  = PermissionService.permissions b))
  /\ (exists ok, fst revoked = Js.Return ok
                 /\ (ok = false ->
                     PermissionService.permissions (snd revoked)
                     = PermissionService.permissions b))
  /\ (no_fault_within 3 (PermissionService.world b) ->
      fst granted = Js.Return true
      /\ fst (PermissionService.canMarkAttendance mssv (snd granted))
         = Js.Return true
      /\ fst revoked = Js.Return true
      /\ fst (PermissionService.canMarkAttendance mssv (snd revoked))
         = Js.Return false)
  /\ (no_fault_within 2 (PermissionService.world b) ->
      fst deleted = Js.Return tt
      /\ fst (PermissionService.canMarkAttendance mssv (snd deleted))
         = Js.Return false).
Proof.
  intros granted revoked deleted. subst granted revoked deleted.
  unfold PermissionSetup.grantAttendancePermission,
    PermissionSetup.revokeAttendancePermission.
  rewrite !setPermission_report.
  unfold PermissionService.canMarkAttendance.
  split; [|split; [|split]].
  - destruct (next_fault (PermissionService.world b)),
      (next_fault (advance (PermissionService.world b))); cbn; eexists; by split.
  - destruct (next_fault (PermissionService.world b)),
      (next_fault (advance (PermissionService.world b))); cbn; eexists; by split.
  - intros Hf.
    apply no_fault_within_step in Hf as [Hf1 Hf].
    apply no_fault_within_step in Hf as [Hf2 Hf].
    apply no_fault_within_step in Hf as [Hf3 _].
    rewrite Hf1, Hf2. cbn [fst snd].
    rewrite !flag_check_run.
    cbn [fst PermissionService.world PermissionService.permissions
         PermissionService.Input.studentAccount].
    rewrite Hf3, !lookup_insert_eq.
    repeat split; by destruct (PermissionService.permissions b !! mssv).
  - intros Hf.
    apply no_fault_within_step in Hf as [Hf1 Hf].
    apply no_fault_within_step in Hf as [Hf2 _].
    rewrite deletePermission_run, Hf1. cbn [fst snd]. split; [done|].
    rewrite flag_check_run.
    cbn [fst PermissionService.world PermissionService.permissions].
    by rewrite Hf2, lookup_delete_eq.
Qed.

Section MonitorSetup.

Import PermissionService PermissionSetup.

Lemma grantAttendancePermission_returns mssv role b :
  exists ok b', grantAttendancePermission mssv role b = (Js.Return ok, b').
Proof.
  unfold grantAttendancePermission, try_catch, bind.
  destruct (setPermission _ b) as [[[]|e] b']; by do 2 eexists.
Qed.

Lemma allSettled_grants monitorMSSVs b :
  exists results b',
    Promise_allSettled
      (map (fun mssv => grantAttendancePermission mssv group_leader) monitorMSSVs) b
    = (Js.Return results, b')
    /\ List.length results = List.length monitorMSSVs
    /\ List.filter fulfilled results = results.
Proof.
  revert b. induction monitorMSSVs as [|mssv rest IH]; intros b; cbn.
  - by exists [], b.
  - destruct (grantAttendancePermission_returns mssv group_leader b)
      as (ok & b1 & ->).
    destruct (IH b1) as (results & b2 & -> & Hlen & Hall).
    exists (Js.Return ok :: results), b2. cbn. by rewrite Hlen, Hall.
Qed.

End MonitorSetup.

(** X30: the set-up of class monitors always returns, and always reports
    every account as successful and none as failed, whatever the store
    answers: a grant that fails resolves to [false] instead of rejecting, and
    only rejections are counted as failures. *)
Theorem setupClassMonitors_never_reports_a_failure
  (monitorMSSVs : list string) (b : PermissionService.Backend) :
  exists b',
    PermissionSetup.setupClassMonitors monitorMSSVs b
    = (Js.Return
         (PermissionSetup.Report.mk (Z.of_nat (List.length monitorMSSVs)) 0),
       b').
Proof.
  unfold PermissionSetup.setupClassMonitors, PermissionService.bind.
  destruct (allSettled_grants monitorMSSVs b) as (results & b' & -> & Hlen & Hall).
  exists b'. unfold PermissionService.ret. rewrite Hall, Hlen. do 3 f_equal. lia.
Qed.
